(** * actual-budget-mcp: the tool layer and its ledger client

  A shallow embedding of [src/actual-client.ts] (the wrapper around the
  Actual Budget API), of [src/tools.ts] (the MCP tool handlers) and of the
  configuration and the token check of [src/index.ts] (the server), and the
  properties of the resolution-and-aggregation core, of the connection and
  of the server's start proved about them.

  Conventions.
  - A JavaScript [number] is an IEEE-754 binary64 value: Rocq's primitive
    [float], whose operations the Standard Library specifies in [FloatAxioms]
    by the functions of [SpecFloat].  Array lengths are [nat].
  - A JavaScript string is a [string]; [toLowerCase] maps the ASCII letters
    (the case mapping of the other code points is not modelled).
  - An optional property ([x?: T], or a value that may be [undefined] or
    [null]) is an [option].
  - An [async] function is a program of the monad [prog]: a tree of calls
    to the backing store ([@actual-app/api]), to the clock and to the
    client's own [initialized] field, with [throw] as a leaf.  [run]
    executes a program against an arbitrary backing store and records the
    calls that were made, with their answers. *)

From Stdlib Require Import ZArith List String Ascii Bool Lia Sorted Permutation.
From Stdlib Require Import PrimFloat FloatOps SpecFloat FloatAxioms Uint63.
Import ListNotations.

Local Open Scope string_scope.
Local Open Scope list_scope.

(** ** JavaScript built-ins used by the sources *)

Module JS.

Definition number := float.

(** *** Strings *)

Definition lower_ascii (c : ascii) : ascii :=
  let n := nat_of_ascii c in
  if (65 <=? n)%nat && (n <=? 90)%nat then ascii_of_nat (n + 32) else c.

(** [s.toLowerCase()] *)
Fixpoint toLowerCase (s : string) : string :=
  match s with
  | EmptyString => EmptyString
  | String c s' => String (lower_ascii c) (toLowerCase s')
  end.

(** [s.includes(sub)] *)
Fixpoint includes (s sub : string) : bool :=
  String.prefix sub s
  || match s with
     | EmptyString => false
     | String _ s' => includes s' sub
     end.

(** [a.localeCompare(b)], as a number that is negative, zero or positive.
    The sources compare ISO calendar dates only ([YYYY-MM-DD]: digits and
    hyphens at fixed places), on which the collation order is the
    lexicographic order of the characters. *)
Definition localeCompare (a b : string) : number :=
  match String.compare a b with
  | Lt => (-1)%float
  | Eq => 0%float
  | Gt => 1%float
  end.

(** [s.split(sep)[0]]: the text before the first [sep]. *)
Fixpoint before (sep : ascii) (s : string) : string :=
  match s with
  | EmptyString => EmptyString
  | String c s' => if Ascii.eqb c sep then EmptyString else String c (before sep s')
  end.

(** Truthiness of a string that may be [undefined]: [""] is falsy. *)
Definition truthy_string (s : option string) : bool :=
  match s with
  | Some (String _ _) => true
  | _ => false
  end.

(** [s || d] for a string that may be [undefined]. *)
Definition or_string (s : option string) (d : string) : string :=
  match s with
  | Some (String c s') => String c s'
  | _ => d
  end.

(** [b || false] for a boolean that may be [undefined]. *)
Definition or_false (b : option bool) : bool :=
  match b with
  | Some true => true
  | _ => false
  end.

(** *** Numbers *)

(** Truthiness of a number: [0], [-0] and [NaN] are falsy. *)
Definition truthy_number (x : number) : bool :=
  match Prim2SF x with
  | S754_zero _ => false
  | S754_nan => false
  | _ => true
  end.

(** [x || d] for a number. *)
Definition or_number (x : number) (d : number) : number :=
  if truthy_number x then x else d.

(** [x || d] for a number that may be [undefined]. *)
Definition or_number_opt (x : option number) (d : number) : number :=
  match x with
  | Some v => or_number v d
  | None => d
  end.

(** The number with integer value [z], for [|z| < 2^63] (exact up to
    [2^53]). *)
Definition of_int (z : Z) : number :=
  match z with
  | Z0 => 0%float
  | Zpos p => PrimFloat.of_uint63 (Uint63.of_pos p)
  | Zneg p => PrimFloat.opp (PrimFloat.of_uint63 (Uint63.of_pos p))
  end.

(** [Math.round(x)]: the integer nearest to [x], the larger one at a tie;
    that is [floor (x + 1/2)], computed exactly on the mantissa [m] and the
    exponent [e] of [x = (+/-) m * 2^e].  A result of zero keeps the sign of
    [x]; zeros, infinities and [NaN] are returned as they are. *)
Definition Math_round (x : number) : number :=
  match Prim2SF x with
  | S754_finite s m e =>
      if (0 <=? e)%Z then x
      else
        let v := if s then Z.neg m else Z.pos m in
        let r := Z.shiftr (2 * v + 2 ^ (- e)) (1 - e) in
        if (r =? 0)%Z then (if s then (-0)%float else 0%float) else of_int r
  | _ => x
  end.

Definition Math_abs (x : number) : number := PrimFloat.abs x.

(** [x < y], [x > y], [x >= y], [x <= y] on numbers. *)
Definition lt (x y : number) : bool := PrimFloat.ltb x y.
Definition gt (x y : number) : bool := PrimFloat.ltb y x.
Definition ge (x y : number) : bool := PrimFloat.leb y x.
Definition le (x y : number) : bool := PrimFloat.leb x y.

(** [x === y] on numbers. *)
Definition strict_eq (x y : number) : bool := PrimFloat.eqb x y.

(** *** Arrays *)

Inductive IntegerOrInfinity : Type :=
| NegInfinity
| Finite (z : Z)
| PosInfinity.

(** The abstract operation [ToIntegerOrInfinity]: [NaN] and the zeros give
    0, a finite number is truncated towards zero. *)
Definition ToIntegerOrInfinity (x : number) : IntegerOrInfinity :=
  match Prim2SF x with
  | S754_zero _ => Finite 0
  | S754_nan => Finite 0
  | S754_infinity s => if s then NegInfinity else PosInfinity
  | S754_finite s m e =>
      let mag := if (0 <=? e)%Z then Z.shiftl (Z.pos m) e
                 else Z.shiftr (Z.pos m) (- e) in
      Finite (if s then (- mag)%Z else mag)
  end.

(** [l.slice(0, stop)]: a negative [stop] counts from the end of the
    array. *)
Definition slice0 {A : Type} (l : list A) (stop : number) : list A :=
  let len := Z.of_nat (List.length l) in
  let final :=
    match ToIntegerOrInfinity stop with
    | NegInfinity => 0%Z
    | Finite r => if (r <? 0)%Z then Z.max (len + r) 0 else Z.min r len
    | PosInfinity => len
    end in
  firstn (Z.to_nat final) l.

(** [l.find(p)] *)
Definition find {A : Type} (p : A -> bool) (l : list A) : option A :=
  List.find p l.

(** [l.sort(cmp)]: the sort is stable, and [cmp a b > 0] asks for [b]
    before [a].  With a comparator that is a consistent ordering every
    stable sort gives the same array; this one inserts from the right. *)
Fixpoint sort_insert {A : Type} (cmp : A -> A -> number) (x : A) (l : list A)
  : list A :=
  match l with
  | [] => [x]
  | y :: l' => if gt (cmp x y) 0%float then y :: sort_insert cmp x l'
               else x :: y :: l'
  end.

Definition sort {A : Type} (cmp : A -> A -> number) (l : list A) : list A :=
  fold_right (sort_insert cmp) [] l.

(** [l.reduce(f, init)] *)
Definition reduce {A B : Type} (f : B -> A -> B) (init : B) (l : list A) : B :=
  fold_left f l init.

(** *** Map *)

(** A [Map] with string keys: the entries in insertion order.  [set] on a
    key that is present replaces its value in place. *)
Definition Map (V : Type) := list (string * V).

Fixpoint Map_get {V : Type} (m : Map V) (k : string) : option V :=
  match m with
  | [] => None
  | (k', v) :: m' => if String.eqb k' k then Some v else Map_get m' k
  end.

Fixpoint Map_set {V : Type} (m : Map V) (k : string) (v : V) : Map V :=
  match m with
  | [] => [(k, v)]
  | (k', v') :: m' =>
      if String.eqb k' k then (k', v) :: m' else (k', v') :: Map_set m' k v
  end.

(** [new Map(entries)] *)
Definition Map_new {V : Type} (entries : list (string * V)) : Map V :=
  fold_left (fun m kv => Map_set m (fst kv) (snd kv)) entries [].

(** [Array.from(m.entries())] *)
Definition Map_entries {V : Type} (m : Map V) : list (string * V) := m.

End JS.

(** ** Data model ([src/actual-client.ts], lines 8-124) *)

Module ActualConfig.
Record t : Type := mk {
  serverURL : string;
  password : string;
  budgetId : string;
  encryptionPassword : option string;
  dataDir : option string
}.
End ActualConfig.

Module Transaction.
Record t : Type := mk {
  id : option string;
  account : string;
  date : string;
  amount : JS.number;
  payee : option string;
  payee_name : option string;
  category : option string;
  notes : option string;
  imported_id : option string;
  cleared : option bool
}.
End Transaction.

(** [Partial<Transaction>]: the fields of an update; [None] is a key that the
  object does not have. *)
Module PartialTransaction.
Record t : Type := mk {
  id : option string;
  account : option string;
  date : option string;
  amount : option JS.number;
  payee : option string;
  payee_name : option string;
  category : option string;
  notes : option string;
  imported_id : option string;
  cleared : option bool
}.
End PartialTransaction.

Module Account.
Record t : Type := mk {
  id : string;
  name : string;
  offbudget : option bool;
  closed : option bool
}.
End Account.

Module Category.
Record t : Type := mk {
  id : string;
  name : string;
  group_id : option string;
  is_income : option bool
}.
End Category.

Module CategoryGroup.
Record t : Type := mk {
  id : string;
  name : string;
  is_income : option bool;
  categories : option (list Category.t)
}.
End CategoryGroup.

Module Payee.
Record t : Type := mk {
  id : string;
  name : string;
  category : option string;
  transfer_acct : option string
}.
End Payee.

Module CategoryBudget.
Record t : Type := mk {
  id : string;
  name : string;
  budgeted : JS.number;
  spent : JS.number;
  balance : JS.number;
  carryover : bool
}.
End CategoryBudget.

Module CategoryGroupBudget.
Record t : Type := mk {
  id : string;
  name : string;
  budgeted : JS.number;
  spent : JS.number;
  balance : JS.number;
  categories : list CategoryBudget.t
}.
End CategoryGroupBudget.

Module BudgetMonth.
Record t : Type := mk {
  month : string;
  incomeAvailable : JS.number;
  lastMonthOverspent : JS.number;
  forNextMonth : JS.number;
  totalBudgeted : JS.number;
  toBudget : JS.number;
  categoryGroups : list CategoryGroupBudget.t
}.
End BudgetMonth.

(** What [api.getBudgetMonth] answers, read as [any]: every property may be
  missing. *)
Module RawCategoryBudget.
Record t : Type := mk {
  id : option string;
  name : option string;
  budgeted : option JS.number;
  spent : option JS.number;
  balance : option JS.number;
  carryover : option bool
}.
End RawCategoryBudget.

Module RawCategoryGroupBudget.
Record t : Type := mk {
  id : option string;
  name : option string;
  budgeted : option JS.number;
  spent : option JS.number;
  balance : option JS.number;
  categories : option (list RawCategoryBudget.t)
}.
End RawCategoryGroupBudget.

Module RawBudgetMonth.
Record t : Type := mk {
  month : option string;
  incomeAvailable : option JS.number;
  lastMonthOverspent : option JS.number;
  forNextMonth : option JS.number;
  totalBudgeted : option JS.number;
  toBudget : option JS.number;
  categoryGroups : option (list RawCategoryGroupBudget.t)
}.
End RawBudgetMonth.

Module SchedulePattern.
Record t : Type := mk {
  type : string;
  value : JS.number
}.
End SchedulePattern.

(** The recurrence of a schedule.  [frequency] is one of ["daily"],
  ["weekly"], ["monthly"], ["yearly"]; [None] is a key that the object does
  not have. *)
Module ScheduleDate.
Record t : Type := mk {
  frequency : option string;
  interval : option JS.number;
  start : option string;
  endMode : option string;
  endOccurrences : option JS.number;
  endDate : option string;
  skipWeekend : option bool;
  weekendSolveMode : option string;
  patterns : option (list SchedulePattern.t)
}.
End ScheduleDate.

(** [number | { num1: number; num2: number }] *)
Inductive ScheduleAmount : Type :=
| AmountNumber (n : JS.number)
| AmountRange (num1 num2 : JS.number).

(** [string | ScheduleDate] *)
Inductive ScheduleDateValue : Type :=
| DateString (s : string)
| DateObject (d : ScheduleDate.t).

Module Schedule.
Record t : Type := mk {
  id : string;
  name : option string;
  rule : option string;
  next_date : option string;
  completed : option bool;
  posts_transaction : option bool;
  _payee : option string;
  _account : option string;
  _amount : option ScheduleAmount;
  _amountOp : option string;
  _date : option ScheduleDateValue
}.
End Schedule.

Module CreateScheduleInput.
Record t : Type := mk {
  name : option string;
  posts_transaction : option bool;
  payee : option string;
  account : option string;
  amount : option ScheduleAmount;
  amountOp : option string;
  date : ScheduleDateValue
}.
End CreateScheduleInput.

(** [Partial<CreateScheduleInput>] *)
Module PartialScheduleInput.
Record t : Type := mk {
  name : option string;
  posts_transaction : option bool;
  payee : option string;
  account : option string;
  amount : option ScheduleAmount;
  amountOp : option string;
  date : option ScheduleDateValue
}.
End PartialScheduleInput.

(** What [api.importTransactions] answers. *)
Module ImportResult.
Record t : Type := mk {
  added : list string;
  updated : list string
}.
End ImportResult.

(** A [Date] object, by the text its [toISOString()] gives. *)
Module Date.
Record t : Type := mk {
  toISOString : string
}.
End Date.

(** ** The backing store, the clock and asynchronous programs *)

(** The calls of [@actual-app/api] that the client makes, each with the type
    of what its promise resolves to. *)
Inductive apiE : Type -> Type :=
| api_init (serverURL password dataDir : string) : apiE unit
| api_downloadBudget (budgetId : string) (password : option string) : apiE unit
| api_shutdown : apiE unit
| api_sync : apiE unit
| api_getAccounts : apiE (list Account.t)
| api_getAccountBalance (id : string) : apiE JS.number
| api_getTransactions (accountId startDate endDate : string)
  : apiE (list Transaction.t)
| api_importTransactions (accountId : string) (transactions : list Transaction.t)
  : apiE ImportResult.t
| api_updateTransaction (id : string) (fields : PartialTransaction.t) : apiE unit
| api_deleteTransaction (id : string) : apiE unit
| api_getCategories : apiE (list Category.t)
| api_getCategoryGroups : apiE (list CategoryGroup.t)
| api_getPayees : apiE (list Payee.t)
| api_createPayee (name : string) : apiE string
| api_getBudgetMonths : apiE (list string)
| api_getBudgetMonth (month : string) : apiE RawBudgetMonth.t
| api_setBudgetAmount (month categoryId : string) (amount : JS.number) : apiE unit
| api_getSchedules : apiE (list Schedule.t)
| api_createSchedule (schedule : CreateScheduleInput.t) : apiE string
| api_updateSchedule (id : string) (fields : PartialScheduleInput.t) : apiE unit
| api_deleteSchedule (id : string) : apiE unit.

(** Readings of the clock: [new Date()], [new Date(Date.now() - ms)], and
    [new Date()] after [setDate(1)]. *)
Inductive clockE : Type -> Type :=
| clock_now : clockE Date.t
| clock_ago (ms : JS.number) : clockE Date.t
| clock_first_of_month : clockE Date.t.

(** How a promise settles. *)
Inductive outcome (A : Type) : Type :=
| Fulfilled (a : A)
| Rejected (reason : string).

Arguments Fulfilled {A} a.
Arguments Rejected {A} reason.

(** One step of an execution as the outside sees it: a call of the backing
    store with the way it settled, or a reading of the clock. *)
Inductive Entry : Type :=
| Called {X : Type} (call : apiE X) (settled : outcome X)
| Clocked {X : Type} (reading : clockE X) (value : X).

(** A backing store and a clock: what they answer may depend on everything
    that happened before. *)
Record World : Type := mkWorld {
  answer : forall X : Type, list Entry -> apiE X -> outcome X;
  clock : forall X : Type, list Entry -> clockE X -> X
}.

(** The fields of an [ActualBudgetClient] object. *)
Module ClientState.
Record t : Type := mk {
  config : ActualConfig.t;
  initialized : bool
}.
End ClientState.

(** Asynchronous code: [Await] is [await api.f(...)], [This] reads the
    fields of the client object, [SetInitialized] assigns
    [this.initialized]. *)
Inductive prog (A : Type) : Type :=
| Ret (a : A)
| Throw (message : string)
| Await {X : Type} (call : apiE X) (k : X -> prog A)
| Clock {X : Type} (reading : clockE X) (k : X -> prog A)
| This (k : ClientState.t -> prog A)
| SetInitialized (b : bool) (k : prog A).

Arguments Ret {A} a.
Arguments Throw {A} message.
Arguments Await {A X} call k.
Arguments Clock {A X} reading k.
Arguments This {A} k.
Arguments SetInitialized {A} b k.

Fixpoint bind {A B : Type} (p : prog A) (f : A -> prog B) : prog B :=
  match p with
  | Ret a => f a
  | Throw m => Throw m
  | Await c k => Await c (fun x => bind (k x) f)
  | Clock c k => Clock c (fun x => bind (k x) f)
  | This k => This (fun s => bind (k s) f)
  | SetInitialized b k => SetInitialized b (bind k f)
  end.

Notation "x <- p ;; q" := (bind p (fun x => q))
  (at level 61, p at next level, right associativity).
Notation "p ;; q" := (bind p (fun _ => q))
  (at level 61, right associativity).

Definition await {X : Type} (call : apiE X) : prog X := Await call Ret.
Definition read_clock {X : Type} (reading : clockE X) : prog X := Clock reading Ret.

(** [for (const x of l) { ... await f(x) ... }], collecting the results. *)
Fixpoint mapM {A B : Type} (f : A -> prog B) (l : list A) : prog (list B) :=
  match l with
  | [] => Ret []
  | x :: l' => y <- f x ;; ys <- mapM f l' ;; Ret (y :: ys)
  end.

(** [run w p c h]: execute [p] on the client object [c] in the world [w]
    after the history [h].  The result is how [p] settles, the client object
    afterwards, and the steps [p] made, in order.  A rejected call rejects the
    program (the sources catch nothing). *)
Fixpoint run {A : Type} (w : World) (p : prog A) (c : ClientState.t)
  (h : list Entry) : outcome A * ClientState.t * list Entry :=
  match p with
  | Ret a => (Fulfilled a, c, [])
  | Throw m => (Rejected m, c, [])
  | Await call k =>
      let a := answer w _ h call in
      match a with
      | Fulfilled x =>
          let '(r, c', tr) := run w (k x) c (h ++ [Called call a]) in
          (r, c', Called call a :: tr)
      | Rejected m => (Rejected m, c, [Called call a])
      end
  | Clock reading k =>
      let v := clock w _ h reading in
      let '(r, c', tr) := run w (k v) c (h ++ [Clocked reading v]) in
      (r, c', Clocked reading v :: tr)
  | This k => run w (k c) c h
  | SetInitialized b k =>
      run w k (ClientState.mk (ClientState.config c) b) h
  end.

(** *** Reading a trace *)

(** The calls that change the ledger or publish it. *)
Definition is_write {X : Type} (call : apiE X) : bool :=
  match call with
  | api_sync
  | api_importTransactions _ _
  | api_updateTransaction _ _
  | api_deleteTransaction _
  | api_createPayee _
  | api_setBudgetAmount _ _ _
  | api_createSchedule _
  | api_updateSchedule _ _
  | api_deleteSchedule _ => true
  | _ => false
  end.

Definition is_sync {X : Type} (call : apiE X) : bool :=
  match call with
  | api_sync => true
  | _ => false
  end.

Definition entry_is_write (e : Entry) : bool :=
  match e with
  | Called call _ => is_write call
  | Clocked _ _ => false
  end.

Definition entry_is_sync (e : Entry) : bool :=
  match e with
  | Called call (Fulfilled _) => is_sync call
  | _ => false
  end.

(** A step that is a rejected call. *)
Definition entry_rejected (e : Entry) : bool :=
  match e with
  | Called _ (Rejected _) => true
  | _ => false
  end.

(** The writes of a trace. *)
Definition writes (tr : list Entry) : list Entry := filter entry_is_write tr.

(** The category lists that [api.getCategories] answered in a trace. *)
Definition categories_answered (e : Entry) : list (list Category.t) :=
  match e with
  | Called call a =>
      match call in apiE X return outcome X -> list (list Category.t) with
      | api_getCategories =>
          fun a => match a with Fulfilled cs => [cs] | Rejected _ => [] end
      | _ => fun _ => []
      end a
  | Clocked _ _ => []
  end.

(** The transactions that [api.getTransactions] answered, with the account
    they were asked for. *)
Definition transactions_answered (e : Entry)
  : list (string * list Transaction.t) :=
  match e with
  | Called call a =>
      match call in apiE X
            return outcome X -> list (string * list Transaction.t)
      with
      | api_getTransactions accountId _ _ =>
          fun a => match a with
                   | Fulfilled l => [(accountId, l)]
                   | Rejected _ => []
                   end
      | _ => fun _ => []
      end a
  | Clocked _ _ => []
  end.

(** The budget months that [api.getBudgetMonth] answered, with the month
    they were asked for. *)
Definition budgets_answered (e : Entry) : list (string * RawBudgetMonth.t) :=
  match e with
  | Called call a =>
      match call in apiE X return outcome X -> list (string * RawBudgetMonth.t)
      with
      | api_getBudgetMonth month =>
          fun a => match a with
                   | Fulfilled b => [(month, b)]
                   | Rejected _ => []
                   end
      | _ => fun _ => []
      end a
  | Clocked _ _ => []
  end.

(** The import calls of a trace: the transactions sent and the answer. *)
Definition imports_called (e : Entry)
  : list (string * list Transaction.t * outcome ImportResult.t) :=
  match e with
  | Called call a =>
      match call in apiE X
            return outcome X
                   -> list (string * list Transaction.t * outcome ImportResult.t)
      with
      | api_importTransactions acc txs => fun a => [(acc, txs, a)]
      | _ => fun _ => []
      end a
  | Clocked _ _ => []
  end.

(** The update calls of a trace: the transaction id and the fields sent. *)
Definition updates_called (e : Entry) : list (string * PartialTransaction.t) :=
  match e with
  | Called call _ =>
      match call with
      | api_updateTransaction id fields => [(id, fields)]
      | _ => []
      end
  | Clocked _ _ => []
  end.

(** ** The client ([src/actual-client.ts], class [ActualBudgetClient]) *)

Module ActualBudgetClient.

Definition init : prog unit :=
  This (fun this =>
    if ClientState.initialized this then Ret tt
    else
      let config := ClientState.config this in
      await (api_init (ActualConfig.serverURL config)
                      (ActualConfig.password config)
                      (JS.or_string (ActualConfig.dataDir config)
                                    "/tmp/actual-data")) ;;
      (if JS.truthy_string (ActualConfig.encryptionPassword config)
       then await (api_downloadBudget (ActualConfig.budgetId config)
                                      (ActualConfig.encryptionPassword config))
       else await (api_downloadBudget (ActualConfig.budgetId config) None)) ;;
      SetInitialized true (Ret tt)).

Definition shutdown : prog unit :=
  This (fun this =>
    if ClientState.initialized this
    then await api_shutdown ;; SetInitialized false (Ret tt)
    else Ret tt).

Definition ensureInitialized : prog unit :=
  This (fun this =>
    if negb (ClientState.initialized this) then init else Ret tt).

Definition sync : prog unit :=
  ensureInitialized ;;
  await api_sync.

(** *** Accounts *)

Definition getAccounts : prog (list Account.t) :=
  ensureInitialized ;;
  accounts <- await api_getAccounts ;;
  Ret accounts.

Definition getAccountBalance (accountId : string) : prog JS.number :=
  ensureInitialized ;;
  balance <- await (api_getAccountBalance accountId) ;;
  Ret balance.

(** *** Transactions *)

Definition getTransactions (accountId startDate endDate : string)
  : prog (list Transaction.t) :=
  ensureInitialized ;;
  transactions <- await (api_getTransactions accountId startDate endDate) ;;
  Ret transactions.

(** [result.added[0] || 'unknown'] *)
Definition first_added_or_unknown (added : list string) : string :=
  JS.or_string (List.nth_error added 0) "unknown".

Definition addTransaction (transaction : Transaction.t) : prog string :=
  ensureInitialized ;;
  result <- await (api_importTransactions (Transaction.account transaction)
    [ Transaction.mk None
        (Transaction.account transaction)
        (Transaction.date transaction)
        (Transaction.amount transaction)
        (Transaction.payee transaction)
        (Transaction.payee_name transaction)
        (Transaction.category transaction)
        (Transaction.notes transaction)
        None
        (Transaction.cleared transaction) ]) ;;
  await api_sync ;;
  Ret (first_added_or_unknown (ImportResult.added result)).

(** [{ ...t, account: accountId }] *)
Definition with_account (accountId : string) (t : Transaction.t) : Transaction.t :=
  Transaction.mk (Transaction.id t) accountId (Transaction.date t)
    (Transaction.amount t) (Transaction.payee t) (Transaction.payee_name t)
    (Transaction.category t) (Transaction.notes t) (Transaction.imported_id t)
    (Transaction.cleared t).

Definition importTransactions (accountId : string)
  (transactions : list Transaction.t) : prog ImportResult.t :=
  ensureInitialized ;;
  let transactionsWithAccount := map (with_account accountId) transactions in
  result <- await (api_importTransactions accountId transactionsWithAccount) ;;
  await api_sync ;;
  Ret (ImportResult.mk (ImportResult.added result) (ImportResult.updated result)).

Definition updateTransaction (id : string) (fields : PartialTransaction.t)
  : prog unit :=
  ensureInitialized ;;
  await (api_updateTransaction id fields) ;;
  await api_sync.

Definition deleteTransaction (id : string) : prog unit :=
  ensureInitialized ;;
  await (api_deleteTransaction id) ;;
  await api_sync.

(** *** Categories *)

Definition getCategories : prog (list Category.t) :=
  ensureInitialized ;;
  categories <- await api_getCategories ;;
  Ret categories.

Definition getCategoryGroups : prog (list CategoryGroup.t) :=
  ensureInitialized ;;
  groups <- await api_getCategoryGroups ;;
  Ret groups.

(** *** Payees *)

Definition getPayees : prog (list Payee.t) :=
  ensureInitialized ;;
  payees <- await api_getPayees ;;
  Ret payees.

Definition createPayee (name : string) : prog string :=
  ensureInitialized ;;
  id <- await (api_createPayee name) ;;
  await api_sync ;;
  Ret id.

(** *** Budget *)

Definition getBudgetMonths : prog (list string) :=
  ensureInitialized ;;
  await api_getBudgetMonths.

(** [l || []] *)
Definition or_empty {A : Type} (l : option (list A)) : list A :=
  match l with
  | Some l' => l'
  | None => []
  end.

Definition transform_category (c : RawCategoryBudget.t) : CategoryBudget.t :=
  CategoryBudget.mk
    (JS.or_string (RawCategoryBudget.id c) "")
    (JS.or_string (RawCategoryBudget.name c) "")
    (JS.or_number_opt (RawCategoryBudget.budgeted c) 0%float)
    (JS.or_number_opt (RawCategoryBudget.spent c) 0%float)
    (JS.or_number_opt (RawCategoryBudget.balance c) 0%float)
    (JS.or_false (RawCategoryBudget.carryover c)).

Definition transform_group (g : RawCategoryGroupBudget.t) : CategoryGroupBudget.t :=
  CategoryGroupBudget.mk
    (JS.or_string (RawCategoryGroupBudget.id g) "")
    (JS.or_string (RawCategoryGroupBudget.name g) "")
    (JS.or_number_opt (RawCategoryGroupBudget.budgeted g) 0%float)
    (JS.or_number_opt (RawCategoryGroupBudget.spent g) 0%float)
    (JS.or_number_opt (RawCategoryGroupBudget.balance g) 0%float)
    (map transform_category (or_empty (RawCategoryGroupBudget.categories g))).

(** The answer of the API brought to the [BudgetMonth] interface. *)
Definition transform_budget (month : string) (budget : RawBudgetMonth.t)
  : BudgetMonth.t :=
  let categoryGroups :=
    map transform_group (or_empty (RawBudgetMonth.categoryGroups budget)) in
  BudgetMonth.mk
    (JS.or_string (RawBudgetMonth.month budget) month)
    (JS.or_number_opt (RawBudgetMonth.incomeAvailable budget) 0%float)
    (JS.or_number_opt (RawBudgetMonth.lastMonthOverspent budget) 0%float)
    (JS.or_number_opt (RawBudgetMonth.forNextMonth budget) 0%float)
    (JS.or_number_opt (RawBudgetMonth.totalBudgeted budget) 0%float)
    (JS.or_number_opt (RawBudgetMonth.toBudget budget) 0%float)
    categoryGroups.

Definition getBudgetMonth (month : string) : prog BudgetMonth.t :=
  ensureInitialized ;;
  budget <- await (api_getBudgetMonth month) ;;
  Ret (transform_budget month budget).

Definition setBudgetAmount (month categoryId : string) (amount : JS.number)
  : prog unit :=
  ensureInitialized ;;
  await (api_setBudgetAmount month categoryId amount) ;;
  await api_sync.

(** *** Schedules *)

Definition getSchedules : prog (list Schedule.t) :=
  ensureInitialized ;;
  schedules <- await api_getSchedules ;;
  Ret schedules.

Definition createSchedule (schedule : CreateScheduleInput.t) : prog string :=
  ensureInitialized ;;
  id <- await (api_createSchedule schedule) ;;
  await api_sync ;;
  Ret id.

Definition updateSchedule (id : string) (fields : PartialScheduleInput.t)
  : prog unit :=
  ensureInitialized ;;
  await (api_updateSchedule id fields) ;;
  await api_sync.

Definition deleteSchedule (id : string) : prog unit :=
  ensureInitialized ;;
  await (api_deleteSchedule id) ;;
  await api_sync.

(** *** Utilities *)

(** Convert a currency amount to the integer the ledger stores:
    [Math.round(value * 100)]. *)
Definition toAmount (value : JS.number) : JS.number :=
  JS.Math_round (PrimFloat.mul value 100%float).

(** Convert an integer amount to currency: [value / 100]. *)
Definition fromAmount (value : JS.number) : JS.number :=
  PrimFloat.div value 100%float.

(** [date.toISOString().split('T')[0]] *)
Definition formatDate (date : Date.t) : string :=
  JS.before "T"%char (Date.toISOString date).

(** [date.toISOString().slice(0, 7)] *)
Definition formatMonth (date : Date.t) : string :=
  String.substring 0 7 (Date.toISOString date).

Definition getCurrentMonth : prog string :=
  d <- read_clock clock_now ;;
  Ret (formatMonth d).

Definition getToday : prog string :=
  d <- read_clock clock_now ;;
  Ret (formatDate d).

End ActualBudgetClient.

(** ** The tools ([src/tools.ts]) *)

(** *** Output contracts ([outputSchema] of each tool) *)

Module AccountInfo.
Record t : Type := mk {
  id : string;
  name : string;
  balance : JS.number;
  offbudget : bool;
  closed : bool
}.
End AccountInfo.

Module AccountsOutput.
Record t : Type := mk {
  accounts : list AccountInfo.t
}.
End AccountsOutput.

Module BalanceOutput.
Record t : Type := mk {
  account_name : string;
  balance : JS.number
}.
End BalanceOutput.

Module AddTransactionOutput.
Record t : Type := mk {
  success : bool;
  transaction_id : string;
  message : string
}.
End AddTransactionOutput.

Module TransactionInfo.
Record t : Type := mk {
  id : option string;
  date : string;
  amount : JS.number;
  payee : option string;
  category : option string;
  notes : option string;
  cleared : option bool
}.
End TransactionInfo.

Module TransactionsOutput.
Record t : Type := mk {
  account_name : string;
  transactions : list TransactionInfo.t;
  total_count : nat
}.
End TransactionsOutput.

Module FoundTransaction.
Record t : Type := mk {
  id : option string;
  account : string;
  date : string;
  amount : JS.number;
  payee : option string;
  category : option string;
  notes : option string
}.
End FoundTransaction.

Module SearchOutput.
Record t : Type := mk {
  transactions : list FoundTransaction.t;
  total_count : nat
}.
End SearchOutput.

(** [{ success, message }]: what the update, delete, set-budget and sync
    tools return. *)
Module StatusOutput.
Record t : Type := mk {
  success : bool;
  message : string
}.
End StatusOutput.

Module CategoryInfo.
Record t : Type := mk {
  id : string;
  name : string
}.
End CategoryInfo.

Module CategoryGroupInfo.
Record t : Type := mk {
  id : string;
  name : string;
  is_income : bool;
  categories : list CategoryInfo.t
}.
End CategoryGroupInfo.

Module CategoriesOutput.
Record t : Type := mk {
  category_groups : list CategoryGroupInfo.t
}.
End CategoriesOutput.

Module CategoryBudgetInfo.
Record t : Type := mk {
  name : string;
  budgeted : JS.number;
  spent : JS.number;
  balance : JS.number
}.
End CategoryBudgetInfo.

Module GroupBudgetInfo.
Record t : Type := mk {
  name : string;
  budgeted : JS.number;
  spent : JS.number;
  balance : JS.number;
  categories : list CategoryBudgetInfo.t
}.
End GroupBudgetInfo.

Module BudgetMonthOutput.
Record t : Type := mk {
  month : string;
  to_budget : JS.number;
  total_budgeted : JS.number;
  total_spent : JS.number;
  category_groups : list GroupBudgetInfo.t
}.
End BudgetMonthOutput.

Module PayeeInfo.
Record t : Type := mk {
  id : string;
  name : string
}.
End PayeeInfo.

Module PayeesOutput.
Record t : Type := mk {
  payees : list PayeeInfo.t;
  total_count : nat
}.
End PayeesOutput.

Module CategorySpending.
Record t : Type := mk {
  category : string;
  amount : JS.number;
  percentage : JS.number
}.
End CategorySpending.

(** [{ start, end }]; the key [end] is the field [stop]. *)
Module Period.
Record t : Type := mk {
  start : string;
  stop : string
}.
End Period.

Module SpendingSummaryOutput.
Record t : Type := mk {
  period : Period.t;
  total_spent : JS.number;
  total_income : JS.number;
  net : JS.number;
  by_category : list CategorySpending.t
}.
End SpendingSummaryOutput.

Module ScheduleInfo.
Record t : Type := mk {
  id : string;
  name : option string;
  next_date : option string;
  frequency : option string;
  amount : option JS.number;
  payee : option string;
  account : option string;
  completed : option bool
}.
End ScheduleInfo.

Module SchedulesOutput.
Record t : Type := mk {
  schedules : list ScheduleInfo.t;
  total_count : nat
}.
End SchedulesOutput.

Module CreateScheduleOutput.
Record t : Type := mk {
  success : bool;
  schedule_id : string;
  message : string
}.
End CreateScheduleOutput.

(** The [output] object of a tool. *)
Inductive Output : Type :=
| OutAccounts (o : AccountsOutput.t)
| OutBalance (o : BalanceOutput.t)
| OutAddTransaction (o : AddTransactionOutput.t)
| OutTransactions (o : TransactionsOutput.t)
| OutSearch (o : SearchOutput.t)
| OutStatus (o : StatusOutput.t)
| OutCategories (o : CategoriesOutput.t)
| OutBudgetMonth (o : BudgetMonthOutput.t)
| OutPayees (o : PayeesOutput.t)
| OutSpendingSummary (o : SpendingSummaryOutput.t)
| OutSchedules (o : SchedulesOutput.t)
| OutCreateSchedule (o : CreateScheduleOutput.t).

(** [{ type: 'text', text }] *)
Module TextContent.
Record t : Type := mk {
  type : string;
  text : string
}.
End TextContent.

(** What a handler returns: [{ content, structuredContent }]. *)
Module ToolResult.
Record t : Type := mk {
  content : list TextContent.t;
  structuredContent : Output
}.
End ToolResult.

(** The two library functions that turn values into text, which the tools
    use and this development does not define: the conversion of a number in
    a template literal, and [JSON.stringify(value, null, space)]. *)
Class Runtime : Type := {
  Number_toString : JS.number -> string;
  JSON_stringify : Output -> JS.number -> string
}.

Module Tools.

(** *** Entity resolution

    Every tool that takes an account or a category resolves it with the
    same expression:
    [list.find((a) => a.id === token ||
                      a.name.toLowerCase() === token.toLowerCase())].
    A payee ([create_schedule]) is looked up by name only. *)

Definition matches_id_or_name (id name token : string) : bool :=
  String.eqb id token
  || String.eqb (JS.toLowerCase name) (JS.toLowerCase token).

Definition find_account (accounts : list Account.t) (account : string)
  : option Account.t :=
  JS.find (fun a => matches_id_or_name (Account.id a) (Account.name a) account)
          accounts.

Definition find_category (categories : list Category.t) (category : string)
  : option Category.t :=
  JS.find (fun c => matches_id_or_name (Category.id c) (Category.name c) category)
          categories.

(** [payees.find((p) => p.name.toLowerCase() === payee.toLowerCase())] *)
Definition find_payee_by_name (payees : list Payee.t) (payee : string)
  : option Payee.t :=
  JS.find (fun p => String.eqb (JS.toLowerCase (Payee.name p))
                               (JS.toLowerCase payee))
          payees.

(** *** Lookup maps *)

Definition payeeMap (payees : list Payee.t) : JS.Map string :=
  JS.Map_new (map (fun p => (Payee.id p, Payee.name p)) payees).

Definition categoryMap (categories : list Category.t) : JS.Map string :=
  JS.Map_new (map (fun c => (Category.id c, Category.name c)) categories).

Definition accountMap (accounts : list Account.t) : JS.Map string :=
  JS.Map_new (map (fun a => (Account.id a, Account.name a)) accounts).

(** [key ? m.get(key) : undefined] *)
Definition lookup (m : JS.Map string) (key : option string) : option string :=
  match key with
  | Some (String _ _ as k) => JS.Map_get m k
  | _ => None
  end.

(** *** Transaction search: filter, sort, limit *)

(** [{ ...t, accountId: acc.id }] *)
Module Tagged.
Record t : Type := mk {
  transaction : Transaction.t;
  accountId : string
}.
End Tagged.

Module SearchArgs.
Record t : Type := mk {
  payee : option string;
  notes : option string;
  min_amount : option JS.number;
  max_amount : option JS.number;
  start_date : option string;
  end_date : option string;
  limit : option JS.number
}.
End SearchArgs.

(** [payeeName?.toLowerCase().includes(searchPayee)], with
    [payeeName = t.payee ? payeeMap.get(t.payee) : undefined]. *)
Definition payee_matches (pm : JS.Map string) (searchPayee : string)
  (t : Tagged.t) : bool :=
  match lookup pm (Transaction.payee (Tagged.transaction t)) with
  | Some payeeName => JS.includes (JS.toLowerCase payeeName) searchPayee
  | None => false
  end.

(** [t.notes?.toLowerCase().includes(searchNotes)] *)
Definition notes_match (searchNotes : string) (t : Tagged.t) : bool :=
  match Transaction.notes (Tagged.transaction t) with
  | Some notes => JS.includes (JS.toLowerCase notes) searchNotes
  | None => false
  end.

(** [Math.abs(t.amount) >= minAmt] *)
Definition at_least (minAmt : JS.number) (t : Tagged.t) : bool :=
  JS.ge (JS.Math_abs (Transaction.amount (Tagged.transaction t))) minAmt.

(** [Math.abs(t.amount) <= maxAmt] *)
Definition at_most (maxAmt : JS.number) (t : Tagged.t) : bool :=
  JS.le (JS.Math_abs (Transaction.amount (Tagged.transaction t))) maxAmt.

(** The four [if (...) { filtered = filtered.filter(...) }] steps. *)
Definition apply_filters (pm : JS.Map string) (args : SearchArgs.t)
  (allTransactions : list Tagged.t) : list Tagged.t :=
  let filtered := allTransactions in
  let filtered :=
    match SearchArgs.payee args with
    | Some (String _ _ as payee) =>
        let searchPayee := JS.toLowerCase payee in
        filter (payee_matches pm searchPayee) filtered
    | _ => filtered
    end in
  let filtered :=
    match SearchArgs.notes args with
    | Some (String _ _ as notes) =>
        let searchNotes := JS.toLowerCase notes in
        filter (notes_match searchNotes) filtered
    | _ => filtered
    end in
  let filtered :=
    match SearchArgs.min_amount args with
    | Some min_amount =>
        let minAmt := ActualBudgetClient.toAmount min_amount in
        filter (at_least minAmt) filtered
    | None => filtered
    end in
  let filtered :=
    match SearchArgs.max_amount args with
    | Some max_amount =>
        let maxAmt := ActualBudgetClient.toAmount max_amount in
        filter (at_most maxAmt) filtered
    | None => filtered
    end in
  filtered.

(** [(a, b) => b.date.localeCompare(a.date)] *)
Definition by_date_descending (a b : Tagged.t) : JS.number :=
  JS.localeCompare (Transaction.date (Tagged.transaction b))
                   (Transaction.date (Tagged.transaction a)).

(** [limit || 50] *)
Definition maxResults (limit : option JS.number) : JS.number :=
  JS.or_number_opt limit 50%float.

(** Filter, sort by date descending, and limit. *)
Definition search (pm : JS.Map string) (args : SearchArgs.t)
  (allTransactions : list Tagged.t) : list Tagged.t :=
  let filtered := apply_filters pm args allTransactions in
  let filtered := JS.sort by_date_descending filtered in
  JS.slice0 filtered (maxResults (SearchArgs.limit args)).

Definition format_found (am pm cm : JS.Map string) (t : Tagged.t)
  : FoundTransaction.t :=
  let tx := Tagged.transaction t in
  FoundTransaction.mk
    (Transaction.id tx)
    (JS.or_string (JS.Map_get am (Tagged.accountId t)) "Unknown")
    (Transaction.date tx)
    (ActualBudgetClient.fromAmount (Transaction.amount tx))
    (lookup pm (Transaction.payee tx))
    (lookup cm (Transaction.category tx))
    (Transaction.notes tx).

Definition search_output (accounts : list Account.t) (payees : list Payee.t)
  (categories : list Category.t) (args : SearchArgs.t)
  (allTransactions : list Tagged.t) : SearchOutput.t :=
  let pm := payeeMap payees in
  let cm := categoryMap categories in
  let am := accountMap accounts in
  let formattedTransactions :=
    map (format_found am pm cm) (search pm args allTransactions) in
  SearchOutput.mk formattedTransactions (List.length formattedTransactions).

(** *** Budget-month rollup *)

(** [g.categories.reduce((sum, c) => sum + Math.abs(c.spent), 0)] *)
Definition groupSpent (g : CategoryGroupBudget.t) : JS.number :=
  JS.reduce (fun sum c => PrimFloat.add sum (JS.Math_abs (CategoryBudget.spent c)))
            0%float (CategoryGroupBudget.categories g).

Definition budget_category (c : CategoryBudget.t) : CategoryBudgetInfo.t :=
  CategoryBudgetInfo.mk
    (CategoryBudget.name c)
    (ActualBudgetClient.fromAmount (CategoryBudget.budgeted c))
    (ActualBudgetClient.fromAmount (JS.Math_abs (CategoryBudget.spent c)))
    (ActualBudgetClient.fromAmount (CategoryBudget.balance c)).

Definition budget_group (g : CategoryGroupBudget.t) : GroupBudgetInfo.t :=
  GroupBudgetInfo.mk
    (CategoryGroupBudget.name g)
    (ActualBudgetClient.fromAmount (CategoryGroupBudget.budgeted g))
    (ActualBudgetClient.fromAmount (groupSpent g))
    (ActualBudgetClient.fromAmount (CategoryGroupBudget.balance g))
    (map budget_category (CategoryGroupBudget.categories g)).

(** [totalSpent] after the [map] over the groups: each group adds its
    [groupSpent], in order. *)
Definition totalSpent_of_groups (groups : list CategoryGroupBudget.t) : JS.number :=
  fold_left (fun totalSpent g => PrimFloat.add totalSpent (groupSpent g))
            groups 0%float.

Definition budget_month_output (targetMonth : string) (budget : BudgetMonth.t)
  : BudgetMonthOutput.t :=
  let totalSpent := totalSpent_of_groups (BudgetMonth.categoryGroups budget) in
  let groups := map budget_group (BudgetMonth.categoryGroups budget) in
  BudgetMonthOutput.mk
    targetMonth
    (ActualBudgetClient.fromAmount (BudgetMonth.toBudget budget))
    (ActualBudgetClient.fromAmount (BudgetMonth.totalBudgeted budget))
    (ActualBudgetClient.fromAmount totalSpent)
    groups.

(** *** Spending summary *)

(** The three accumulators of the loop over the transactions. *)
Module Totals.
Record t : Type := mk {
  categoryTotals : JS.Map JS.number;
  totalSpent : JS.number;
  totalIncome : JS.number
}.
End Totals.

(** One turn of [for (const t of allTransactions) { ... }]. *)
Definition add_to_totals (cm : JS.Map string) (acc : Totals.t)
  (t : Transaction.t) : Totals.t :=
  let amount := Transaction.amount t in
  if JS.lt amount 0%float then
    let catName :=
      match Transaction.category t with
      | Some (String _ _ as category) =>
          JS.or_string (JS.Map_get cm category) "Uncategorized"
      | _ => "Uncategorized"
      end in
    Totals.mk
      (JS.Map_set (Totals.categoryTotals acc) catName
         (PrimFloat.add
            (JS.or_number_opt (JS.Map_get (Totals.categoryTotals acc) catName)
                              0%float)
            (JS.Math_abs amount)))
      (PrimFloat.add (Totals.totalSpent acc) (JS.Math_abs amount))
      (Totals.totalIncome acc)
  else
    Totals.mk (Totals.categoryTotals acc) (Totals.totalSpent acc)
              (PrimFloat.add (Totals.totalIncome acc) amount).

Definition totals (cm : JS.Map string) (allTransactions : list Transaction.t)
  : Totals.t :=
  fold_left (add_to_totals cm) allTransactions
            (Totals.mk [] 0%float 0%float).

(** [totalSpent > 0 ? Math.round((amount / totalSpent) * 100) : 0] *)
Definition percentage (totalSpent amount : JS.number) : JS.number :=
  if JS.gt totalSpent 0%float
  then JS.Math_round (PrimFloat.mul (PrimFloat.div amount totalSpent) 100%float)
  else 0%float.

Definition byCategory (t : Totals.t) : list CategorySpending.t :=
  JS.sort
    (fun a b => PrimFloat.sub (CategorySpending.amount b) (CategorySpending.amount a))
    (map (fun entry =>
            let '(category, amount) := entry in
            CategorySpending.mk category
              (ActualBudgetClient.fromAmount amount)
              (percentage (Totals.totalSpent t) amount))
         (JS.Map_entries (Totals.categoryTotals t))).

Definition spending_summary_output (startDate endDate : string)
  (categories : list Category.t) (allTransactions : list Transaction.t)
  : SpendingSummaryOutput.t :=
  let t := totals (categoryMap categories) allTransactions in
  SpendingSummaryOutput.mk
    (Period.mk startDate endDate)
    (ActualBudgetClient.fromAmount (Totals.totalSpent t))
    (ActualBudgetClient.fromAmount (Totals.totalIncome t))
    (ActualBudgetClient.fromAmount
       (PrimFloat.sub (Totals.totalIncome t) (Totals.totalSpent t)))
    (byCategory t).

(** *** Handlers *)

Module AddTransactionArgs.
Record t : Type := mk {
  account : string;
  amount : JS.number;
  payee_name : option string;
  category : option string;
  notes : option string;
  date : option string
}.
End AddTransactionArgs.

Module UpdateTransactionArgs.
Record t : Type := mk {
  id : string;
  amount : option JS.number;
  category : option string;
  payee_name : option string;
  notes : option string;
  date : option string;
  cleared : option bool
}.
End UpdateTransactionArgs.

Module CreateScheduleArgs.
Record t : Type := mk {
  name : option string;
  account : string;
  payee : option string;
  amount : JS.number;
  start_date : string;
  frequency : string;
  interval : option JS.number;
  end_mode : option string;
  end_occurrences : option JS.number;
  end_date : option string;
  posts_transaction : option bool
}.
End CreateScheduleArgs.

(** The double quote, for the messages that quote a name. *)
Definition dquote : string := String (ascii_of_nat 34) EmptyString.

(** [date || ActualBudgetClient.getToday()] *)
Definition or_today (date : option string) : prog string :=
  match date with
  | Some (String _ _ as d) => Ret d
  | _ => ActualBudgetClient.getToday
  end.

(** [month || ActualBudgetClient.getCurrentMonth()] *)
Definition or_current_month (month : option string) : prog string :=
  match month with
  | Some (String _ _ as m) => Ret m
  | _ => ActualBudgetClient.getCurrentMonth
  end.

(** [start_date ||
     ActualBudgetClient.formatDate(new Date(Date.now() - days * 24 * 60 * 60 * 1000))] *)
Definition or_days_ago (start_date : option string) (days : JS.number)
  : prog string :=
  match start_date with
  | Some (String _ _ as d) => Ret d
  | _ =>
      d <- read_clock (clock_ago (days * 24 * 60 * 60 * 1000)%float) ;;
      Ret (ActualBudgetClient.formatDate d)
  end.

(** [start_date ||
     (() => { const d = new Date(); d.setDate(1); return formatDate(d); })()] *)
Definition or_first_of_month (start_date : option string) : prog string :=
  match start_date with
  | Some (String _ _ as d) => Ret d
  | _ =>
      d <- read_clock clock_first_of_month ;;
      Ret (ActualBudgetClient.formatDate d)
  end.

(** The category lookup of [add_transaction]: [undefined] when no category
    is given, and [foundCategory?.id] otherwise. *)
Definition optional_category_id (category : option string) : prog (option string) :=
  match category with
  | Some (String _ _ as cat) =>
      categories <- ActualBudgetClient.getCategories ;;
      let foundCategory := find_category categories cat in
      Ret (option_map Category.id foundCategory)
  | _ => Ret None
  end.

(** The transactions of a list of accounts, fetched account by account. *)
Definition fetch_all {T : Type} (accounts : list Account.t)
  (startDate endDate : string) (tag : Account.t -> Transaction.t -> T)
  : prog (list T) :=
  fetched <- mapM (fun acc =>
                     transactions <- ActualBudgetClient.getTransactions
                                       (Account.id acc) startDate endDate ;;
                     Ret (map (tag acc) transactions))
                  accounts ;;
  Ret (List.concat fetched).

Definition format_transaction (pm cm : JS.Map string) (t : Transaction.t)
  : TransactionInfo.t :=
  TransactionInfo.mk
    (Transaction.id t)
    (Transaction.date t)
    (ActualBudgetClient.fromAmount (Transaction.amount t))
    (lookup pm (Transaction.payee t))
    (lookup cm (Transaction.category t))
    (Transaction.notes t)
    (Transaction.cleared t).

Section Handlers.

Context {rt : Runtime}.

(** [{ content: [{ type: 'text', text: JSON.stringify(output, null, 2) }],
       structuredContent: output }], the [return] of every handler. *)
Definition respond (output : Output) : prog ToolResult.t :=
  Ret (ToolResult.mk
         [TextContent.mk "text" (JSON_stringify output 2%float)]
         output).

(** The balances are fetched with [Promise.all]; they are read here one
    account after the other. *)
Definition get_accounts : prog ToolResult.t :=
  accounts <- ActualBudgetClient.getAccounts ;;
  accountsWithBalance <-
    mapM (fun acc =>
            balance <- ActualBudgetClient.getAccountBalance (Account.id acc) ;;
            Ret (AccountInfo.mk
                   (Account.id acc)
                   (Account.name acc)
                   (ActualBudgetClient.fromAmount balance)
                   (JS.or_false (Account.offbudget acc))
                   (JS.or_false (Account.closed acc))))
         accounts ;;
  let output := OutAccounts (AccountsOutput.mk accountsWithBalance) in
  respond output.

Definition get_account_balance (account : string) : prog ToolResult.t :=
  accounts <- ActualBudgetClient.getAccounts ;;
  match find_account accounts account with
  | None => Throw ("Account not found: " ++ account)
  | Some found =>
      balance <- ActualBudgetClient.getAccountBalance (Account.id found) ;;
      let output :=
        OutBalance (BalanceOutput.mk (Account.name found)
                      (ActualBudgetClient.fromAmount balance)) in
      respond output
  end.

Definition add_transaction (args : AddTransactionArgs.t) : prog ToolResult.t :=
  let account := AddTransactionArgs.account args in
  let amount := AddTransactionArgs.amount args in
  accounts <- ActualBudgetClient.getAccounts ;;
  match find_account accounts account with
  | None => Throw ("Account not found: " ++ account)
  | Some foundAccount =>
      categoryId <- optional_category_id (AddTransactionArgs.category args) ;;
      date <- or_today (AddTransactionArgs.date args) ;;
      transactionId <-
        ActualBudgetClient.addTransaction
          (Transaction.mk None
             (Account.id foundAccount)
             date
             (ActualBudgetClient.toAmount amount)
             None
             (AddTransactionArgs.payee_name args)
             categoryId
             (AddTransactionArgs.notes args)
             None
             None) ;;
      let output :=
        OutAddTransaction
          (AddTransactionOutput.mk true transactionId
             ("Transaction added: " ++ Number_toString (JS.Math_abs amount)
              ++ " " ++ (if JS.lt amount 0%float then "expense" else "income")
              ++ " to " ++ Account.name foundAccount)) in
      respond output
  end.

Definition get_transactions (account : string)
  (start_date end_date : option string) : prog ToolResult.t :=
  accounts <- ActualBudgetClient.getAccounts ;;
  match find_account accounts account with
  | None => Throw ("Account not found: " ++ account)
  | Some foundAccount =>
      endDate <- or_today end_date ;;
      startDate <- or_days_ago start_date 30%float ;;
      transactions <- ActualBudgetClient.getTransactions
                        (Account.id foundAccount) startDate endDate ;;
      payees <- ActualBudgetClient.getPayees ;;
      categories <- ActualBudgetClient.getCategories ;;
      let formattedTransactions :=
        map (format_transaction (payeeMap payees) (categoryMap categories))
            transactions in
      let output :=
        OutTransactions
          (TransactionsOutput.mk (Account.name foundAccount)
             formattedTransactions (List.length formattedTransactions)) in
      respond output
  end.

Definition search_transactions (args : SearchArgs.t) : prog ToolResult.t :=
  accounts <- ActualBudgetClient.getAccounts ;;
  payees <- ActualBudgetClient.getPayees ;;
  categories <- ActualBudgetClient.getCategories ;;
  endDate <- or_today (SearchArgs.end_date args) ;;
  startDate <- or_days_ago (SearchArgs.start_date args) 90%float ;;
  allTransactions <-
    fetch_all (filter (fun a => negb (JS.or_false (Account.closed a))) accounts)
              startDate endDate
              (fun acc t => Tagged.mk t (Account.id acc)) ;;
  let output :=
    OutSearch (search_output accounts payees categories args allTransactions) in
  respond output.

Definition update_transaction (args : UpdateTransactionArgs.t)
  : prog ToolResult.t :=
  let id := UpdateTransactionArgs.id args in
  category <-
    match UpdateTransactionArgs.category args with
    | Some (String _ _ as category) =>
        categories <- ActualBudgetClient.getCategories ;;
        match find_category categories category with
        | Some foundCategory => Ret (Some (Category.id foundCategory))
        | None => Ret None
        end
    | _ => Ret None
    end ;;
  let updates :=
    PartialTransaction.mk None None
      (UpdateTransactionArgs.date args)
      (option_map ActualBudgetClient.toAmount (UpdateTransactionArgs.amount args))
      None
      (UpdateTransactionArgs.payee_name args)
      category
      (UpdateTransactionArgs.notes args)
      None
      (UpdateTransactionArgs.cleared args) in
  ActualBudgetClient.updateTransaction id updates ;;
  let output :=
    OutStatus (StatusOutput.mk true
                 ("Transaction " ++ id ++ " updated successfully")) in
  respond output.

Definition delete_transaction (id : string) : prog ToolResult.t :=
  ActualBudgetClient.deleteTransaction id ;;
  let output :=
    OutStatus (StatusOutput.mk true
                 ("Transaction " ++ id ++ " deleted successfully")) in
  respond output.

Definition get_categories : prog ToolResult.t :=
  groups <- ActualBudgetClient.getCategoryGroups ;;
  categories <- ActualBudgetClient.getCategories ;;
  let output :=
    OutCategories
      (CategoriesOutput.mk
         (map (fun g =>
                 CategoryGroupInfo.mk
                   (CategoryGroup.id g)
                   (CategoryGroup.name g)
                   (JS.or_false (CategoryGroup.is_income g))
                   (map (fun c => CategoryInfo.mk (Category.id c) (Category.name c))
                        (filter (fun c =>
                                   match Category.group_id c with
                                   | Some group_id =>
                                       String.eqb group_id (CategoryGroup.id g)
                                   | None => false
                                   end)
                                categories)))
              groups)) in
  respond output.

Definition get_budget_month (month : option string) : prog ToolResult.t :=
  targetMonth <- or_current_month month ;;
  budget <- ActualBudgetClient.getBudgetMonth targetMonth ;;
  let output := OutBudgetMonth (budget_month_output targetMonth budget) in
  respond output.

Definition set_budget_amount (month : option string) (category : string)
  (amount : JS.number) : prog ToolResult.t :=
  targetMonth <- or_current_month month ;;
  categories <- ActualBudgetClient.getCategories ;;
  match find_category categories category with
  | None => Throw ("Category not found: " ++ category)
  | Some foundCategory =>
      ActualBudgetClient.setBudgetAmount targetMonth (Category.id foundCategory)
        (ActualBudgetClient.toAmount amount) ;;
      let output :=
        OutStatus
          (StatusOutput.mk true
             ("Set budget for " ++ dquote ++ Category.name foundCategory ++ dquote
              ++ " to " ++ Number_toString amount ++ " for " ++ targetMonth)) in
      respond output
  end.

Definition get_payees (search : option string) : prog ToolResult.t :=
  payees <- ActualBudgetClient.getPayees ;;
  let payees :=
    filter (fun p => negb (JS.truthy_string (Payee.transfer_acct p))) payees in
  let payees :=
    match search with
    | Some (String _ _ as search) =>
        let searchLower := JS.toLowerCase search in
        filter (fun p => JS.includes (JS.toLowerCase (Payee.name p)) searchLower)
               payees
    | _ => payees
    end in
  let output :=
    OutPayees
      (PayeesOutput.mk
         (map (fun p => PayeeInfo.mk (Payee.id p) (Payee.name p)) payees)
         (List.length payees)) in
  respond output.

Definition get_spending_summary (start_date end_date : option string)
  : prog ToolResult.t :=
  endDate <- or_today end_date ;;
  startDate <- or_first_of_month start_date ;;
  accounts <- ActualBudgetClient.getAccounts ;;
  categories <- ActualBudgetClient.getCategories ;;
  allTransactions <-
    fetch_all (filter (fun a => negb (JS.or_false (Account.closed a))
                                && negb (JS.or_false (Account.offbudget a)))
                      accounts)
              startDate endDate
              (fun _ t => t) ;;
  let output :=
    OutSpendingSummary
      (spending_summary_output startDate endDate categories allTransactions) in
  respond output.

(** The display amount of a schedule: a number as it is, a range by its
    first endpoint. *)
Definition schedule_amount (a : option ScheduleAmount) : option JS.number :=
  match a with
  | Some (AmountNumber n) => Some (ActualBudgetClient.fromAmount n)
  | Some (AmountRange num1 _) => Some (ActualBudgetClient.fromAmount num1)
  | None => None
  end.

(** The frequency text of a schedule, when its date is a recurrence with a
    [frequency] key. *)
Definition schedule_frequency (d : option ScheduleDateValue) : option string :=
  match d with
  | Some (DateObject date) =>
      match ScheduleDate.frequency date with
      | Some freq =>
          let interval := JS.or_number_opt (ScheduleDate.interval date) 1%float in
          if JS.strict_eq interval 1%float then Some freq
          else Some ("every " ++ Number_toString interval ++ " " ++ freq)%string
      | None => None
      end
  | _ => None
  end.

Definition get_schedules : prog ToolResult.t :=
  schedules <- ActualBudgetClient.getSchedules ;;
  accounts <- ActualBudgetClient.getAccounts ;;
  payees <- ActualBudgetClient.getPayees ;;
  let am := accountMap accounts in
  let pm := payeeMap payees in
  let formattedSchedules :=
    map (fun s =>
           ScheduleInfo.mk
             (Schedule.id s)
             (Schedule.name s)
             (Schedule.next_date s)
             (schedule_frequency (Schedule._date s))
             (schedule_amount (Schedule._amount s))
             (lookup pm (Schedule._payee s))
             (lookup am (Schedule._account s))
             (Schedule.completed s))
        schedules in
  let output :=
    OutSchedules
      (SchedulesOutput.mk formattedSchedules (List.length formattedSchedules)) in
  respond output.

Definition create_schedule (args : CreateScheduleArgs.t) : prog ToolResult.t :=
  let account := CreateScheduleArgs.account args in
  let name := CreateScheduleArgs.name args in
  let frequency := CreateScheduleArgs.frequency args in
  let start_date := CreateScheduleArgs.start_date args in
  accounts <- ActualBudgetClient.getAccounts ;;
  match find_account accounts account with
  | None => Throw ("Account not found: " ++ account)
  | Some foundAccount =>
      payeeId <-
        match CreateScheduleArgs.payee args with
        | Some (String _ _ as payee) =>
            payees <- ActualBudgetClient.getPayees ;;
            match find_payee_by_name payees payee with
            | Some foundPayee => Ret (Some (Payee.id foundPayee))
            | None =>
                id <- ActualBudgetClient.createPayee payee ;;
                Ret (Some id)
            end
        | _ => Ret None
        end ;;
      let scheduleInput :=
        CreateScheduleInput.mk
          name
          (Some (JS.or_false (CreateScheduleArgs.posts_transaction args)))
          payeeId
          (Some (Account.id foundAccount))
          (Some (AmountNumber
                   (ActualBudgetClient.toAmount (CreateScheduleArgs.amount args))))
          None
          (DateObject
             (ScheduleDate.mk
                (Some frequency)
                (Some (JS.or_number_opt (CreateScheduleArgs.interval args) 1%float))
                (Some start_date)
                (Some (JS.or_string (CreateScheduleArgs.end_mode args) "never"))
                (CreateScheduleArgs.end_occurrences args)
                (CreateScheduleArgs.end_date args)
                None None None)) in
      scheduleId <- ActualBudgetClient.createSchedule scheduleInput ;;
      let output :=
        OutCreateSchedule
          (CreateScheduleOutput.mk true scheduleId
             ("Created " ++ frequency ++ " schedule " ++ dquote
              ++ JS.or_string name "Unnamed" ++ dquote
              ++ " starting " ++ start_date)) in
      respond output
  end.

Definition delete_schedule (id : string) : prog ToolResult.t :=
  ActualBudgetClient.deleteSchedule id ;;
  let output :=
    OutStatus (StatusOutput.mk true
                 ("Schedule " ++ id ++ " deleted successfully")) in
  respond output.

Definition sync_budget : prog ToolResult.t :=
  ActualBudgetClient.sync ;;
  let output :=
    OutStatus (StatusOutput.mk true "Budget synchronized successfully") in
  respond output.

(** *** The registered tools, with the arguments of an invocation *)

Inductive ToolCall : Type :=
| call_get_accounts
| call_get_account_balance (account : string)
| call_add_transaction (args : AddTransactionArgs.t)
| call_get_transactions (account : string) (start_date end_date : option string)
| call_search_transactions (args : SearchArgs.t)
| call_update_transaction (args : UpdateTransactionArgs.t)
| call_delete_transaction (id : string)
| call_get_categories
| call_get_budget_month (month : option string)
| call_set_budget_amount (month : option string) (category : string)
    (amount : JS.number)
| call_get_payees (search : option string)
| call_get_spending_summary (start_date end_date : option string)
| call_get_schedules
| call_create_schedule (args : CreateScheduleArgs.t)
| call_delete_schedule (id : string)
| call_sync_budget.

(** The handler that [registerTools] registered under the tool's name. *)
Definition handler (call : ToolCall) : prog ToolResult.t :=
  match call with
  | call_get_accounts => get_accounts
  | call_get_account_balance account => get_account_balance account
  | call_add_transaction args => add_transaction args
  | call_get_transactions account start_date end_date =>
      get_transactions account start_date end_date
  | call_search_transactions args => search_transactions args
  | call_update_transaction args => update_transaction args
  | call_delete_transaction id => delete_transaction id
  | call_get_categories => get_categories
  | call_get_budget_month month => get_budget_month month
  | call_set_budget_amount month category amount =>
      set_budget_amount month category amount
  | call_get_payees search => get_payees search
  | call_get_spending_summary start_date end_date =>
      get_spending_summary start_date end_date
  | call_get_schedules => get_schedules
  | call_create_schedule args => create_schedule args
  | call_delete_schedule id => delete_schedule id
  | call_sync_budget => sync_budget
  end.

End Handlers.

End Tools.

(** ** The server ([src/index.ts]) *)

Module Server.

(** [s.replace(pattern, replacement)] for a pattern that is a string and a
    replacement without [$]: the first occurrence of the pattern is
    replaced. *)
Fixpoint replace (pattern replacement s : string) : string :=
  if String.prefix pattern s
  then (replacement
        ++ String.substring (String.length pattern)
             (String.length s - String.length pattern) s)%string
  else match s with
       | EmptyString => EmptyString
       | String c s' => String c (replace pattern replacement s')
       end.

(** [process.env]: the variables of the environment that are set. *)
Definition Env : Type := string -> option string.

Module Config.
Record t : Type := mk {
  actualServerURL : string;
  actualPassword : string;
  actualBudgetId : string;
  actualEncryptionPassword : option string;
  actualDataDir : string;
  port : JS.number;
  transport : string;
  authToken : string
}.
End Config.

Section Configuration.

(** [parseInt], whose result on long or malformed texts is left to the
    implementation; the port is the only number it reads here. *)
Variable parseInt : string -> JS.number.

(** The constant [config], read from the environment. *)
Definition config (env : Env) : Config.t :=
  Config.mk
    (JS.or_string (env "ACTUAL_SERVER_URL") "http://localhost:5006")
    (JS.or_string (env "ACTUAL_PASSWORD") "")
    (JS.or_string (env "ACTUAL_BUDGET_ID") "")
    (env "ACTUAL_ENCRYPTION_PASSWORD")
    (JS.or_string (env "ACTUAL_DATA_DIR") "/data/actual-cache")
    (parseInt (JS.or_string (env "PORT") "3000"))
    (JS.or_string (env "MCP_TRANSPORT") "http")
    (JS.or_string (env "MCP_AUTH_TOKEN") "").

End Configuration.

(** What [validateConfig] does to the process: it returns, or it writes
    lines to the standard error and exits. *)
Inductive Startup : Type :=
| Continue
| Exit (code : Z) (stderr : list string).

(** [!s] for a string. *)
Definition is_empty (s : string) : bool :=
  match s with
  | EmptyString => true
  | String _ _ => false
  end.

Definition validateConfig (config : Config.t) : Startup :=
  let missing := [] in
  let missing :=
    if is_empty (Config.actualPassword config)
    then missing ++ ["ACTUAL_PASSWORD"] else missing in
  let missing :=
    if is_empty (Config.actualBudgetId config)
    then missing ++ ["ACTUAL_BUDGET_ID"] else missing in
  if (0 <? List.length missing)%nat then
    Exit 1
      [ ("Missing required environment variables: "
         ++ String.concat ", " missing)%string;
        String (ascii_of_nat 10) "Required environment variables:";
        "  ACTUAL_SERVER_URL     - URL of your Actual Budget server";
        "  ACTUAL_PASSWORD       - Password for Actual Budget server";
        "  ACTUAL_BUDGET_ID      - Sync ID of your budget (from Settings → Show advanced settings)";
        String (ascii_of_nat 10) "Optional environment variables:";
        "  ACTUAL_ENCRYPTION_PASSWORD - If your budget uses end-to-end encryption";
        "  ACTUAL_DATA_DIR            - Directory for cached budget data (default: /data/actual-cache)";
        "  PORT                       - HTTP server port (default: 3000)";
        ("  MCP_TRANSPORT              - Transport type: " ++ Tools.dquote
         ++ "http" ++ Tools.dquote ++ " or " ++ Tools.dquote ++ "stdio"
         ++ Tools.dquote ++ " (default: http)")%string ]
  else Continue.

(** [new ActualBudgetClient({ ... })] in [main]. *)
Definition actualClient (config : Config.t) : ClientState.t :=
  ClientState.mk
    (ActualConfig.mk
       (Config.actualServerURL config)
       (Config.actualPassword config)
       (Config.actualBudgetId config)
       (Config.actualEncryptionPassword config)
       (Some (Config.actualDataDir config)))
    false.

(** What the middleware reads of a request: [req.query.token] and
    [req.headers.authorization], each a string when it is there. *)
Module Request.
Record t : Type := mk {
  query_token : option string;
  authorization : option string
}.
End Request.

(** [{ jsonrpc: '2.0', error: { code, message }, id: null }] *)
Module ErrorBody.
Record t : Type := mk {
  jsonrpc : string;
  code : Z;
  message : string
}.
End ErrorBody.

(** What a middleware or a route does with a request: it hands it on with
    [next()], or it answers with [res.status(status).json(body)]. *)
Inductive Reply : Type :=
| Next
| Json (status : Z) (body : ErrorBody.t).

Definition authenticateToken (config : Config.t) (req : Request.t) : Reply :=
  if is_empty (Config.authToken config) then Next
  else
    let tokenFromQuery := Request.query_token req in
    let tokenFromHeader :=
      option_map (replace "Bearer " "") (Request.authorization req) in
    let providedToken :=
      if JS.truthy_string tokenFromQuery then tokenFromQuery
      else tokenFromHeader in
    if negb (JS.truthy_string providedToken)
       || negb match providedToken with
               | Some token => String.eqb token (Config.authToken config)
               | None => false
               end
    then Json 401
           (ErrorBody.mk "2.0" (-32001) "Unauthorized: Invalid or missing token")
    else Next.

End Server.

(** ** Vocabulary of the properties *)

(** The number that the decimal [k / 100] denotes, for an integer [k] of
    minor units: a decimal with at most two fractional digits is read as the
    binary64 number nearest to it, and the division, which rounds
    correctly, gives that number. *)
Definition decimal (k : Z) : JS.number :=
  PrimFloat.div (JS.of_int k) 100%float.

(** The mantissa of the number 100, which is [hundred * 2^-46]. *)
Definition hundred : positive := 7036874417766400.

(** How [SpecFloat] keeps a quotient [N / D] while it rounds it: the
    integer part of the quotient, whether the remainder reaches half of [D],
    and whether it lies strictly between the marks 0, half of [D] and [D]. *)
Definition represents (mrs : shr_record) (N D : Z) : Prop :=
  (shr_m mrs = N / D
   /\ shr_r mrs = (D <=? 2 * (N mod D))
   /\ shr_s mrs = negb (N mod D =? 0) && negb (2 * (N mod D) =? D))%Z.

(** The place of [N / D] between its integer part and the next integer. *)
Definition location_of (N D : Z) : location :=
  (if N mod D =? 0 then loc_Exact else loc_Inexact (2 * (N mod D) ?= D))%Z.

(** The sum of a list of numbers, added from the left starting at 0. *)
Definition sum (l : list JS.number) : JS.number :=
  fold_left PrimFloat.add l 0%float.

(** A copy of a group as the data source answers it, with another
    group-level [spent]. *)
Definition raw_with_spent (g : RawCategoryGroupBudget.t)
  (spent : option JS.number) : RawCategoryGroupBudget.t :=
  RawCategoryGroupBudget.mk
    (RawCategoryGroupBudget.id g) (RawCategoryGroupBudget.name g)
    (RawCategoryGroupBudget.budgeted g) spent
    (RawCategoryGroupBudget.balance g) (RawCategoryGroupBudget.categories g).

(** The absolute values of the [spent] of the categories of a group. *)
Definition absolute_spent (g : CategoryGroupBudget.t) : list JS.number :=
  map (fun c => JS.Math_abs (CategoryBudget.spent c))
      (CategoryGroupBudget.categories g).

(** The conjunction of the search filters whose input is given: a payee or
    notes text that is not empty, a minimum, a maximum. *)
Definition passes (pm : JS.Map string) (args : Tools.SearchArgs.t)
  (t : Tools.Tagged.t) : bool :=
  match Tools.SearchArgs.payee args with
  | Some (String _ _ as payee) => Tools.payee_matches pm (JS.toLowerCase payee) t
  | _ => true
  end
  && match Tools.SearchArgs.notes args with
     | Some (String _ _ as notes) => Tools.notes_match (JS.toLowerCase notes) t
     | _ => true
     end
  && match Tools.SearchArgs.min_amount args with
     | Some min_amount =>
         Tools.at_least (ActualBudgetClient.toAmount min_amount) t
     | None => true
     end
  && match Tools.SearchArgs.max_amount args with
     | Some max_amount =>
         Tools.at_most (ActualBudgetClient.toAmount max_amount) t
     | None => true
     end.

(** [a] is dated no earlier than [b]. *)
Definition not_before (a b : Tools.Tagged.t) : Prop :=
  String.leb (Transaction.date (Tools.Tagged.transaction b))
             (Transaction.date (Tools.Tagged.transaction a)) = true.

(** The mutating operations of the client. *)
Inductive MutatingOp : Type :=
| op_addTransaction (transaction : Transaction.t)
| op_importTransactions (accountId : string) (transactions : list Transaction.t)
| op_updateTransaction (id : string) (fields : PartialTransaction.t)
| op_deleteTransaction (id : string)
| op_setBudgetAmount (month categoryId : string) (amount : JS.number)
| op_createPayee (name : string)
| op_createSchedule (schedule : CreateScheduleInput.t)
| op_updateSchedule (id : string) (fields : PartialScheduleInput.t)
| op_deleteSchedule (id : string).

(** The operation as a program; what it returns is dropped. *)
Definition perform (op : MutatingOp) : prog unit :=
  match op with
  | op_addTransaction t => ActualBudgetClient.addTransaction t ;; Ret tt
  | op_importTransactions a ts => ActualBudgetClient.importTransactions a ts ;; Ret tt
  | op_updateTransaction id fields => ActualBudgetClient.updateTransaction id fields
  | op_deleteTransaction id => ActualBudgetClient.deleteTransaction id
  | op_setBudgetAmount m c a => ActualBudgetClient.setBudgetAmount m c a
  | op_createPayee name => ActualBudgetClient.createPayee name ;; Ret tt
  | op_createSchedule s => ActualBudgetClient.createSchedule s ;; Ret tt
  | op_updateSchedule id fields => ActualBudgetClient.updateSchedule id fields
  | op_deleteSchedule id => ActualBudgetClient.deleteSchedule id
  end.

(** The call of the backing store that carries out the operation. *)
Definition is_mutation_of (op : MutatingOp) (e : Entry) : bool :=
  match e with
  | Called call (Fulfilled _) =>
      match op, call with
      | op_addTransaction _, api_importTransactions _ _
      | op_importTransactions _ _, api_importTransactions _ _
      | op_updateTransaction _ _, api_updateTransaction _ _
      | op_deleteTransaction _, api_deleteTransaction _
      | op_setBudgetAmount _ _ _, api_setBudgetAmount _ _ _
      | op_createPayee _, api_createPayee _
      | op_createSchedule _, api_createSchedule _
      | op_updateSchedule _ _, api_updateSchedule _ _
      | op_deleteSchedule _, api_deleteSchedule _ => true
      | _, _ => false
      end
  | _ => false
  end.

(** All the transactions fetched in a trace, in the order of the calls. *)
Definition fetched (tr : list Entry) : list Transaction.t :=
  flat_map snd (flat_map transactions_answered tr).

(** The same, each tagged with the account it was fetched for. *)
Definition fetched_tagged (tr : list Entry) : list Tools.Tagged.t :=
  flat_map (fun al => map (fun t => Tools.Tagged.mk t (fst al)) (snd al))
           (flat_map transactions_answered tr).

(** Programs that fetch no transactions. *)
Definition fetches_nothing {A : Type} (p : prog A) : Prop :=
  forall w c h r c' tr,
    run w p c h = (r, c', tr) -> flat_map transactions_answered tr = [].

(** [returns p P]: whenever [p] is fulfilled, its value satisfies [P]. *)
Definition returns {A : Type} (p : prog A) (P : A -> Prop) : Prop :=
  forall w c h a c' tr, run w p c h = (Fulfilled a, c', tr) -> P a.

(** *** The connection to the backing store *)

(** Where a client stands with the backing store: not connected, connected
    to the server with the budget still to download, ready, or stopped by a
    call that was rejected. *)
Inductive Phase : Type :=
| Disconnected
| Downloading
| Ready
| Stopped.

Definition phase_of (c : ClientState.t) : Phase :=
  if ClientState.initialized c then Ready else Disconnected.

(** The call [api.init] with the server, the password and the data directory
    of the configuration. *)
Definition is_init_of (config : ActualConfig.t) {X : Type} (call : apiE X)
  : bool :=
  match call with
  | api_init serverURL password dataDir =>
      String.eqb serverURL (ActualConfig.serverURL config)
      && String.eqb password (ActualConfig.password config)
      && String.eqb dataDir
           (JS.or_string (ActualConfig.dataDir config) "/tmp/actual-data")
  | _ => false
  end.

(** The call [api.downloadBudget] for the budget of the configuration. *)
Definition is_download_of (config : ActualConfig.t) {X : Type} (call : apiE X)
  : bool :=
  match call with
  | api_downloadBudget budgetId _ =>
      String.eqb budgetId (ActualConfig.budgetId config)
  | _ => false
  end.

(** The calls that open or close the connection. *)
Definition is_lifecycle {X : Type} (call : apiE X) : bool :=
  match call with
  | api_init _ _ _ | api_downloadBudget _ _ | api_shutdown => true
  | _ => false
  end.

Definition after_call {X : Type} (settled : outcome X) (next : Phase) : Phase :=
  match settled with
  | Fulfilled _ => next
  | Rejected _ => Stopped
  end.

(** One step of the connection: which entries may follow in which phase, and
    the phase they lead to.  [None] is a step out of order. *)
Definition advance (config : ActualConfig.t) (p : Phase) (e : Entry)
  : option Phase :=
  match e with
  | Clocked _ _ =>
      match p with
      | Disconnected | Ready => Some p
      | Downloading | Stopped => None
      end
  | Called call settled =>
      match p with
      | Disconnected =>
          if is_init_of config call then Some (after_call settled Downloading)
          else None
      | Downloading =>
          if is_download_of config call then Some (after_call settled Ready)
          else None
      | Ready =>
          if is_lifecycle call then None else Some (after_call settled Ready)
      | Stopped => None
      end
  end.

(** The phase a trace leads to, when every step of it is in order. *)
Fixpoint follows (config : ActualConfig.t) (p : Phase) (tr : list Entry)
  : option Phase :=
  match tr with
  | [] => Some p
  | e :: tr' =>
      match advance config p e with
      | Some p' => follows config p' tr'
      | None => None
      end
  end.

(** How an execution that led to the phase [final] may have settled. *)
Definition ends_in {A : Type} (r : outcome A) (c' : ClientState.t)
  (final : Phase) : Prop :=
  match r with
  | Fulfilled _ => final = phase_of c'
  | Rejected _ => final = Stopped \/ final = phase_of c'
  end.

(** Programs that keep the connection in order. *)
Definition in_order {A : Type} (p : prog A) : Prop :=
  forall w c h r c' tr,
    run w p c h = (r, c', tr) ->
    ClientState.config c' = ClientState.config c
    /\ (ClientState.initialized c = true -> ClientState.initialized c' = true)
    /\ exists final,
         follows (ClientState.config c) (phase_of c) tr = Some final
         /\ ends_in r c' final.

(** Programs that leave the client connected when they are fulfilled. *)
Definition connects {A : Type} (p : prog A) : Prop :=
  forall w c h a c' tr,
    run w p c h = (Fulfilled a, c', tr) -> ClientState.initialized c' = true.

(** Programs all of whose steps satisfy [Q]. *)
Definition only (Q : Entry -> Prop) {A : Type} (p : prog A) : Prop :=
  forall w c h r c' tr, run w p c h = (r, c', tr) -> Forall Q tr.

(** *** More readings of a trace *)

(** The account lists that [api.getAccounts] answered in a trace. *)
Definition accounts_answered (e : Entry) : list (list Account.t) :=
  match e with
  | Called call a =>
      match call in apiE X return outcome X -> list (list Account.t) with
      | api_getAccounts =>
          fun a => match a with Fulfilled l => [l] | Rejected _ => [] end
      | _ => fun _ => []
      end a
  | Clocked _ _ => []
  end.

(** The payee lists that [api.getPayees] answered. *)
Definition payees_answered (e : Entry) : list (list Payee.t) :=
  match e with
  | Called call a =>
      match call in apiE X return outcome X -> list (list Payee.t) with
      | api_getPayees =>
          fun a => match a with Fulfilled l => [l] | Rejected _ => [] end
      | _ => fun _ => []
      end a
  | Clocked _ _ => []
  end.

(** The category groups that [api.getCategoryGroups] answered. *)
Definition groups_answered (e : Entry) : list (list CategoryGroup.t) :=
  match e with
  | Called call a =>
      match call in apiE X return outcome X -> list (list CategoryGroup.t) with
      | api_getCategoryGroups =>
          fun a => match a with Fulfilled l => [l] | Rejected _ => [] end
      | _ => fun _ => []
      end a
  | Clocked _ _ => []
  end.

(** The calls of [api.getTransactions]: the account and the range asked. *)
Definition transactions_asked (e : Entry) : list (string * string * string) :=
  match e with
  | Called call _ =>
      match call with
      | api_getTransactions accountId startDate endDate =>
          [(accountId, startDate, endDate)]
      | _ => []
      end
  | Clocked _ _ => []
  end.

(** The calls of [api.createPayee]: the name sent and how the call settled. *)
Definition payees_created (e : Entry) : list (string * outcome string) :=
  match e with
  | Called call a =>
      match call in apiE X return outcome X -> list (string * outcome string)
      with
      | api_createPayee name => fun a => [(name, a)]
      | _ => fun _ => []
      end a
  | Clocked _ _ => []
  end.

(** The schedules sent with [api.createSchedule]. *)
Definition schedules_created (e : Entry) : list CreateScheduleInput.t :=
  match e with
  | Called call _ =>
      match call with
      | api_createSchedule schedule => [schedule]
      | _ => []
      end
  | Clocked _ _ => []
  end.

(** The calls of [api.setBudgetAmount]: month, category id and amount. *)
Definition budget_amounts_set (e : Entry) : list (string * string * JS.number) :=
  match e with
  | Called call _ =>
      match call with
      | api_setBudgetAmount month categoryId amount =>
          [(month, categoryId, amount)]
      | _ => []
      end
  | Clocked _ _ => []
  end.

(** The balances asked with [api.getAccountBalance]: the account id. *)
Definition balances_asked (e : Entry) : list string :=
  match e with
  | Called call _ =>
      match call with
      | api_getAccountBalance id => [id]
      | _ => []
      end
  | Clocked _ _ => []
  end.

(** A reading of the clock. *)
Definition is_clock (e : Entry) : bool :=
  match e with
  | Clocked _ _ => true
  | Called _ _ => false
  end.

(** *** The tools by what they take *)

(** The tools that report and are not meant to change the ledger. *)
Definition is_query (call : Tools.ToolCall) : bool :=
  match call with
  | Tools.call_get_accounts
  | Tools.call_get_account_balance _
  | Tools.call_get_transactions _ _ _
  | Tools.call_search_transactions _
  | Tools.call_get_categories
  | Tools.call_get_budget_month _
  | Tools.call_get_payees _
  | Tools.call_get_spending_summary _ _
  | Tools.call_get_schedules => true
  | _ => false
  end.

(** The tools that await their calls one after the other.  [get_accounts]
    asks for the balances with [Promise.all], all at once: the order of its
    calls is not that of one call after the other has settled. *)
Definition awaits_in_turn (call : Tools.ToolCall) : bool :=
  match call with
  | Tools.call_get_accounts => false
  | _ => true
  end.

(** The account that an invocation names, for the tools that take one. *)
Definition account_argument (call : Tools.ToolCall) : option string :=
  match call with
  | Tools.call_get_account_balance account => Some account
  | Tools.call_add_transaction args => Some (Tools.AddTransactionArgs.account args)
  | Tools.call_get_transactions account _ _ => Some account
  | Tools.call_create_schedule args =>
      Some (Tools.CreateScheduleArgs.account args)
  | _ => None
  end.

(** The dates and months of an invocation that default to the current
    time when they are not given. *)
Definition time_arguments (call : Tools.ToolCall) : list (option string) :=
  match call with
  | Tools.call_add_transaction args => [Tools.AddTransactionArgs.date args]
  | Tools.call_get_transactions _ start_date end_date => [start_date; end_date]
  | Tools.call_search_transactions args =>
      [Tools.SearchArgs.start_date args; Tools.SearchArgs.end_date args]
  | Tools.call_get_budget_month month => [month]
  | Tools.call_set_budget_amount month _ _ => [month]
  | Tools.call_get_spending_summary start_date end_date => [start_date; end_date]
  | _ => []
  end.

(** *** Categories of the spending summary *)

(** The name under which the spending summary counts an expense: the name
    of its category, or [Uncategorized] when it has no category or one that
    is not known. *)
Definition category_label (cm : JS.Map string) (t : Transaction.t) : string :=
  match Transaction.category t with
  | Some (String _ _ as category) =>
      JS.or_string (JS.Map_get cm category) "Uncategorized"
  | _ => "Uncategorized"
  end.

(** The value that a [Map] built from a list of records holds for a key:
    that of the last record with this key. *)
Definition last_with {A : Type} (key : A -> string) (value : A -> string)
  (l : list A) (k : string) : option string :=
  option_map value (find (fun x => String.eqb (key x) k) (rev l)).

(** *** Texts *)

(** Whether the character [c] occurs in [s]. *)
Fixpoint occurs (c : ascii) (s : string) : bool :=
  match s with
  | EmptyString => false
  | String c' s' => Ascii.eqb c' c || occurs c s'
  end.

(** *** Numbers *)

(** The sign bit of a number, [None] for [NaN]: [Some true] for [-0], the
    negative numbers and [-Infinity]. *)
Definition sign_bit (x : JS.number) : option bool :=
  match Prim2SF x with
  | S754_nan => None
  | S754_zero s | S754_infinity s | S754_finite s _ _ => Some s
  end.

(** [Number.isNaN(x)] *)
Definition is_NaN (x : JS.number) : bool :=
  match sign_bit x with
  | None => true
  | Some _ => false
  end.

(** [+0], the positive numbers and [+Infinity]. *)
Definition is_positive_or_zero (x : JS.number) : bool :=
  match sign_bit x with
  | Some false => true
  | _ => false
  end.

(** The numbers of a budget month as [get_budget_month] reports it: of the
    month, of a group and of a category. *)
Definition numbers_of_category (c : CategoryBudgetInfo.t) : list JS.number :=
  [ CategoryBudgetInfo.budgeted c; CategoryBudgetInfo.spent c;
    CategoryBudgetInfo.balance c ].

Definition numbers_of_group (g : GroupBudgetInfo.t) : list JS.number :=
  [ GroupBudgetInfo.budgeted g; GroupBudgetInfo.spent g;
    GroupBudgetInfo.balance g ]
  ++ flat_map numbers_of_category (GroupBudgetInfo.categories g).

Definition numbers_of_month (m : BudgetMonthOutput.t) : list JS.number :=
  [ BudgetMonthOutput.to_budget m; BudgetMonthOutput.total_budgeted m;
    BudgetMonthOutput.total_spent m ]
  ++ flat_map numbers_of_group (BudgetMonthOutput.category_groups m).

(** The amounts spent that it reports: the total, and per group and
    category. *)
Definition spent_of_month (m : BudgetMonthOutput.t) : list JS.number :=
  BudgetMonthOutput.total_spent m
  :: flat_map (fun g => GroupBudgetInfo.spent g
                        :: map CategoryBudgetInfo.spent
                               (GroupBudgetInfo.categories g))
              (BudgetMonthOutput.category_groups m).

(** *** Finding the first match *)

(** [result] is what looking in [l] for the first element that satisfies
    [p] gives: that element, with none before it that satisfies [p], or
    nothing when no element does. *)
Definition first_match {A : Type} (p : A -> bool) (l : list A)
  (result : option A) : Prop :=
  match result with
  | Some found =>
      exists pre post,
        l = pre ++ found :: post
        /\ (forall x, In x pre -> p x = false)
        /\ p found = true
  | None => forall x, In x l -> p x = false
  end.

(** *** Calendar dates *)

(** A decimal digit. *)
Definition is_digit (c : ascii) : bool :=
  (48 <=? nat_of_ascii c)%nat && (nat_of_ascii c <=? 57)%nat.

(** A calendar date as the ledger writes it: [YYYY-MM-DD], digits with
    hyphens at the fifth and the eighth place.  On these texts the
    collation order of [localeCompare] is the order of the characters. *)
Definition is_ISO_date (s : string) : bool :=
  match s with
  | String y1 (String y2 (String y3 (String y4
      (String "-" (String m1 (String m2
        (String "-" (String d1 (String d2 EmptyString))))))))) =>
      forallb is_digit [y1; y2; y3; y4; m1; m2; d1; d2]
  | _ => false
  end.

(** ** A scenario

    A small ledger, a backing store that answers from it and never fails,
    and a clock stopped on 3 November 2026. *)

Module Scenario.

Definition accounts : list Account.t :=
  [ Account.mk "acc_1" "Checking" None None;
    Account.mk "acc_2" "Savings" None None ].

Definition categories : list Category.t :=
  [ Category.mk "cat_1" "Groceries" (Some "grp_1") None;
    Category.mk "cat_2" "Rent" (Some "grp_1") None ].

Definition payees : list Payee.t :=
  [ Payee.mk "pay_1" "Costco" None None ].

Definition transactions (accountId : string) : list Transaction.t :=
  [ Transaction.mk (Some "t1") accountId "2024-01-01" (-500)%float
      (Some "pay_1") None (Some "cat_1") (Some "weekly shop") None None;
    Transaction.mk (Some "t2") accountId "2024-03-01" 120000%float
      None None None None None None;
    Transaction.mk (Some "t3") accountId "2024-02-01" (-300)%float
      (Some "pay_1") None None None None None ].

(** The transactions of the first account, tagged as the search tags
    them. *)
Definition tagged : list Tools.Tagged.t :=
  map (fun t => Tools.Tagged.mk t "acc_1") (transactions "acc_1").

Definition budget : RawBudgetMonth.t :=
  RawBudgetMonth.mk (Some "2024-01") None None None (Some 80000%float) None
    (Some [ RawCategoryGroupBudget.mk (Some "grp_1") (Some "Usual")
              (Some 80000%float) (Some (-12345)%float) (Some 79200%float)
              (Some [ RawCategoryBudget.mk (Some "cat_1") (Some "Groceries")
                        (Some 30000%float) (Some (-500)%float)
                        (Some 29500%float) None;
                      RawCategoryBudget.mk (Some "cat_2") (Some "Rent")
                        (Some 50000%float) (Some (-300)%float)
                        (Some 49700%float) None ]) ]).

Definition answer (X : Type) (h : list Entry) (call : apiE X) : outcome X :=
  match call in apiE X return outcome X with
  | api_init _ _ _ => Fulfilled tt
  | api_downloadBudget _ _ => Fulfilled tt
  | api_shutdown => Fulfilled tt
  | api_sync => Fulfilled tt
  | api_getAccounts => Fulfilled accounts
  | api_getAccountBalance _ => Fulfilled 123456%float
  | api_getTransactions accountId _ _ => Fulfilled (transactions accountId)
  | api_importTransactions _ _ => Fulfilled (ImportResult.mk [] [])
  | api_updateTransaction _ _ => Fulfilled tt
  | api_deleteTransaction _ => Fulfilled tt
  | api_getCategories => Fulfilled categories
  | api_getCategoryGroups => Fulfilled []
  | api_getPayees => Fulfilled payees
  | api_createPayee _ => Fulfilled "pay_2"
  | api_getBudgetMonths => Fulfilled ["2024-01"]
  | api_getBudgetMonth _ => Fulfilled budget
  | api_setBudgetAmount _ _ _ => Fulfilled tt
  | api_getSchedules => Fulfilled []
  | api_createSchedule _ => Fulfilled "sch_1"
  | api_updateSchedule _ _ => Fulfilled tt
  | api_deleteSchedule _ => Fulfilled tt
  end.

Definition clock (X : Type) (h : list Entry) (reading : clockE X) : X :=
  match reading in clockE X return X with
  | clock_now => Date.mk "2026-11-03T09:30:00.000Z"
  | clock_ago _ => Date.mk "2026-08-05T09:30:00.000Z"
  | clock_first_of_month => Date.mk "2026-11-01T09:30:00.000Z"
  end.

Definition world : World := mkWorld answer clock.

(** The same backing store in a month with a salary and no expense. *)
Definition salary_answer (X : Type) (h : list Entry) (call : apiE X)
  : outcome X :=
  match call in apiE X return outcome X with
  | api_getTransactions accountId _ _ =>
      Fulfilled [ Transaction.mk (Some "t2") accountId "2024-03-01"
                    120000%float None None None None None None ]
  | other => answer _ h other
  end.

Definition salary_world : World := mkWorld salary_answer clock.

(** A client that has not been initialized yet. *)
Definition client : ClientState.t :=
  ClientState.mk
    (ActualConfig.mk "http://localhost:5006" "secret" "budget-1" None None)
    false.

(** Text conversions for the scenario: every number prints as [#] and every
    output as [{}]. *)
Definition runtime : Runtime :=
  Build_Runtime (fun _ => "#") (fun _ _ => "{}").

End Scenario.

(** *** A backing store with a category group

    The store of the scenario, which lists no group, with the group
    [grp_1] of its two categories listed. *)

Definition grouped_answer (X : Type) (h : list Entry) (call : apiE X)
  : outcome X :=
  match call in apiE X return outcome X with
  | api_getCategoryGroups =>
      Fulfilled [ CategoryGroup.mk "grp_1" "Usual" None None ]
  | other => Scenario.answer _ h other
  end.

Definition grouped_world : World := mkWorld grouped_answer Scenario.clock.

(** * Properties *)

(** ** Executions *)

Lemma run_bind (A B : Type) (w : World) (p : prog A) (f : A -> prog B)
  (c : ClientState.t) (h : list Entry) :
  run w (bind p f) c h
  = let '(r, c1, tr1) := run w p c h in
    match r with
    | Fulfilled a =>
        let '(r2, c2, tr2) := run w (f a) c1 (h ++ tr1) in
        (r2, c2, tr1 ++ tr2)
    | Rejected m => (Rejected m, c1, tr1)
    end.
Proof.
  revert c h.
  induction p as [a|m|X call k IH|X reading k IH|k IH|b k IH]; intros c h;
    cbn [bind run].
  - rewrite app_nil_r. now destruct (run w (f a) c h) as [[r2 c2] tr2].
  - reflexivity.
  - destruct (answer w X h call) as [x|m]; [ | reflexivity ].
    rewrite IH.
    destruct (run w (k x) c (h ++ [Called call (Fulfilled x)])) as [[r1 c1] tr1].
    destruct r1 as [a|m]; [ | reflexivity ].
    rewrite <- app_assoc. cbn [app].
    now destruct (run w (f a) c1 _) as [[r2 c2] tr2].
  - rewrite IH.
    destruct (run w (k (clock w X h reading)) c _) as [[r1 c1] tr1].
    destruct r1 as [a|m]; [ | reflexivity ].
    rewrite <- app_assoc. cbn [app].
    now destruct (run w (f a) c1 _) as [[r2 c2] tr2].
  - apply IH.
  - apply IH.
Qed.

Lemma returns_Ret (A : Type) (a : A) (P : A -> Prop) : P a -> returns (Ret a) P.
Proof. intros H w c h a' c' tr E. cbn in E. now inversion E; subst. Qed.

Lemma returns_Throw (A : Type) (m : string) (P : A -> Prop) : returns (Throw m) P.
Proof. intros w c h a' c' tr E. cbn in E. discriminate. Qed.

Lemma returns_bind (A B : Type) (p : prog A) (f : A -> prog B) (P : B -> Prop) :
  (forall a, returns (f a) P) -> returns (bind p f) P.
Proof.
  intros H w c h b c' tr E. rewrite run_bind in E.
  destruct (run w p c h) as [[r1 c1] tr1].
  destruct r1 as [a|m]; [ | discriminate ].
  destruct (run w (f a) c1 (h ++ tr1)) as [[r2 c2] tr2] eqn:E2.
  inversion E; subst. eapply H; eassumption.
Qed.

(** One step in the proof of a [returns]. *)
Ltac returns_step :=
  first
    [ apply returns_Throw
    | apply returns_Ret; reflexivity
    | apply returns_bind; intro
    | match goal with
      | |- returns (match ?x with _ => _ end) _ => destruct x
      end
    | progress cbv zeta ].

(** The cases of a client object: initialized, or not yet and then with or
    without an encryption password. *)
Ltac destruct_client c :=
  let su := fresh "serverURL" in
  let pw := fresh "password" in
  let bi := fresh "budgetId" in
  let ep := fresh "encryptionPassword" in
  let dd := fresh "dataDir" in
  let ini := fresh "initialized" in
  destruct c as [[su pw bi ep dd] ini];
  destruct ini; [ | destruct ep as [[|? ?]|] ].

#[local] Arguments Tools.find_account : simpl never.
#[local] Arguments Tools.find_category : simpl never.
#[local] Arguments ActualBudgetClient.toAmount : simpl never.
#[local] Arguments ActualBudgetClient.fromAmount : simpl never.
#[local] Arguments ActualBudgetClient.first_added_or_unknown : simpl never.
#[local] Arguments JS.Math_abs : simpl never.
#[local] Arguments JS.lt : simpl never.
#[local] Arguments String.append : simpl never.

(** The execution in [H], followed call by call: every answer of the backing
    store and every resolution is a case. *)
Ltac run_cases H :=
  cbn in H;
  repeat match type of H with
    | context [answer ?w ?X ?h ?call] =>
        destruct (answer w X h call) eqn:?; cbn in H
    | context [Tools.find_account ?l ?a] =>
        destruct (Tools.find_account l a) eqn:?; cbn in H
    | context [Tools.find_category ?l ?a] =>
        destruct (Tools.find_category l a) eqn:?; cbn in H
    end.

(** One [bind] of a fulfilled execution, taken apart. *)
Ltac run_bind_in H :=
  rewrite run_bind in H;
  let r := fresh "r" in
  let c := fresh "c" in
  let tr := fresh "tr" in
  let E := fresh "E" in
  match type of H with
  | context [run ?w ?p ?c0 ?h0] =>
      destruct (run w p c0 h0) as [[r c] tr] eqn:E;
      destruct r; [ | discriminate ]
  end.

(** *** Fetching transactions *)

Ltac fetches_nothing_tac :=
  let H := fresh "H" in
  intros ? c ? ? ? ? H; destruct_client c; run_cases H;
  inversion H; subst; reflexivity.

Lemma getAccounts_fetches_nothing : fetches_nothing ActualBudgetClient.getAccounts.
Proof. fetches_nothing_tac. Qed.

Lemma getPayees_fetches_nothing : fetches_nothing ActualBudgetClient.getPayees.
Proof. fetches_nothing_tac. Qed.

Lemma getCategories_fetches_nothing :
  fetches_nothing ActualBudgetClient.getCategories.
Proof. fetches_nothing_tac. Qed.

Lemma or_today_fetches_nothing (date : option string) :
  fetches_nothing (Tools.or_today date).
Proof. destruct date as [[|? ?]|]; fetches_nothing_tac. Qed.

Lemma or_days_ago_fetches_nothing (date : option string) (days : JS.number) :
  fetches_nothing (Tools.or_days_ago date days).
Proof. destruct date as [[|? ?]|]; fetches_nothing_tac. Qed.

Lemma or_first_of_month_fetches_nothing (date : option string) :
  fetches_nothing (Tools.or_first_of_month date).
Proof. destruct date as [[|? ?]|]; fetches_nothing_tac. Qed.

Lemma run_getTransactions (w : World) (accountId startDate endDate : string)
  (c : ClientState.t) (h : list Entry) (l : list Transaction.t)
  (c' : ClientState.t) (tr : list Entry) :
  run w (ActualBudgetClient.getTransactions accountId startDate endDate) c h
  = (Fulfilled l, c', tr) ->
  flat_map transactions_answered tr = [(accountId, l)].
Proof.
  intros H. destruct_client c; run_cases H; try discriminate;
    inversion H; subst; reflexivity.
Qed.

Lemma run_fetch_all (T : Type) (tag : Account.t -> Transaction.t -> T)
  (tag' : string -> Transaction.t -> T) (startDate endDate : string)
  (w : World) (accounts : list Account.t) :
  (forall acc t, tag acc t = tag' (Account.id acc) t) ->
  forall c h all c' tr,
    run w (Tools.fetch_all accounts startDate endDate tag) c h
    = (Fulfilled all, c', tr) ->
    all = flat_map (fun al => map (tag' (fst al)) (snd al))
                   (flat_map transactions_answered tr).
Proof.
  intros Htag. unfold Tools.fetch_all.
  assert (Hmap : forall c h fetched c' tr,
             run w (mapM (fun acc =>
                            transactions <- ActualBudgetClient.getTransactions
                                              (Account.id acc) startDate endDate ;;
                            Ret (map (tag acc) transactions))
                         accounts) c h
             = (Fulfilled fetched, c', tr) ->
             List.concat fetched
             = flat_map (fun al => map (tag' (fst al)) (snd al))
                        (flat_map transactions_answered tr)).
  { induction accounts as [|acc accounts IH]; intros c h fetched c' tr H.
    - cbn in H. inversion H; subst. reflexivity.
    - cbn [mapM] in H. rewrite run_bind in H.
      destruct (run w _ c h) as [[r1 c1] tr1] eqn:E1.
      destruct r1 as [y|m]; [ | discriminate ].
      rewrite run_bind in H.
      destruct (run w (mapM _ accounts) c1 (h ++ tr1)) as [[r2 c2] tr2] eqn:E2.
      destruct r2 as [ys|m]; [ | discriminate ].
      cbn in H. inversion H; subst. clear H.
      rewrite run_bind in E1.
      destruct (run w (ActualBudgetClient.getTransactions _ _ _) c h)
        as [[r0 c0] tr0] eqn:E0.
      destruct r0 as [l|m]; [ | discriminate ].
      cbn in E1. inversion E1; subst. clear E1.
      rewrite !app_nil_r. rewrite !flat_map_app.
      rewrite (run_getTransactions _ _ _ _ _ _ _ _ _ E0).
      cbn [flat_map fst snd List.concat app]. rewrite app_nil_r.
      f_equal.
      + apply map_ext. intros t. apply Htag.
      + eapply IH. eassumption. }
  intros c h all c' tr H. rewrite run_bind in H.
  destruct (run w _ c h) as [[r1 c1] tr1] eqn:E1.
  destruct r1 as [fetched|m]; [ | discriminate ].
  cbn in H. inversion H; subst. rewrite app_nil_r. eapply Hmap. eassumption.
Qed.

Lemma search_transactions_reports (rt : Runtime) (w : World)
  (c : ClientState.t) (h : list Entry) (args : Tools.SearchArgs.t)
  (r : ToolResult.t) (c' : ClientState.t) (tr : list Entry) :
  run w (Tools.search_transactions args) c h = (Fulfilled r, c', tr) ->
  exists accounts payees categories,
    ToolResult.structuredContent r
    = OutSearch (Tools.search_output accounts payees categories args
                   (fetched_tagged tr)).
Proof.
  intros H. unfold Tools.search_transactions in H.
  run_bind_in H. run_bind_in H. run_bind_in H. run_bind_in H. run_bind_in H.
  run_bind_in H.
  cbn in H. inversion H; subst. clear H.
  exists a, a0, a1. cbn [ToolResult.structuredContent]. do 2 f_equal.
  unfold fetched_tagged. rewrite !flat_map_app.
  rewrite (getAccounts_fetches_nothing _ _ _ _ _ _ E).
  rewrite (getPayees_fetches_nothing _ _ _ _ _ _ E0).
  rewrite (getCategories_fetches_nothing _ _ _ _ _ _ E1).
  rewrite (or_today_fetches_nothing _ _ _ _ _ _ _ E2).
  rewrite (or_days_ago_fetches_nothing _ _ _ _ _ _ _ _ E3).
  cbn [app flat_map]. rewrite app_nil_r.
  exact (run_fetch_all _ _ (fun id t => Tools.Tagged.mk t id) _ _ _ _
           (fun _ _ => eq_refl) _ _ _ _ _ E4).
Qed.

Lemma get_spending_summary_reports (rt : Runtime) (w : World)
  (c : ClientState.t) (h : list Entry) (start_date end_date : option string)
  (r : ToolResult.t) (c' : ClientState.t) (tr : list Entry) :
  run w (Tools.get_spending_summary start_date end_date) c h
  = (Fulfilled r, c', tr) ->
  exists startDate endDate categories,
    ToolResult.structuredContent r
    = OutSpendingSummary
        (Tools.spending_summary_output startDate endDate categories (fetched tr)).
Proof.
  intros H. unfold Tools.get_spending_summary in H.
  run_bind_in H. run_bind_in H. run_bind_in H. run_bind_in H. run_bind_in H.
  cbn in H. inversion H; subst. clear H.
  exists a0, a, a2. cbn [ToolResult.structuredContent]. do 2 f_equal.
  unfold fetched. rewrite !flat_map_app.
  rewrite (or_today_fetches_nothing _ _ _ _ _ _ _ E).
  rewrite (or_first_of_month_fetches_nothing _ _ _ _ _ _ _ E0).
  rewrite (getAccounts_fetches_nothing _ _ _ _ _ _ E1).
  rewrite (getCategories_fetches_nothing _ _ _ _ _ _ E2).
  cbn [app flat_map]. rewrite app_nil_r.
  rewrite (run_fetch_all _ _ (fun _ t => t) _ _ _ _
             (fun _ _ => eq_refl) _ _ _ _ _ E3).
  apply flat_map_ext. intros al. apply map_id.
Qed.

Lemma get_budget_month_reports (rt : Runtime) (w : World)
  (c : ClientState.t) (h : list Entry) (month : option string)
  (r : ToolResult.t) (c' : ClientState.t) (tr : list Entry) :
  run w (Tools.get_budget_month month) c h = (Fulfilled r, c', tr) ->
  exists targetMonth raw,
    flat_map budgets_answered tr = [(targetMonth, raw)]
    /\ ToolResult.structuredContent r
       = OutBudgetMonth
           (Tools.budget_month_output targetMonth
              (ActualBudgetClient.transform_budget targetMonth raw)).
Proof.
  intros H. unfold Tools.get_budget_month in H.
  destruct_client c; destruct month as [[|? ?]|]; run_cases H;
    try discriminate; inversion H; subst; clear H;
    do 2 eexists; split; reflexivity.
Qed.

(** ** Entity resolution *)

Section Find.

Variable A : Type.
Variable p : A -> bool.

Lemma find_skips_prefix (l1 : list A) (r : A) (l2 : list A) :
  (forall x, In x l1 -> p x = false) ->
  p r = true ->
  JS.find p (l1 ++ r :: l2) = Some r.
Proof.
  unfold JS.find.
  induction l1 as [|x l1 IH]; intros Hpre Hr; simpl.
  - now rewrite Hr.
  - rewrite (Hpre x) by now left.
    apply IH; [ intros y Hy; apply Hpre; now right | exact Hr ].
Qed.

Lemma find_first_match (l : list A) (r : A) :
  In r l -> p r = true ->
  exists pre found post,
    l = pre ++ found :: post
    /\ (forall x, In x pre -> p x = false)
    /\ p found = true
    /\ JS.find p l = Some found.
Proof.
  unfold JS.find.
  induction l as [|x l IH]; intros Hin Hr; [ contradiction | ].
  simpl. destruct (p x) eqn:Hx.
  - exists [], x, l. repeat split; auto. intros y [].
  - destruct Hin as [-> | Hin]; [ congruence | ].
    destruct (IH Hin Hr) as (pre & found & post & -> & Hpre & Hf & Hfind).
    exists (x :: pre), found, post. repeat split; auto.
    intros y [<- | Hy]; auto.
Qed.

End Find.

Lemma matches_own_id (id name : string) :
  Tools.matches_id_or_name id name id = true.
Proof.
  unfold Tools.matches_id_or_name. now rewrite String.eqb_refl.
Qed.

Section FindFirst.

Variable A : Type.
Variable p : A -> bool.

Lemma find_is_first_match (l : list A) : first_match p l (JS.find p l).
Proof.
  unfold JS.find.
  induction l as [|x l IH]; cbn [find first_match]; [ intros x [] | ].
  destruct (p x) eqn:Hx.
  - exists [], l. repeat split; [ intros y [] | exact Hx ].
  - destruct (find p l) as [found|]; cbn [first_match] in *.
    + destruct IH as (pre & post & -> & Hpre & Hfound).
      exists (x :: pre), post. repeat split; [ | exact Hfound ].
      intros y [<- | Hy]; auto.
    + intros y [<- | Hy]; auto.
Qed.

End FindFirst.

(** C1, as the code has it.  Resolution of an account or of a category
    returns the first record of the list that matches the token, by id or
    by name without regard to case, and nothing when no record matches.  So
    when a record [r] has the token as its id, resolution succeeds, and it
    returns [r] itself when no record before [r] matches: an id match wins
    over the name matches after it, not over one before it.  Resolution of
    a payee ([create_schedule]) returns the first payee whose name is the
    token without regard to case, and nothing when no name matches: the
    ids of the payees are not looked at. *)
Theorem resolution_returns_first_match (token : string)
  (accounts : list Account.t) (categories : list Category.t)
  (payees : list Payee.t) :
  let account_matches a :=
    Tools.matches_id_or_name (Account.id a) (Account.name a) token in
  let category_matches c :=
    Tools.matches_id_or_name (Category.id c) (Category.name c) token in
  let payee_matches p :=
    String.eqb (JS.toLowerCase (Payee.name p)) (JS.toLowerCase token) in
  (first_match account_matches accounts (Tools.find_account accounts token)
   /\ forall pre r post,
        accounts = pre ++ r :: post ->
        Account.id r = token ->
        (exists found, Tools.find_account accounts token = Some found)
        /\ ((forall x, In x pre -> account_matches x = false) ->
            Tools.find_account accounts token = Some r))
  /\ (first_match category_matches categories
        (Tools.find_category categories token)
      /\ forall pre r post,
           categories = pre ++ r :: post ->
           Category.id r = token ->
           (exists found, Tools.find_category categories token = Some found)
           /\ ((forall x, In x pre -> category_matches x = false) ->
               Tools.find_category categories token = Some r))
  /\ first_match payee_matches payees (Tools.find_payee_by_name payees token).
Proof.
  intros account_matches category_matches payee_matches.
  split; [ | split ].
  - split; [ apply find_is_first_match | ].
    intros pre r post -> Hid.
    assert (Hr : account_matches r = true)
      by (subst account_matches; cbv beta; rewrite Hid; apply matches_own_id).
    split.
    + destruct (find_first_match _ account_matches (pre ++ r :: post) r)
        as (_ & found & _ & _ & _ & _ & Hfind);
        [ apply in_elt | exact Hr | ].
      exists found. exact Hfind.
    + intros Hpre.
      exact (find_skips_prefix _ account_matches pre r post Hpre Hr).
  - split; [ apply find_is_first_match | ].
    intros pre r post -> Hid.
    assert (Hr : category_matches r = true)
      by (subst category_matches; cbv beta; rewrite Hid; apply matches_own_id).
    split.
    + destruct (find_first_match _ category_matches (pre ++ r :: post) r)
        as (_ & found & _ & _ & _ & _ & Hfind);
        [ apply in_elt | exact Hr | ].
      exists found. exact Hfind.
    + intros Hpre.
      exact (find_skips_prefix _ category_matches pre r post Hpre Hr).
  - apply find_is_first_match.
Qed.

(** C1 on three accounts: the token ["acc_2"] is the id of the second
    account and, but for the case, the name of the third; the second is
    returned. *)
Lemma resolution_returns_first_match_witness :
  let first := Account.mk "acc_1" "Checking" None None in
  let second := Account.mk "acc_2" "Savings" None None in
  let third := Account.mk "acc_3" "ACC_2" None None in
  Tools.matches_id_or_name (Account.id third) (Account.name third) "acc_2"
  = true
  /\ Tools.find_account [first; second; third] "acc_2" = Some second.
Proof.
  cbv zeta. split; [ reflexivity | ].
  refine (proj2 (proj2 (proj1 (resolution_returns_first_match "acc_2"
                                 [Account.mk "acc_1" "Checking" None None;
                                  Account.mk "acc_2" "Savings" None None;
                                  Account.mk "acc_3" "ACC_2" None None]
                                 [] []))
                   [Account.mk "acc_1" "Checking" None None]
                   (Account.mk "acc_2" "Savings" None None)
                   [Account.mk "acc_3" "ACC_2" None None] eq_refl eq_refl) _).
  intros x [<- | []]. reflexivity.
Defined.

(** C1 as stated fails.  The first account is named like the id of the
    second one: the token is the id of the second account, and resolution
    returns the first.  And the token is the id of a payee: no payee is
    found, since payees are looked up by name. *)
Lemma id_match_after_name_match_counterexample :
  let first := Account.mk "a1" "acc_2" None None in
  let second := Account.mk "acc_2" "Savings" None None in
  let payee := Payee.mk "pay_1" "Costco" None None in
  In second [first; second]
  /\ Account.id second = "acc_2"
  /\ Tools.find_account [first; second] "acc_2" = Some first
  /\ Tools.find_account [first; second] "acc_2" <> Some second
  /\ Payee.id payee = "pay_1"
  /\ Tools.find_payee_by_name [payee] "pay_1" = None.
Proof.
  cbv zeta. repeat split.
  - right. left. reflexivity.
  - discriminate.
Qed.

(** ** Budget-month rollup *)

Lemma fold_left_add_map (A : Type) (f : A -> JS.number) (l : list A)
  (init : JS.number) :
  fold_left (fun s x => PrimFloat.add s (f x)) l init
  = fold_left PrimFloat.add (map f l) init.
Proof.
  revert init. induction l as [|x l IH]; intros init; simpl; [ reflexivity | ].
  apply IH.
Qed.

Lemma groupSpent_is_sum (g : CategoryGroupBudget.t) :
  Tools.groupSpent g = sum (absolute_spent g).
Proof.
  unfold Tools.groupSpent, JS.reduce, sum, absolute_spent.
  apply fold_left_add_map.
Qed.

Lemma totalSpent_is_sum (groups : list CategoryGroupBudget.t) :
  Tools.totalSpent_of_groups groups = sum (map Tools.groupSpent groups).
Proof.
  unfold Tools.totalSpent_of_groups, sum. apply fold_left_add_map.
Qed.

Lemma budget_month_output_spent (targetMonth : string) (budget : BudgetMonth.t) :
  let out := Tools.budget_month_output targetMonth budget in
  let groups := BudgetMonth.categoryGroups budget in
  map GroupBudgetInfo.spent (BudgetMonthOutput.category_groups out)
  = map (fun g => ActualBudgetClient.fromAmount (sum (absolute_spent g))) groups
  /\ BudgetMonthOutput.total_spent out
     = ActualBudgetClient.fromAmount
         (sum (map (fun g => sum (absolute_spent g)) groups)).
Proof.
  cbv zeta. split.
  - unfold Tools.budget_month_output. cbn [BudgetMonthOutput.category_groups].
    rewrite map_map. apply map_ext. intros g.
    cbn [Tools.budget_group GroupBudgetInfo.spent].
    now rewrite groupSpent_is_sum.
  - unfold Tools.budget_month_output. cbn [BudgetMonthOutput.total_spent].
    rewrite totalSpent_is_sum. f_equal. f_equal.
    apply map_ext. intros g. apply groupSpent_is_sum.
Qed.

(** C3, as the code has it.  Whenever [get_budget_month] is fulfilled, it
    reports the rollup of the budget month that the client fetched, and in
    it the [spent] of every group is [fromAmount] of the sum of the absolute
    values of its categories' [spent] (the sum divided by 100: currency, not
    minor units), whatever group-level [spent] the data source supplied, and
    [total_spent] is [fromAmount] of the sum of these group sums.  For
    category values -500 and -300 the sum is 800 and the reported [spent]
    is 8. *)
Theorem budget_rollup_spent (rt : Runtime) (w : World) (c : ClientState.t)
  (h : list Entry) (month : option string)
  (r : ToolResult.t) (c' : ClientState.t) (tr : list Entry) :
  run w (Tools.get_budget_month month) c h = (Fulfilled r, c', tr) ->
  exists targetMonth raw,
    flat_map budgets_answered tr = [(targetMonth, raw)]
    /\ let budget := ActualBudgetClient.transform_budget targetMonth raw in
       let out := Tools.budget_month_output targetMonth budget in
       let groups := BudgetMonth.categoryGroups budget in
       ToolResult.structuredContent r = OutBudgetMonth out
       /\ map GroupBudgetInfo.spent (BudgetMonthOutput.category_groups out)
          = map (fun g => ActualBudgetClient.fromAmount (sum (absolute_spent g)))
                groups
       /\ BudgetMonthOutput.total_spent out
          = ActualBudgetClient.fromAmount
              (sum (map (fun g => sum (absolute_spent g)) groups))
       /\ (forall g s,
              Tools.budget_group
                (ActualBudgetClient.transform_group (raw_with_spent g s))
              = Tools.budget_group (ActualBudgetClient.transform_group g))
       /\ sum (map JS.Math_abs [(-500)%float; (-300)%float]) = 800%float
       /\ ActualBudgetClient.fromAmount 800%float = 8%float.
Proof.
  intros H.
  destruct (get_budget_month_reports rt w c h month r c' tr H)
    as (targetMonth & raw & Hraw & Hout).
  exists targetMonth, raw. split; [ exact Hraw | ]. cbv zeta.
  destruct (budget_month_output_spent targetMonth
              (ActualBudgetClient.transform_budget targetMonth raw))
    as [Hgroups Htotal].
  repeat split; assumption.
Qed.

(** C3 at the scenario, whose budget has one group: the data source says
    -12345 for the group, and -500 and -300 for its two categories. *)
Lemma budget_rollup_spent_witness :
  exists r c' tr,
    run Scenario.world (@Tools.get_budget_month Scenario.runtime (Some "2024-01"))
        Scenario.client []
    = (Fulfilled r, c', tr)
    /\ exists out,
        ToolResult.structuredContent r = OutBudgetMonth out
        /\ map GroupBudgetInfo.spent (BudgetMonthOutput.category_groups out)
           = map (fun g => ActualBudgetClient.fromAmount (sum (absolute_spent g)))
                 (BudgetMonth.categoryGroups
                    (ActualBudgetClient.transform_budget "2024-01"
                       Scenario.budget)).
Proof.
  do 3 eexists. split.
  - reflexivity.
  - destruct (budget_rollup_spent Scenario.runtime Scenario.world
                Scenario.client [] (Some "2024-01") _ _ _ eq_refl)
      as (targetMonth & raw & Hraw & Hout & Hgroups & _).
    cbv zeta in Hraw, Hout, Hgroups. inversion Hraw; subst.
    eexists. split; [ exact Hout | exact Hgroups ].
Defined.

(** C3 as stated fails, at the scenario: the categories of the group spent
    -500 and -300, the sum of the absolute values is 800, and the [spent]
    that [get_budget_month] reports for the group is 8. *)
Lemma reported_group_spent_counterexample :
  exists r c' tr out group g,
    run Scenario.world (@Tools.get_budget_month Scenario.runtime (Some "2024-01"))
        Scenario.client []
    = (Fulfilled r, c', tr)
    /\ BudgetMonth.categoryGroups
         (ActualBudgetClient.transform_budget "2024-01" Scenario.budget)
       = [group]
    /\ map CategoryBudget.spent (CategoryGroupBudget.categories group)
       = [(-500)%float; (-300)%float]
    /\ sum (absolute_spent group) = 800%float
    /\ ToolResult.structuredContent r = OutBudgetMonth out
    /\ BudgetMonthOutput.category_groups out = [g]
    /\ GroupBudgetInfo.spent g = 8%float
    /\ PrimFloat.eqb (GroupBudgetInfo.spent g) (sum (absolute_spent group))
       = false.
Proof.
  do 6 eexists. repeat split.
Qed.

(** ** Spending summary *)

Section SortPreserves.

Variable A : Type.
Variable P : A -> Prop.
Variable cmp : A -> A -> JS.number.

Lemma Forall_sort_insert (x : A) (l : list A) :
  P x -> Forall P l -> Forall P (JS.sort_insert cmp x l).
Proof.
  intros Hx Hl. induction Hl as [|y l Hy Hl IH]; simpl.
  - constructor; [ exact Hx | constructor ].
  - destruct (JS.gt (cmp x y) 0%float); repeat constructor; assumption.
Qed.

Lemma Forall_sort (l : list A) :
  Forall P l -> Forall P (JS.sort cmp l).
Proof.
  unfold JS.sort. induction 1 as [|x l Hx Hl IH]; simpl.
  - constructor.
  - apply Forall_sort_insert; assumption.
Qed.

End SortPreserves.

Lemma percentage_of_nothing (amount : JS.number) :
  Tools.percentage 0%float amount = 0%float.
Proof. reflexivity. Qed.

Lemma zero_total_zero_percentages (startDate endDate : string)
  (categories : list Category.t) (allTransactions : list Transaction.t) :
  Tools.Totals.totalSpent
    (Tools.totals (Tools.categoryMap categories) allTransactions) = 0%float ->
  Forall (fun c => CategorySpending.percentage c = 0%float)
         (SpendingSummaryOutput.by_category
            (Tools.spending_summary_output startDate endDate categories
               allTransactions)).
Proof.
  intros H0. unfold Tools.spending_summary_output.
  cbn [SpendingSummaryOutput.by_category]. unfold Tools.byCategory.
  apply Forall_sort. apply Forall_forall. intros c Hc.
  apply in_map_iff in Hc. destruct Hc as ([category amount] & <- & _).
  cbn [CategorySpending.percentage]. rewrite H0.
  apply percentage_of_nothing.
Qed.

(** C5.  Whenever [get_spending_summary] is fulfilled, it reports the
    summary of the transactions it fetched, and when the total spent over
    them is 0, every percentage of [by_category] is 0: with a total of 0 the
    percentage is the constant 0 and no division takes place. *)
Theorem zero_spent_zero_percentages (rt : Runtime) (w : World)
  (c : ClientState.t) (h : list Entry) (start_date end_date : option string)
  (r : ToolResult.t) (c' : ClientState.t) (tr : list Entry) :
  run w (Tools.get_spending_summary start_date end_date) c h
  = (Fulfilled r, c', tr) ->
  exists startDate endDate categories,
    let out :=
      Tools.spending_summary_output startDate endDate categories (fetched tr) in
    let totalSpent :=
      Tools.Totals.totalSpent
        (Tools.totals (Tools.categoryMap categories) (fetched tr)) in
    ToolResult.structuredContent r = OutSpendingSummary out
    /\ (totalSpent = 0%float ->
        Forall (fun c => CategorySpending.percentage c = 0%float)
               (SpendingSummaryOutput.by_category out)
        /\ forall amount, Tools.percentage totalSpent amount = 0%float).
Proof.
  intros H.
  destruct (get_spending_summary_reports rt w c h start_date end_date r c' tr H)
    as (startDate & endDate & categories & Hout).
  exists startDate, endDate, categories. cbv zeta. split; [ exact Hout | ].
  intros H0. split.
  - now apply zero_total_zero_percentages.
  - intros amount. rewrite H0. apply percentage_of_nothing.
Qed.

(** C5 at the scenario in a month with a salary and no expense. *)
Lemma zero_spent_zero_percentages_witness :
  exists r c' tr,
    run Scenario.salary_world
        (@Tools.get_spending_summary Scenario.runtime (Some "2024-03-01")
           (Some "2024-03-31"))
        Scenario.client []
    = (Fulfilled r, c', tr)
    /\ exists out,
        ToolResult.structuredContent r = OutSpendingSummary out
        /\ Forall (fun c => CategorySpending.percentage c = 0%float)
                  (SpendingSummaryOutput.by_category out).
Proof.
  do 3 eexists. split.
  - reflexivity.
  - destruct (zero_spent_zero_percentages Scenario.runtime Scenario.salary_world
                Scenario.client [] (Some "2024-03-01") (Some "2024-03-31")
                _ _ _ eq_refl)
      as (startDate & endDate & categories & Hout & Hzero).
    eexists. split; [ exact Hout | exact (proj1 (Hzero eq_refl)) ].
Defined.

(** ** Transaction search *)

Lemma string_leb_trans (a b c : string) :
  String.leb a b = true -> String.leb b c = true -> String.leb a c = true.
Proof.
  unfold String.leb.
  revert b c. induction a as [|x a IH]; intros [|y b] [|z c]; simpl; try congruence.
  destruct (Ascii.compare x y) eqn:Hxy; try congruence;
    destruct (Ascii.compare y z) eqn:Hyz; try congruence; intros H1 H2.
  - apply Ascii.compare_eq_iff in Hxy, Hyz. subst. rewrite Ascii.compare_antisym.
    assert (Ascii.compare z z = Eq) by (unfold Ascii.compare; apply N.compare_refl).
    rewrite H. simpl. apply IH with b; assumption.
  - apply Ascii.compare_eq_iff in Hxy. subst. now rewrite Hyz.
  - apply Ascii.compare_eq_iff in Hyz. subst. now rewrite Hxy.
  - assert (Ascii.compare x z = Lt).
    { unfold Ascii.compare in *. rewrite N.compare_lt_iff in *. lia. }
    now rewrite H.
Qed.

Lemma gt_by_date (x y : Tools.Tagged.t) :
  JS.gt (Tools.by_date_descending x y) 0%float
  = match String.compare (Transaction.date (Tools.Tagged.transaction y))
                         (Transaction.date (Tools.Tagged.transaction x)) with
    | Gt => true
    | _ => false
    end.
Proof.
  unfold Tools.by_date_descending, JS.localeCompare, JS.gt.
  now destruct (String.compare _ _).
Qed.

Lemma not_before_trans (a b c : Tools.Tagged.t) :
  not_before a b -> not_before b c -> not_before a c.
Proof.
  unfold not_before. intros Hab Hbc. eapply string_leb_trans; eassumption.
Qed.

Lemma sort_insert_by_date_sorted (x : Tools.Tagged.t) (l : list Tools.Tagged.t) :
  StronglySorted not_before l ->
  StronglySorted not_before (JS.sort_insert Tools.by_date_descending x l).
Proof.
  induction 1 as [|y l Hl IH Hy]; simpl.
  - repeat constructor.
  - rewrite gt_by_date.
    destruct (String.compare (Transaction.date (Tools.Tagged.transaction y))
                (Transaction.date (Tools.Tagged.transaction x))) eqn:Hc.
    + constructor; [ now constructor | ].
      assert (Hxy : not_before x y) by (unfold not_before, String.leb; now rewrite Hc).
      constructor; [ exact Hxy | ].
      eapply Forall_impl; [ | exact Hy ].
      intros z Hz. now apply not_before_trans with y.
    + constructor; [ now constructor | ].
      assert (Hxy : not_before x y) by (unfold not_before, String.leb; now rewrite Hc).
      constructor; [ exact Hxy | ].
      eapply Forall_impl; [ | exact Hy ].
      intros z Hz. now apply not_before_trans with y.
    + constructor; [ exact IH | ].
      apply Forall_sort_insert; [ | exact Hy ].
      unfold not_before, String.leb. rewrite String.compare_antisym, Hc.
      reflexivity.
Qed.

Lemma sort_by_date_sorted (l : list Tools.Tagged.t) :
  StronglySorted not_before (JS.sort Tools.by_date_descending l).
Proof.
  unfold JS.sort. induction l as [|x l IH]; simpl.
  - constructor.
  - now apply sort_insert_by_date_sorted.
Qed.

Section SortPermutes.

Variable A : Type.
Variable cmp : A -> A -> JS.number.

Lemma sort_insert_permutation (x : A) (l : list A) :
  Permutation (JS.sort_insert cmp x l) (x :: l).
Proof.
  induction l as [|y l IH]; simpl.
  - apply Permutation_refl.
  - destruct (JS.gt (cmp x y) 0%float).
    + rewrite IH. apply perm_swap.
    + apply Permutation_refl.
Qed.

Lemma sort_permutation (l : list A) : Permutation (JS.sort cmp l) l.
Proof.
  unfold JS.sort. induction l as [|x l IH]; simpl.
  - constructor.
  - rewrite sort_insert_permutation. now constructor.
Qed.

End SortPermutes.

Lemma Forall_firstn (A : Type) (P : A -> Prop) (n : nat) (l : list A) :
  Forall P l -> Forall P (firstn n l).
Proof.
  intros H. revert n. induction H as [|x l Hx Hl IH]; intros [|n]; simpl;
    constructor; auto.
Qed.

Lemma StronglySorted_firstn (A : Type) (R : A -> A -> Prop) (n : nat) (l : list A) :
  StronglySorted R l -> StronglySorted R (firstn n l).
Proof.
  intros H. revert n. induction H as [|x l Hl IH Hx]; intros [|n]; simpl;
    constructor.
  - apply IH.
  - now apply Forall_firstn.
Qed.

Lemma filter_twice (A : Type) (p q : A -> bool) (l : list A) :
  filter q (filter p l) = filter (fun x => p x && q x) l.
Proof.
  induction l as [|x l IH]; simpl; [ reflexivity | ].
  destruct (p x); simpl; [ destruct (q x) | ]; now rewrite IH.
Qed.

Lemma filter_all (A : Type) (l : list A) : filter (fun _ => true) l = l.
Proof. induction l; simpl; congruence. Qed.

Lemma apply_filters_passes (pm : JS.Map string) (args : Tools.SearchArgs.t)
  (all : list Tools.Tagged.t) :
  Tools.apply_filters pm args all = filter (passes pm args) all.
Proof.
  unfold Tools.apply_filters, passes.
  destruct (Tools.SearchArgs.payee args) as [[|c1 p]|];
    destruct (Tools.SearchArgs.notes args) as [[|c2 n]|];
    destruct (Tools.SearchArgs.min_amount args) as [lo|];
    destruct (Tools.SearchArgs.max_amount args) as [hi|];
    cbv zeta; rewrite ?filter_twice;
    match goal with
    | |- filter _ _ = _ => idtac
    | |- ?l = _ =>
        transitivity (filter (fun _ => true) l);
        [ symmetry; apply filter_all | ]
    end;
    apply filter_ext; intros t; simpl; rewrite ?andb_true_r, ?andb_assoc; reflexivity.
Qed.

Lemma slice0_count (A : Type) (l : list A) (stop : JS.number) (k : positive) :
  JS.ToIntegerOrInfinity stop = JS.Finite (Z.pos k) ->
  JS.slice0 l stop = firstn (Pos.to_nat k) l.
Proof.
  intros H. unfold JS.slice0. rewrite H. simpl.
  destruct (Z.min_spec (Z.pos k) (Z.of_nat (List.length l))) as [[Hlt ->]|[Hle ->]].
  - reflexivity.
  - rewrite Nat2Z.id, firstn_all. symmetry. apply firstn_all2. lia.
Qed.

Lemma truthy_of_positive (x : JS.number) (k : positive) :
  JS.ToIntegerOrInfinity x = JS.Finite (Z.pos k) -> JS.truthy_number x = true.
Proof.
  unfold JS.ToIntegerOrInfinity, JS.truthy_number.
  destruct (Prim2SF x); try discriminate; reflexivity.
Qed.

Lemma search_is_filter_sort_limit (pm : JS.Map string)
  (args : Tools.SearchArgs.t) (all : list Tools.Tagged.t) :
  let filtered := filter (passes pm args) all in
  let sorted := JS.sort Tools.by_date_descending filtered in
  let result := Tools.search pm args all in
  (forall c p m,
      Tools.SearchArgs.payee args = Some (String c p) ->
      Tools.SearchArgs.notes args = None ->
      Tools.SearchArgs.min_amount args = Some m ->
      Tools.SearchArgs.max_amount args = None ->
      filtered
      = filter (fun t =>
                  Tools.payee_matches pm (JS.toLowerCase (String c p)) t
                  && Tools.at_least (ActualBudgetClient.toAmount m) t)
               all)
  /\ (Tools.SearchArgs.payee args = None ->
      Tools.SearchArgs.notes args = None ->
      Tools.SearchArgs.min_amount args = None ->
      Tools.SearchArgs.max_amount args = None ->
      filtered = all)
  /\ Permutation sorted filtered
  /\ StronglySorted not_before sorted
  /\ StronglySorted not_before result
  /\ (Tools.SearchArgs.limit args = None -> result = firstn 50 sorted)
  /\ (forall l,
         Tools.SearchArgs.limit args = Some l ->
         JS.truthy_number l = false ->
         result = firstn 50 sorted)
  /\ (forall l k,
         Tools.SearchArgs.limit args = Some l ->
         JS.ToIntegerOrInfinity l = JS.Finite (Z.pos k) ->
         result = firstn (Pos.to_nat k) sorted).
Proof.
  cbv zeta.
  assert (Hsearch : forall stop,
             Tools.maxResults (Tools.SearchArgs.limit args) = stop ->
             Tools.search pm args all
             = JS.slice0 (JS.sort Tools.by_date_descending
                            (filter (passes pm args) all)) stop).
  { intros stop <-. unfold Tools.search. now rewrite apply_filters_passes. }
  assert (H50 : JS.ToIntegerOrInfinity 50%float = JS.Finite (Z.pos 50))
    by reflexivity.
  repeat split.
  - intros c p m Hp Hn Hlo Hhi. apply filter_ext. intros t.
    unfold passes. rewrite Hp, Hn, Hlo, Hhi. now rewrite !andb_true_r.
  - intros Hp Hn Hlo Hhi.
    rewrite <- (filter_all _ all) at 2. apply filter_ext. intros t.
    unfold passes. now rewrite Hp, Hn, Hlo, Hhi.
  - apply sort_permutation.
  - apply sort_by_date_sorted.
  - rewrite (Hsearch _ eq_refl). unfold JS.slice0.
    apply StronglySorted_firstn, sort_by_date_sorted.
  - intros Hl. rewrite (Hsearch 50%float) by now rewrite Hl.
    now rewrite (slice0_count _ _ _ _ H50).
  - intros l Hl Hfalsy. rewrite (Hsearch 50%float).
    + now rewrite (slice0_count _ _ _ _ H50).
    + rewrite Hl. unfold Tools.maxResults, JS.or_number_opt, JS.or_number.
      now rewrite Hfalsy.
  - intros l k Hl Hk. rewrite (Hsearch l).
    + now apply slice0_count.
    + rewrite Hl. unfold Tools.maxResults, JS.or_number_opt, JS.or_number.
      now rewrite (truthy_of_positive l k Hk).
Qed.

(** ** Tool results *)

(** C9.  Whenever a tool invocation is fulfilled, its text content is the
    JSON serialization (indented by 2) of its structured content: one text
    block, rendering the very object returned as [structuredContent]. *)
Theorem text_renders_structured_content (rt : Runtime) (call : Tools.ToolCall)
  (w : World) (c : ClientState.t) (h : list Entry)
  (r : ToolResult.t) (c' : ClientState.t) (tr : list Entry) :
  run w (Tools.handler call) c h = (Fulfilled r, c', tr) ->
  ToolResult.content r
  = [TextContent.mk "text" (JSON_stringify (ToolResult.structuredContent r) 2%float)].
Proof.
  revert w c h r c' tr.
  change (returns (Tools.handler call)
            (fun r => ToolResult.content r
                      = [TextContent.mk "text"
                           (JSON_stringify (ToolResult.structuredContent r) 2%float)])).
  destruct call; cbn [Tools.handler];
    unfold Tools.get_accounts, Tools.get_account_balance, Tools.add_transaction,
      Tools.get_transactions, Tools.search_transactions, Tools.update_transaction,
      Tools.delete_transaction, Tools.get_categories, Tools.get_budget_month,
      Tools.set_budget_amount, Tools.get_payees, Tools.get_spending_summary,
      Tools.get_schedules, Tools.create_schedule, Tools.delete_schedule,
      Tools.sync_budget, Tools.respond;
    repeat returns_step.
Qed.

(** C8.  Whenever one of the nine mutating operations of the client is
    fulfilled, the calls it made end with its mutation followed by a
    fulfilled [sync]; the calls before the mutation (the initialization, if
    any) write nothing. *)
Theorem mutation_is_followed_by_sync (w : World) (op : MutatingOp)
  (c : ClientState.t) (h : list Entry) (r : unit) (c' : ClientState.t)
  (tr : list Entry) :
  run w (perform op) c h = (Fulfilled r, c', tr) ->
  exists before mutation synchronization,
    tr = before ++ [mutation; synchronization]
    /\ writes before = []
    /\ is_mutation_of op mutation = true
    /\ entry_is_sync synchronization = true.
Proof.
  intros H. destruct_client c; destruct op; run_cases H;
    try discriminate; inversion H; subst; clear H;
    first
      [ eexists [], _, _; split; [ reflexivity | repeat split ]
      | eexists [_; _], _, _; split; [ reflexivity | repeat split ] ].
Qed.

(** C6.  When [set_budget_amount] fetched the categories and its category
    token matches none of them, by id or by name, the invocation is rejected
    with the message [Category not found: <token>], and it made no write:
    neither [setBudgetAmount] nor [sync] is among its calls. *)
Theorem unresolved_budget_category_writes_nothing (rt : Runtime) (w : World)
  (c : ClientState.t) (h : list Entry) (month : option string)
  (category : string) (amount : JS.number)
  (r : outcome ToolResult.t) (c' : ClientState.t) (tr : list Entry)
  (categories : list Category.t) :
  run w (Tools.set_budget_amount month category amount) c h = (r, c', tr) ->
  flat_map categories_answered tr = [categories] ->
  Tools.find_category categories category = None ->
  r = Rejected ("Category not found: " ++ category)
  /\ writes tr = []
  /\ Forall (fun e => entry_is_write e = false) tr.
Proof.
  intros H Hcats Hnone. unfold Tools.set_budget_amount in H.
  destruct_client c; destruct month as [[|? ?]|]; run_cases H;
    inversion H; subst; clear H; cbn in Hcats;
    try discriminate; inversion Hcats; subst; try congruence;
    repeat split; repeat constructor.
Qed.

Ltac destruct_add_args args :=
  let account := fresh "account" in
  let amount := fresh "amount" in
  let payee_name := fresh "payee_name" in
  let category := fresh "category" in
  let notes := fresh "notes" in
  let date := fresh "date" in
  destruct args as [account amount payee_name category notes date];
  destruct category as [[|? ?]|]; destruct date as [[|? ?]|].

(** C10.  In an execution where no call is rejected and the import answers
    with an empty [added], [addTransaction] is fulfilled with ["unknown"],
    and the [add_transaction] tool is fulfilled with [success: true] and
    [transaction_id: "unknown"]. *)
Theorem no_added_id_gives_unknown (rt : Runtime) (w : World)
  (c : ClientState.t) (h : list Entry) :
  (forall transaction r c' tr accountId sent result,
      run w (ActualBudgetClient.addTransaction transaction) c h = (r, c', tr) ->
      existsb entry_rejected tr = false ->
      flat_map imports_called tr = [(accountId, sent, Fulfilled result)] ->
      ImportResult.added result = [] ->
      r = Fulfilled "unknown")
  /\ (forall args r c' tr accountId sent result,
         run w (Tools.add_transaction args) c h = (r, c', tr) ->
         existsb entry_rejected tr = false ->
         flat_map imports_called tr = [(accountId, sent, Fulfilled result)] ->
         ImportResult.added result = [] ->
         exists out message,
           r = Fulfilled out
           /\ ToolResult.structuredContent out
              = OutAddTransaction
                  (AddTransactionOutput.mk true "unknown" message)).
Proof.
  split.
  - intros t r c' tr accountId sent result H Hok Himport Hadded.
    destruct_client c; run_cases H; inversion H; subst; clear H;
      cbn in Hok; try discriminate; cbn in Himport;
      inversion Himport; subst; now rewrite Hadded.
  - intros args r c' tr accountId sent result H Hok Himport Hadded.
    unfold Tools.add_transaction in H.
    destruct_client c; destruct_add_args args; run_cases H;
      inversion H; subst; clear H;
      cbn in Hok; try discriminate; cbn in Himport; try discriminate;
      inversion Himport; subst; rewrite Hadded;
      eexists; eexists; split; reflexivity.
Qed.

Ltac destruct_update_args args :=
  let id := fresh "id" in
  let amount := fresh "amount" in
  let category := fresh "category" in
  let payee_name := fresh "payee_name" in
  let notes := fresh "notes" in
  let date := fresh "date" in
  let cleared := fresh "cleared" in
  destruct args as [id amount category payee_name notes date cleared];
  destruct category as [[|? ?]|].


(** ** The scenario, executed *)

(** C9 at the scenario: the balance of the account named Checking. *)
Lemma text_renders_structured_content_witness :
  exists r c' tr,
    run Scenario.world
        (@Tools.handler Scenario.runtime (Tools.call_get_account_balance "Checking"))
        Scenario.client []
    = (Fulfilled r, c', tr)
    /\ ToolResult.content r
       = [TextContent.mk "text"
            (@JSON_stringify Scenario.runtime (ToolResult.structuredContent r)
               2%float)].
Proof.
  do 3 eexists. split.
  - reflexivity.
  - exact (text_renders_structured_content Scenario.runtime
             (Tools.call_get_account_balance "Checking")
             Scenario.world Scenario.client [] _ _ _ eq_refl).
Defined.

(** C8 at the scenario: setting a budget amount on a client that still has
    to initialize. *)
Lemma mutation_is_followed_by_sync_witness :
  exists c' tr,
    run Scenario.world (perform (op_setBudgetAmount "2024-01" "cat_1" 30000%float))
        Scenario.client []
    = (Fulfilled tt, c', tr)
    /\ exists before mutation synchronization,
        tr = before ++ [mutation; synchronization]
        /\ writes before = []
        /\ is_mutation_of (op_setBudgetAmount "2024-01" "cat_1" 30000%float)
             mutation = true
        /\ entry_is_sync synchronization = true.
Proof.
  do 2 eexists. split.
  - reflexivity.
  - exact (mutation_is_followed_by_sync Scenario.world
             (op_setBudgetAmount "2024-01" "cat_1" 30000%float)
             Scenario.client [] tt _ _ eq_refl).
Defined.

(** C6 at the scenario, which has no category called Holidays. *)
Lemma unresolved_budget_category_writes_nothing_witness :
  exists r c' tr,
    run Scenario.world
        (@Tools.set_budget_amount Scenario.runtime (Some "2024-01") "Holidays"
           250%float)
        Scenario.client []
    = (r, c', tr)
    /\ r = Rejected "Category not found: Holidays"
    /\ writes tr = []
    /\ Forall (fun e => entry_is_write e = false) tr.
Proof.
  do 3 eexists. split.
  - reflexivity.
  - exact (unresolved_budget_category_writes_nothing Scenario.runtime
             Scenario.world Scenario.client [] (Some "2024-01") "Holidays"
             250%float _ _ _ Scenario.categories eq_refl eq_refl eq_refl).
Defined.

(** C10 at the scenario, whose backing store reports no added id. *)
Lemma no_added_id_gives_unknown_witness :
  exists r c' tr,
    run Scenario.world
        (@Tools.add_transaction Scenario.runtime
           (Tools.AddTransactionArgs.mk "Checking" (-35)%float (Some "Costco")
              None None None))
        Scenario.client []
    = (r, c', tr)
    /\ exists out message,
        r = Fulfilled out
        /\ ToolResult.structuredContent out
           = OutAddTransaction (AddTransactionOutput.mk true "unknown" message).
Proof.
  do 3 eexists. split.
  - reflexivity.
  - exact (proj2 (no_added_id_gives_unknown Scenario.runtime Scenario.world
                    Scenario.client [])
             (Tools.AddTransactionArgs.mk "Checking" (-35)%float (Some "Costco")
                None None None)
             _ _ _ _ _ _ eq_refl eq_refl eq_refl eq_refl).
Defined.


(** ** Currency normalizer

    [toAmount] and [fromAmount] are computations on binary64 numbers.  The
    Standard Library specifies the primitive operations by the functions of
    [SpecFloat] on a sign, a mantissa and an exponent ([FloatAxioms]); the
    round trip is proved on that specification, in integer arithmetic. *)

Section Currency.

Local Open Scope Z_scope.

(** *** Mantissas and their number of digits *)

Lemma digits2_pos_log2 (p : positive) :
  Z.pos (digits2_pos p) = Z.log2 (Z.pos p) + 1.
Proof.
  assert (H : forall q, digits2_pos q = Pos.size q)
    by (induction q; simpl; congruence).
  rewrite H. destruct p; simpl; lia.
Qed.

Lemma digits2_pos_bounds (p : positive) :
  2 ^ (Z.pos (digits2_pos p) - 1) <= Z.pos p < 2 ^ Z.pos (digits2_pos p).
Proof.
  rewrite digits2_pos_log2.
  replace (Z.log2 (Z.pos p) + 1 - 1) with (Z.log2 (Z.pos p)) by lia.
  apply (Z.log2_spec (Z.pos p)). lia.
Qed.

Lemma digits2_pos_unique (p : positive) (d : Z) :
  2 ^ (d - 1) <= Z.pos p < 2 ^ d -> Z.pos (digits2_pos p) = d.
Proof.
  intros H. rewrite digits2_pos_log2.
  assert (0 < d).
  { destruct (Z_lt_le_dec 0 d) as [|Hd]; [assumption|].
    destruct H as [_ H]. destruct d as [|d|d]; simpl in H; lia. }
  rewrite (Z.log2_unique (Z.pos p) (d - 1)); [lia | lia |].
  replace (Z.succ (d - 1)) with d by lia. exact H.
Qed.

Lemma digits2_pos_range (p : positive) (a b : Z) :
  0 <= a -> 2 ^ a <= Z.pos p < 2 ^ b -> a < Z.pos (digits2_pos p) <= b.
Proof.
  intros Ha [Hlo Hhi].
  pose proof (digits2_pos_bounds p) as [Hd1 Hd2].
  set (d := Z.pos (digits2_pos p)) in *.
  split.
  - destruct (Z_lt_le_dec a d) as [|Hle]; [assumption|].
    pose proof (Z.pow_le_mono_r 2 d a ltac:(lia) Hle). lia.
  - destruct (Z_le_gt_dec d b) as [|Hgt]; [assumption|].
    assert (0 <= b).
    { destruct b as [|b|b]; try lia. simpl in Hhi. lia. }
    pose proof (Z.pow_le_mono_r 2 b (d - 1) ltac:(lia) ltac:(lia)). lia.
Qed.

Lemma pow2_xO (p : positive) : 2 ^ Z.pos p~0 = 2 ^ Z.pos p * 2 ^ Z.pos p.
Proof.
  replace (Z.pos p~0) with (Z.pos p + Z.pos p) by lia.
  apply Z.pow_add_r; lia.
Qed.

Lemma pow2_xI (p : positive) : 2 ^ Z.pos p~1 = 2 * (2 ^ Z.pos p * 2 ^ Z.pos p).
Proof.
  replace (Z.pos p~1) with (1 + (Z.pos p + Z.pos p)) by lia.
  rewrite Z.pow_add_r, Z.pow_add_r by lia. reflexivity.
Qed.

Lemma iter_xO (p k : positive) :
  Z.pos (Pos.iter xO p k) = Z.pos p * 2 ^ Z.pos k.
Proof.
  induction k as [|k IH] using Pos.peano_ind.
  - cbn [Pos.iter]. rewrite Z.pow_1_r. lia.
  - rewrite Pos.iter_succ, Pos2Z.inj_xO, IH, Pos2Z.inj_succ, Z.pow_succ_r by lia.
    ring.
Qed.

Lemma fexp_normal (x : Z) :
  emin prec emax <= x - prec -> fexp prec emax x = x - prec.
Proof. unfold fexp. lia. Qed.

(** *** Shifting and rounding a quotient *)

Ltac decide_tests :=
  repeat match goal with
    | |- context [Z.eqb ?a ?b] => destruct (Z.eqb_spec a b)
    | |- context [Z.leb ?a ?b] => destruct (Z.leb_spec a b)
    | |- context [Z.compare ?a ?b] => destruct (Z.compare_spec a b)
    end;
  cbn [negb andb orb]; try reflexivity; try lia.

Lemma represents_of_loc (m : Z) (N D : Z) :
  0 < D -> m = N / D ->
  represents (shr_record_of_loc m (location_of N D)) N D.
Proof.
  intros HD ->. unfold represents, location_of.
  pose proof (Z.mod_pos_bound N D HD) as HR.
  destruct (Z.eqb_spec (N mod D) 0) as [E|E].
  - cbn [shr_record_of_loc shr_m shr_r shr_s]. rewrite E.
    repeat split; decide_tests.
  - destruct (Z.compare_spec (2 * (N mod D)) D) as [C|C|C];
      cbn [shr_record_of_loc shr_m shr_r shr_s];
      repeat split; decide_tests.
Qed.

Lemma location_of_exact (N : Z) : location_of N 1 = loc_Exact.
Proof. unfold location_of. rewrite Z.mod_1_r. reflexivity. Qed.

Lemma shr_1_fields (m : Z) (r s : bool) :
  0 <= m ->
  shr_1 (Build_shr_record m r s) = Build_shr_record (m / 2) (Z.odd m) (r || s).
Proof.
  intros Hm. destruct m as [|[p|p|]|p]; simpl; try reflexivity; try lia.
  - rewrite Pos2Z.inj_xI, Z.mul_comm, Z.div_add_l by lia. reflexivity.
  - rewrite Pos2Z.inj_xO, Z.mul_comm, Z.div_mul by lia. reflexivity.
Qed.

(** One shift to the right doubles the divisor. *)
Lemma represents_shr_1 (mrs : shr_record) (N D : Z) :
  0 < D -> 0 <= N -> represents mrs N D -> represents (shr_1 mrs) N (D * 2).
Proof.
  intros HD HN (Hm & Hr & Hs).
  pose proof (Z.mod_pos_bound N D HD) as HR.
  pose proof (Z.mod_pos_bound (N / D) 2 ltac:(lia)) as HR2.
  assert (Hq : N / (D * 2) = N / D / 2) by (rewrite Z.div_div; lia).
  assert (Hrem : N mod (D * 2) = N mod D + D * ((N / D) mod 2))
    by (apply Z.rem_mul_r; lia).
  assert (Hpos : 0 <= N / D) by (apply Z.div_pos; lia).
  destruct mrs as [m r s]. cbn [shr_m shr_r shr_s] in Hm, Hr, Hs.
  rewrite shr_1_fields by lia.
  unfold represents. cbn [shr_m shr_r shr_s].
  rewrite Hq, Hrem, Hm, Hr, Hs.
  rewrite <- Z.negb_even, Zeven_mod.
  assert (Hcase : (N / D) mod 2 = 0 \/ (N / D) mod 2 = 1) by lia.
  destruct Hcase as [E|E]; rewrite E;
    repeat split; decide_tests.
Qed.

Lemma represents_iter_shr_1 (p : positive) :
  forall mrs N D, 0 < D -> 0 <= N -> represents mrs N D ->
  represents (iter_pos shr_1 p mrs) N (D * 2 ^ Z.pos p).
Proof.
  induction p as [p IH|p IH|]; intros mrs N D HD HN H; cbn [iter_pos];
    try pose proof (Z.pow_pos_nonneg 2 (Z.pos p) ltac:(lia) ltac:(lia)) as Hp.
  - replace (D * 2 ^ Z.pos p~1) with (D * 2 * 2 ^ Z.pos p * 2 ^ Z.pos p)
      by (rewrite pow2_xI; ring).
    apply IH; [nia | lia |]. apply IH; [lia | lia |].
    apply represents_shr_1; assumption.
  - replace (D * 2 ^ Z.pos p~0) with (D * 2 ^ Z.pos p * 2 ^ Z.pos p)
      by (rewrite pow2_xO; ring).
    apply IH; [nia | lia |]. apply IH; assumption.
  - rewrite Z.pow_1_r. apply represents_shr_1; assumption.
Qed.

(** Rounding to the nearest, ties to even, is within half a unit of the
    quotient. *)
Lemma round_nearest_even_near (mrs : shr_record) (N D : Z) :
  0 < D -> 0 <= N -> represents mrs N D ->
  let m := round_nearest_even (shr_m mrs) (loc_of_shr_record mrs) in
  N / D <= m <= N / D + 1 /\ 2 * Z.abs (m * D - N) <= D.
Proof.
  intros HD HN (Hm & Hr & Hs).
  pose proof (Z.mod_pos_bound N D HD) as HR.
  pose proof (Z.div_mod N D ltac:(lia)) as HN'.
  destruct mrs as [m r s]. cbn [shr_m shr_r shr_s] in *. subst m.
  destruct r, s; cbn [loc_of_shr_record round_nearest_even];
    revert Hr Hs; decide_tests; intros _ _; try discriminate.
  all: try (destruct (Z.even (N / D))); split; try lia; nia.
Qed.

(** A mantissa of 53 digits that is exact is kept as it is. *)
Lemma binary_round_aux_exact (s : bool) (m : positive) (e : Z) :
  2 ^ 52 <= Z.pos m < 2 ^ 53 ->
  emin prec emax <= e <= emax - prec ->
  binary_round_aux prec emax s (Z.pos m) e loc_Exact = S754_finite s m e.
Proof.
  intros Hm He.
  assert (H : shr_fexp prec emax (Z.pos m) e loc_Exact
              = (Build_shr_record (Z.pos m) false false, e)).
  { unfold shr_fexp. cbn [Zdigits2].
    rewrite (digits2_pos_unique m 53) by exact Hm.
    rewrite fexp_normal by (unfold prec in *; lia).
    replace (53 + e - prec - e) with 0 by (unfold prec; lia).
    reflexivity. }
  unfold binary_round_aux. rewrite H.
  cbn [shr_m loc_of_shr_record round_nearest_even]. rewrite H.
  cbn [shr_m]. cbv iota beta.
  replace (e <=? emax - prec) with true by (symmetry; apply Z.leb_le; lia).
  reflexivity.
Qed.

(** The rounding of [SpecFloat], on a quotient [N / D] of at least 53
    digits, in the range of the normal numbers: the result is a mantissa of
    53 digits within half a unit in the last place of the quotient. *)
Lemma binary_round_aux_correct (sx : bool) (m e N D : Z) :
  0 < D -> 0 <= N -> m = N / D ->
  prec <= Zdigits2 m ->
  emin prec emax <= e + Zdigits2 m - prec ->
  e + Zdigits2 m - prec < emax - prec ->
  exists m' e',
    binary_round_aux prec emax sx m e (location_of N D) = S754_finite sx m' e'
    /\ 2 ^ 52 <= Z.pos m' < 2 ^ 53
    /\ e + Zdigits2 m - 53 <= e' <= e + Zdigits2 m - 52
    /\ 2 * Z.abs (Z.pos m' * 2 ^ (e' - e) * D - N) <= 2 ^ (e' - e) * D.
Proof.
  intros HD HN Hm Hd Hlo Hhi.
  assert (Hrep := represents_of_loc m N D HD Hm).
  destruct m as [|mp|mp]; [cbn in Hd; unfold prec in Hd; lia | |
                           pose proof (Z.div_pos N D); lia].
  cbn [Zdigits2] in *.
  pose proof (digits2_pos_bounds mp) as Hmp.
  set (d := Z.pos (digits2_pos mp)) in *.
  set (p := d - 53).
  assert (Hp : 0 <= p) by (unfold p, prec in *; lia).
  unfold binary_round_aux.
  (* the shift that leaves 53 digits *)
  assert (H1 : exists mrs1,
             shr_fexp prec emax (Z.pos mp) e (location_of N D) = (mrs1, e + p)
             /\ represents mrs1 N (D * 2 ^ p)).
  { unfold shr_fexp. cbn [Zdigits2]. fold d.
    rewrite fexp_normal by (unfold prec in *; lia).
    replace (d + e - prec - e) with p by (unfold p, prec; lia).
    destruct p as [|q|q] eqn:Ep; [| |lia].
    - cbn [shr]. eexists. split; [f_equal; lia|].
      rewrite Z.pow_0_r, Z.mul_1_r. exact Hrep.
    - cbn [shr]. eexists. split; [reflexivity|].
      apply represents_iter_shr_1; assumption. }
  destruct H1 as (mrs1 & -> & Hrep1).
  assert (Hpow : 0 < 2 ^ p) by (apply Z.pow_pos_nonneg; lia).
  assert (HD1 : 0 < D * 2 ^ p) by nia.
  destruct (round_nearest_even_near mrs1 N (D * 2 ^ p) HD1 HN Hrep1)
    as (Hm2 & Herr).
  set (m2 := round_nearest_even (shr_m mrs1) (loc_of_shr_record mrs1)) in *.
  assert (Hm1 : 2 ^ 52 <= N / (D * 2 ^ p) < 2 ^ 53).
  { rewrite <- Z.div_div, <- Hm by lia.
    assert (Hd1 : 2 ^ (d - 1) = 2 ^ 52 * 2 ^ p)
      by (rewrite <- Z.pow_add_r by lia; f_equal; unfold p; lia).
    assert (Hd2 : 2 ^ d = 2 ^ 53 * 2 ^ p)
      by (rewrite <- Z.pow_add_r by lia; f_equal; unfold p; lia).
    split.
    - apply Z.div_le_lower_bound; lia.
    - apply Z.div_lt_upper_bound; lia. }
  (* the shift after a rounding that carried into a 54th digit *)
  destruct (Z.eq_dec m2 (2 ^ 53)) as [Hc|Hc].
  - rewrite Hc.
    assert (H2 : shr_fexp prec emax (2 ^ 53) (e + p) loc_Exact
                 = (Build_shr_record (2 ^ 52) false false, e + p + 1)).
    { unfold shr_fexp.
      change (Zdigits2 (2 ^ 53)) with 54.
      rewrite fexp_normal by (unfold p, prec in *; lia).
      replace (54 + (e + p) - prec - (e + p)) with 1 by (unfold prec; lia).
      reflexivity. }
    rewrite H2. cbn [shr_m]. change (2 ^ 52) with (Z.pos (2 ^ 52)).
    cbv iota beta.
    replace (e + p + 1 <=? emax - prec) with true
      by (symmetry; apply Z.leb_le; unfold p, prec in *; lia).
    do 2 eexists. split; [reflexivity|].
    split; [split; [reflexivity|reflexivity] |].
    split; [unfold p; lia|].
    replace (e + p + 1 - e) with (p + 1) by lia.
    rewrite Z.pow_add_r, Z.pow_1_r by lia.
    rewrite Hc in Herr. change (Z.pos (2 ^ 52)) with (2 ^ 52).
    change (2 ^ 53) with (2 ^ 52 * 2) in Herr.
    replace (2 ^ 52 * (2 ^ p * 2) * D - N)
      with (2 ^ 52 * 2 * (D * 2 ^ p) - N) by ring.
    lia.
  - assert (Hm2' : 2 ^ 52 <= m2 < 2 ^ 53) by lia.
    destruct m2 as [|m2p|m2p] eqn:Em2; [lia| |lia].
    assert (H2 : shr_fexp prec emax (Z.pos m2p) (e + p) loc_Exact
                 = (Build_shr_record (Z.pos m2p) false false, e + p)).
    { unfold shr_fexp. cbn [Zdigits2].
      rewrite (digits2_pos_unique m2p 53) by exact Hm2'.
      rewrite fexp_normal by (unfold p, prec in *; lia).
      replace (53 + (e + p) - prec - (e + p)) with 0 by (unfold prec; lia).
      reflexivity. }
    rewrite H2. cbn [shr_m]. cbv iota beta.
    replace (e + p <=? emax - prec) with true
      by (symmetry; apply Z.leb_le; unfold p, prec in *; lia).
    do 2 eexists. split; [reflexivity|].
    split; [exact Hm2'|].
    split; [unfold p; lia|].
    replace (e + p - e) with p by lia.
    replace (Z.pos m2p * 2 ^ p * D - N) with (Z.pos m2p * (D * 2 ^ p) - N)
      by ring.
    lia.
Qed.

(** *** The numbers of the round trip *)

Lemma to_Z_of_pos (p : positive) :
  Z.pos p < 2 ^ 63 -> Uint63.to_Z (Uint63.of_pos p) = Z.pos p.
Proof.
  intros H. symmetry. apply (Uint63.is_int (Z.pos p)).
  change (Uint63.to_Z Uint63.digits) with 63. lia.
Qed.

(** A positive integer below [2^53] is a number with that value: a mantissa
    of 53 digits and the exponent that scales it back. *)
Lemma Prim2SF_of_pos (p : positive) :
  Z.pos p < 2 ^ 53 ->
  exists m e,
    Prim2SF (PrimFloat.of_uint63 (Uint63.of_pos p)) = S754_finite false m e
    /\ 2 ^ 52 <= Z.pos m < 2 ^ 53
    /\ -52 <= e <= 0
    /\ Z.pos m = Z.pos p * 2 ^ (- e).
Proof.
  intros Hp.
  rewrite of_uint63_spec, to_Z_of_pos by lia.
  cbn [binary_normalize]. unfold binary_round.
  pose proof (digits2_pos_bounds p) as Hd.
  pose proof (digits2_pos_range p 0 53 ltac:(lia) ltac:(lia)) as Hr.
  set (d := Z.pos (digits2_pos p)) in *.
  rewrite fexp_normal by (unfold prec, emin, emax; lia).
  unfold shl_align.
  replace (d + 0 - prec - 0) with (d - 53) by (unfold prec; lia).
  destruct (d - 53) as [|k|k] eqn:Ek; [|lia|].
  - assert (Ed : d = 53) by lia. rewrite Ed in Hd.
    rewrite binary_round_aux_exact by (unfold prec, emin, emax; lia).
    exists p, 0. repeat split; try lia.
  - replace (d + 0 - prec) with (Z.neg k) by (unfold prec; lia).
    assert (Hm : Z.pos (Pos.iter xO p k) = Z.pos p * 2 ^ Z.pos k)
      by apply iter_xO.
    assert (Hk : Z.pos k = 53 - d) by lia.
    assert (Hpow : 2 ^ (d - 1) * 2 ^ Z.pos k = 2 ^ 52)
      by (rewrite <- Z.pow_add_r by lia; f_equal; lia).
    assert (Hpow' : 2 ^ d * 2 ^ Z.pos k = 2 ^ 53)
      by (rewrite <- Z.pow_add_r by lia; f_equal; lia).
    assert (0 < 2 ^ Z.pos k) by (apply Z.pow_pos_nonneg; lia).
    rewrite binary_round_aux_exact;
      [ | rewrite Hm; nia | unfold prec, emin, emax; lia ].
    exists (Pos.iter xO p k), (Z.neg k). repeat split; try lia; try nia.
    exact Hm.
Qed.

Lemma Prim2SF_100 : Prim2SF 100%float = S754_finite false hundred (-46).
Proof. vm_compute. reflexivity. Qed.

(** [x / 100], for [x] of mantissa [mx] and exponent [ex]: a mantissa
    [my] of 53 digits and an exponent [ey], within half a unit in the last
    place of the quotient. *)
Lemma Prim2SF_div_100 (x : float) (s : bool) (mx : positive) (ex : Z) :
  Prim2SF x = S754_finite s mx ex ->
  2 ^ 52 <= Z.pos mx < 2 ^ 53 ->
  -52 <= ex <= 0 ->
  exists my ey,
    Prim2SF (x / 100)%float = S754_finite s my ey
    /\ 2 ^ 52 <= Z.pos my < 2 ^ 53
    /\ ex - 7 <= ey <= ex - 5
    /\ 2 * Z.abs (Z.pos my * 2 ^ (ey - (ex - 7)) * Z.pos hundred
                  - Z.pos mx * 2 ^ 53)
       <= 2 ^ (ey - (ex - 7)) * Z.pos hundred.
Proof.
  intros Hx Hmx Hex.
  rewrite FloatAxioms.div_spec, Hx, Prim2SF_100.
  unfold SF64div, SFdiv, SFdiv_core_binary. cbn [Zdigits2].
  rewrite (digits2_pos_unique mx 53) by exact Hmx.
  change (Z.pos (digits2_pos hundred)) with 53.
  replace (53 + ex - (53 + -46)) with (ex + 46) by lia.
  rewrite fexp_normal by (unfold prec, emin, emax; lia).
  replace (Z.min (ex + 46 - prec) (ex - -46)) with (ex - 7)
    by (unfold prec; lia).
  replace (ex - -46 - (ex - 7)) with 53 by lia.
  rewrite Z.shiftl_mul_pow2 by lia.
  set (N := Z.pos mx * 2 ^ 53). set (D := Z.pos hundred).
  assert (Hqr : Z.div_eucl N D = (N / D, N mod D))
    by (unfold Z.div, Z.modulo; destruct (Z.div_eucl N D); reflexivity).
  change IntDef.Z.div_eucl with Z.div_eucl. rewrite Hqr.
  assert (Hloc : new_location D (N mod D) = location_of N D) by reflexivity.
  rewrite Hloc, xorb_false_r.
  assert (HD : D = 100 * 2 ^ 46) by reflexivity.
  assert (Hq : 2 ^ 52 <= N / D < 2 ^ 54).
  { split.
    - apply Z.div_le_lower_bound; [lia|]. unfold N. rewrite HD. lia.
    - apply Z.div_lt_upper_bound; [lia|]. unfold N. rewrite HD. lia. }
  destruct (N / D) as [|q|q] eqn:Eq; [lia | | lia].
  pose proof (digits2_pos_range q 52 54 ltac:(lia) Hq) as Hdq.
  destruct (binary_round_aux_correct s (Z.pos q) (ex - 7) N D)
    as (my & ey & Hy & Hmy & Hey & Herr);
    try (cbn [Zdigits2]; unfold prec, emin, emax; lia).
  cbn [Zdigits2] in Hey.
  exists my, ey. repeat split; try lia; try assumption.
Qed.

(** [y * 100], in the same way. *)
Lemma Prim2SF_mul_100 (y : float) (s : bool) (my : positive) (ey : Z) :
  Prim2SF y = S754_finite s my ey ->
  2 ^ 52 <= Z.pos my < 2 ^ 53 ->
  -70 <= ey <= 0 ->
  exists mv ev,
    Prim2SF (y * 100)%float = S754_finite s mv ev
    /\ 2 ^ 52 <= Z.pos mv < 2 ^ 53
    /\ ey + 6 <= ev <= ey + 8
    /\ 2 * Z.abs (Z.pos mv * 2 ^ (ev - (ey - 46)) - Z.pos my * Z.pos hundred)
       <= 2 ^ (ev - (ey - 46)).
Proof.
  intros Hy Hmy Hey.
  rewrite FloatAxioms.mul_spec, Hy, Prim2SF_100.
  unfold SF64mul, SFmul. rewrite xorb_false_r, Pos2Z.inj_mul.
  set (N := Z.pos my * Z.pos hundred).
  assert (HD : Z.pos hundred = 100 * 2 ^ 46) by reflexivity.
  assert (HN : 2 ^ 104 <= N < 2 ^ 106) by (unfold N; rewrite HD; lia).
  rewrite <- (location_of_exact N).
  destruct N as [|n|n] eqn:En; [lia | | lia].
  pose proof (digits2_pos_range n 104 106 ltac:(lia) HN) as Hdn.
  destruct (binary_round_aux_correct s (Z.pos n) (ey + -46) (Z.pos n) 1)
    as (mv & ev & Hv & Hmv & Hev & Herr);
    try (cbn [Zdigits2]; unfold prec, emin, emax; lia).
  { rewrite Z.div_1_r. reflexivity. }
  cbn [Zdigits2] in Hev.
  exists mv, ev. repeat split; try lia; try assumption.
  replace (ev - (ey - 46)) with (ev - (ey + -46)) by lia. lia.
Qed.

(** The arithmetic of the round trip.  [n] is the integer, [mx = n * 2^a]
    its mantissa, [my] the mantissa of the quotient and [mv] the mantissa of
    the product, [j] and [k] the shifts of the two roundings.  Below
    [100 * 2^45] the two rounding errors together stay under one half, so
    that [floor (v + 1/2)] is [n] again, and [- n] for the opposite. *)
Lemma round_after_scaling (n a mx my mv j k : Z) :
  0 < n < 100 * 2 ^ 45 -> 0 <= a -> mx = n * 2 ^ a ->
  2 ^ 52 <= mx < 2 ^ 53 -> 2 ^ 52 <= my < 2 ^ 53 -> 2 ^ 52 <= mv < 2 ^ 53 ->
  0 <= j <= 2 -> 52 <= k <= 54 ->
  2 * Z.abs (my * 2 ^ j * Z.pos hundred - mx * 2 ^ 53)
  <= 2 ^ j * Z.pos hundred ->
  2 * Z.abs (mv * 2 ^ k - my * Z.pos hundred) <= 2 ^ k ->
  let ev := - a - 7 + j - 46 + k in
  ev < 0
  /\ (2 * mv + 2 ^ (- ev)) / 2 ^ (1 - ev) = n
  /\ (2 * - mv + 2 ^ (- ev)) / 2 ^ (1 - ev) = - n.
Proof.
  intros Hn Ha Hmx Bx By Bv Hj Hk E1 E2 ev.
  assert (HD : Z.pos hundred = 100 * 2 ^ 46) by reflexivity.
  rewrite HD in *. clear HD.
  assert (Ha1 : 1 <= a).
  { destruct (Z_le_gt_dec 1 a) as [|Hlt]; [assumption|].
    assert (a = 0) by lia. subst a. rewrite Z.pow_0_r in Hmx. lia. }
  assert (HA : 2 ^ a = 2 * 2 ^ (a - 1)).
  { replace a with (1 + (a - 1)) at 1 by lia.
    rewrite Z.pow_add_r by lia. reflexivity. }
  assert (HA0 : 0 < 2 ^ (a - 1)) by (apply Z.pow_pos_nonneg; lia).
  set (A := 2 ^ (a - 1)) in *.
  rewrite HA in Hmx.
  assert (HA' : A = 1 \/ 2 <= A).
  { destruct (Z.eq_dec a 1) as [->|]; [left; reflexivity|right].
    unfold A. replace (a - 1) with (1 + (a - 2)) by lia.
    rewrite Z.pow_add_r, Z.pow_1_r by lia.
    assert (0 < 2 ^ (a - 2)) by (apply Z.pow_pos_nonneg; lia). lia. }
  clearbody A.
  (* the shifts: in the cases that the bounds leave, [ev = - a] *)
  assert (Hj' : j = 0 \/ j = 1 \/ j = 2) by lia.
  assert (Hk' : k = 52 \/ k = 53 \/ k = 54) by lia.
  destruct Hj' as [-> | [-> | ->]], Hk' as [-> | [-> | ->]];
    try (exfalso; lia).
  all: subst ev;
    match goal with
    | |- ?e < 0 /\ _ =>
        replace (- e) with a by lia; replace (1 - e) with (1 + a) by lia
    end;
    rewrite Z.pow_add_r, Z.pow_1_r, HA by lia;
    split; [lia|]; split; symmetry.
  all: destruct HA' as [->|HA'];
    match goal with
    | |- ?q = ?x / ?y => apply (Z.div_unique x y q (x - y * q)); lia
    end.
Qed.

(** For a number [x] that is the integer [p], signed by [s]. *)
Lemma toAmount_fromAmount_finite (x : float) (s : bool) (p mx : positive)
  (ex : Z) :
  Prim2SF x = S754_finite s mx ex ->
  2 ^ 52 <= Z.pos mx < 2 ^ 53 ->
  -52 <= ex <= 0 ->
  Z.pos mx = Z.pos p * 2 ^ (- ex) ->
  Z.pos p < 100 * 2 ^ 45 ->
  ActualBudgetClient.toAmount (ActualBudgetClient.fromAmount x)
  = JS.of_int (if s then Z.neg p else Z.pos p).
Proof.
  intros Hx Bx Hex Hval Hp.
  destruct (Prim2SF_div_100 x s mx ex Hx Bx Hex)
    as (my & ey & Hy & By & Hey & E1).
  destruct (Prim2SF_mul_100 _ s my ey Hy By ltac:(lia))
    as (mv & ev & Hv & Bv & Hev & E2).
  destruct (round_after_scaling (Z.pos p) (- ex) (Z.pos mx) (Z.pos my)
              (Z.pos mv) (ey - (ex - 7)) (ev - (ey - 46)))
    as (Hneg & Hpos_r & Hneg_r); try lia; try assumption.
  replace (- - ex - 7 + (ey - (ex - 7)) - 46 + (ev - (ey - 46))) with ev
    in * by lia.
  unfold ActualBudgetClient.toAmount, ActualBudgetClient.fromAmount,
    JS.Math_round.
  rewrite Hv.
  replace (0 <=? ev) with false by (symmetry; apply Z.leb_gt; lia).
  rewrite Z.shiftr_div_pow2 by lia.
  destruct s.
  - change (Z.neg mv) with (- Z.pos mv). rewrite Hneg_r. reflexivity.
  - rewrite Hpos_r. reflexivity.
Qed.

(** C2, as the code has it.  For every integer [n] of minor units below
    [100 * 2^45 = 3518437208883200] in absolute value (a currency value
    below [2^45]), [toAmount (fromAmount n)] is [n], and for the decimal
    [n / 100], a decimal with at most two fractional digits read as a
    number, [fromAmount (toAmount d)] is [d]. *)
Theorem currency_round_trip (n : Z) :
  Z.abs n < 100 * 2 ^ 45 ->
  ActualBudgetClient.toAmount (ActualBudgetClient.fromAmount (JS.of_int n))
  = JS.of_int n
  /\ ActualBudgetClient.fromAmount (ActualBudgetClient.toAmount (decimal n))
     = decimal n.
Proof.
  intros Hn.
  assert (H : ActualBudgetClient.toAmount
                (ActualBudgetClient.fromAmount (JS.of_int n)) = JS.of_int n).
  { destruct n as [|p|p].
    - vm_compute. reflexivity.
    - destruct (Prim2SF_of_pos p ltac:(lia))
        as (mx & ex & Hx & Bx & Hex & Hval).
      exact (toAmount_fromAmount_finite _ false p mx ex Hx Bx Hex Hval
               ltac:(lia)).
    - destruct (Prim2SF_of_pos p ltac:(lia))
        as (mx & ex & Hx & Bx & Hex & Hval).
      apply (toAmount_fromAmount_finite _ true p mx ex);
        try assumption; try lia.
      cbn [JS.of_int]. rewrite FloatAxioms.opp_spec, Hx. reflexivity. }
  split; [exact H|].
  change (decimal n) with (ActualBudgetClient.fromAmount (JS.of_int n)).
  rewrite H. reflexivity.
Qed.

(** C2 at 1234 minor units, the decimal 12.34. *)
Lemma currency_round_trip_witness :
  Z.abs 1234 < 100 * 2 ^ 45
  /\ ActualBudgetClient.toAmount (ActualBudgetClient.fromAmount (JS.of_int 1234))
     = JS.of_int 1234
  /\ ActualBudgetClient.fromAmount (ActualBudgetClient.toAmount (decimal 1234))
     = decimal 1234.
Proof.
  split; [reflexivity|]. apply (currency_round_trip 1234). reflexivity.
Defined.

(** C2 as stated fails: 3518437208883202 is an integer that a number holds
    exactly (it is below [2^53]), and [toAmount (fromAmount n)] is
    3518437208883203; the decimal 35184372088832.02 does not come back
    from [fromAmount (toAmount d)] either. *)
Lemma currency_round_trip_counterexample :
  Z.abs 3518437208883202 < 2 ^ 53
  /\ ActualBudgetClient.toAmount
       (ActualBudgetClient.fromAmount (JS.of_int 3518437208883202))
     = JS.of_int 3518437208883203
  /\ JS.strict_eq (JS.of_int 3518437208883203) (JS.of_int 3518437208883202)
     = false
  /\ JS.strict_eq
       (ActualBudgetClient.fromAmount
          (ActualBudgetClient.toAmount (decimal 3518437208883202)))
       (decimal 3518437208883202)
     = false.
Proof. vm_compute. repeat split. Qed.

End Currency.

(** *** The conversions on examples

    The conversions at the numbers the documentation of the client and the
    specification name: 12.34 and 1234, and an expense of 35.00. *)

Lemma currency_examples :
  ActualBudgetClient.toAmount (PrimFloat.div 1234%float 100%float) = 1234%float
  /\ ActualBudgetClient.fromAmount 1234%float = PrimFloat.div 1234%float 100%float
  /\ ActualBudgetClient.toAmount (-35)%float = (-3500)%float
  /\ ActualBudgetClient.fromAmount (-3500)%float = (-35)%float
  /\ JS.of_int 1234 = 1234%float
  /\ decimal 1234 = PrimFloat.div 1234%float 100%float.
Proof. repeat split. Qed.

(** ** The connection to the backing store *)

Lemma follows_app (config : ActualConfig.t) (p : Phase) (tr1 tr2 : list Entry) :
  follows config p (tr1 ++ tr2)
  = match follows config p tr1 with
    | Some p1 => follows config p1 tr2
    | None => None
    end.
Proof.
  revert p. induction tr1 as [|e tr1 IH]; intros p; cbn [app follows].
  - reflexivity.
  - destruct (advance config p e); [ apply IH | reflexivity ].
Qed.

Lemma in_order_Ret (A : Type) (a : A) : in_order (Ret a).
Proof.
  intros w c h r c' tr H. cbn in H. inversion H; subst.
  repeat split; auto. exists (phase_of c'). split; reflexivity.
Qed.

Lemma in_order_Throw (A : Type) (m : string) : in_order (@Throw A m).
Proof.
  intros w c h r c' tr H. cbn in H. inversion H; subst.
  repeat split; auto. exists (phase_of c'). split; [ reflexivity | now right ].
Qed.

Lemma in_order_bind (A B : Type) (p : prog A) (f : A -> prog B) :
  in_order p -> (forall a, in_order (f a)) -> in_order (bind p f).
Proof.
  intros Hp Hf w c h r c' tr H. rewrite run_bind in H.
  destruct (run w p c h) as [[r1 c1] tr1] eqn:E1.
  destruct (Hp _ _ _ _ _ _ E1) as (Hc1 & Hi1 & f1 & Hf1 & He1).
  destruct r1 as [a|m].
  - destruct (run w (f a) c1 (h ++ tr1)) as [[r2 c2] tr2] eqn:E2.
    inversion H; subst. clear H.
    destruct (Hf _ _ _ _ _ _ _ E2) as (Hc2 & Hi2 & f2 & Hf2 & He2).
    split; [ congruence | ]. split; [ auto | ].
    exists f2. split; [ | exact He2 ].
    rewrite follows_app, Hf1. cbn in He1. subst f1. rewrite <- Hc1. exact Hf2.
  - inversion H; subst. clear H.
    split; [ exact Hc1 | ]. split; [ exact Hi1 | ].
    exists f1. split; assumption.
Qed.

Lemma in_order_mapM (A B : Type) (f : A -> prog B) (l : list A) :
  (forall x, in_order (f x)) -> in_order (mapM f l).
Proof.
  intros Hf. induction l as [|x l IH]; cbn [mapM].
  - apply in_order_Ret.
  - apply in_order_bind; [ apply Hf | intros y ].
    apply in_order_bind; [ exact IH | intros ys; apply in_order_Ret ].
Qed.

(** An operation of the client, followed call by call. *)
Ltac in_order_client :=
  let H := fresh "H" in
  intros ? c ? ? ? ? H; destruct_client c; run_cases H;
  inversion H; subst; clear H;
  (split; [ reflexivity | ]); (split; [ intros; try reflexivity; try discriminate | ]);
  cbn [follows advance phase_of ClientState.initialized ClientState.config
       is_init_of is_download_of is_lifecycle after_call
       ActualConfig.serverURL ActualConfig.password ActualConfig.budgetId
       ActualConfig.dataDir];
  rewrite ?String.eqb_refl; cbn [andb];
  eexists; (split; [ reflexivity | ]); cbn; auto.

Lemma getAccounts_in_order : in_order ActualBudgetClient.getAccounts.
Proof. in_order_client. Qed.

Lemma getAccountBalance_in_order (id : string) :
  in_order (ActualBudgetClient.getAccountBalance id).
Proof. in_order_client. Qed.

Lemma getTransactions_in_order (id s e : string) :
  in_order (ActualBudgetClient.getTransactions id s e).
Proof. in_order_client. Qed.

Lemma addTransaction_in_order (t : Transaction.t) :
  in_order (ActualBudgetClient.addTransaction t).
Proof. in_order_client. Qed.

Lemma importTransactions_in_order (id : string) (l : list Transaction.t) :
  in_order (ActualBudgetClient.importTransactions id l).
Proof. in_order_client. Qed.

Lemma updateTransaction_in_order (id : string) (f : PartialTransaction.t) :
  in_order (ActualBudgetClient.updateTransaction id f).
Proof. in_order_client. Qed.

Lemma deleteTransaction_in_order (id : string) :
  in_order (ActualBudgetClient.deleteTransaction id).
Proof. in_order_client. Qed.

Lemma getCategories_in_order : in_order ActualBudgetClient.getCategories.
Proof. in_order_client. Qed.

Lemma getCategoryGroups_in_order : in_order ActualBudgetClient.getCategoryGroups.
Proof. in_order_client. Qed.

Lemma getPayees_in_order : in_order ActualBudgetClient.getPayees.
Proof. in_order_client. Qed.

Lemma createPayee_in_order (name : string) :
  in_order (ActualBudgetClient.createPayee name).
Proof. in_order_client. Qed.

Lemma getBudgetMonths_in_order : in_order ActualBudgetClient.getBudgetMonths.
Proof. in_order_client. Qed.

Lemma getBudgetMonth_in_order (month : string) :
  in_order (ActualBudgetClient.getBudgetMonth month).
Proof. in_order_client. Qed.

Lemma setBudgetAmount_in_order (month id : string) (amount : JS.number) :
  in_order (ActualBudgetClient.setBudgetAmount month id amount).
Proof. in_order_client. Qed.

Lemma getSchedules_in_order : in_order ActualBudgetClient.getSchedules.
Proof. in_order_client. Qed.

Lemma createSchedule_in_order (s : CreateScheduleInput.t) :
  in_order (ActualBudgetClient.createSchedule s).
Proof. in_order_client. Qed.

Lemma updateSchedule_in_order (id : string) (f : PartialScheduleInput.t) :
  in_order (ActualBudgetClient.updateSchedule id f).
Proof. in_order_client. Qed.

Lemma deleteSchedule_in_order (id : string) :
  in_order (ActualBudgetClient.deleteSchedule id).
Proof. in_order_client. Qed.

Lemma sync_in_order : in_order ActualBudgetClient.sync.
Proof. in_order_client. Qed.

Lemma init_in_order : in_order ActualBudgetClient.init.
Proof. in_order_client. Qed.

Lemma getToday_in_order : in_order ActualBudgetClient.getToday.
Proof. in_order_client. Qed.

Lemma getCurrentMonth_in_order : in_order ActualBudgetClient.getCurrentMonth.
Proof. in_order_client. Qed.

Lemma or_today_in_order (date : option string) : in_order (Tools.or_today date).
Proof. destruct date as [[|? ?]|]; in_order_client. Qed.

Lemma or_current_month_in_order (month : option string) :
  in_order (Tools.or_current_month month).
Proof. destruct month as [[|? ?]|]; in_order_client. Qed.

Lemma or_days_ago_in_order (date : option string) (days : JS.number) :
  in_order (Tools.or_days_ago date days).
Proof. destruct date as [[|? ?]|]; in_order_client. Qed.

Lemma or_first_of_month_in_order (date : option string) :
  in_order (Tools.or_first_of_month date).
Proof. destruct date as [[|? ?]|]; in_order_client. Qed.

Create HintDb connection.

#[local] Hint Resolve in_order_Ret in_order_Throw
  getAccounts_in_order getAccountBalance_in_order getTransactions_in_order
  addTransaction_in_order importTransactions_in_order
  updateTransaction_in_order deleteTransaction_in_order
  getCategories_in_order getCategoryGroups_in_order getPayees_in_order
  createPayee_in_order getBudgetMonths_in_order getBudgetMonth_in_order
  setBudgetAmount_in_order getSchedules_in_order createSchedule_in_order
  updateSchedule_in_order deleteSchedule_in_order sync_in_order
  getToday_in_order getCurrentMonth_in_order or_today_in_order
  or_current_month_in_order or_days_ago_in_order or_first_of_month_in_order
  : connection.

(** One step in the proof that a program built from the operations of the
    client keeps the connection in order. *)
Ltac in_order_step :=
  first
    [ solve [ auto with connection ]
    | apply in_order_bind; [ | intro ]
    | apply in_order_mapM; intro
    | match goal with
      | |- in_order (match ?x with _ => _ end) => destruct x
      end
    | progress cbv zeta ].

Lemma optional_category_id_in_order (category : option string) :
  in_order (Tools.optional_category_id category).
Proof. unfold Tools.optional_category_id. repeat in_order_step. Qed.

Lemma fetch_all_in_order (T : Type) (accounts : list Account.t)
  (s e : string) (tag : Account.t -> Transaction.t -> T) :
  in_order (Tools.fetch_all accounts s e tag).
Proof. unfold Tools.fetch_all. repeat in_order_step. Qed.

#[local] Hint Resolve optional_category_id_in_order fetch_all_in_order
  : connection.

Section HandlersInOrder.

Context {rt : Runtime}.

Lemma respond_in_order (output : Output) : in_order (Tools.respond output).
Proof. apply in_order_Ret. Qed.

#[local] Hint Resolve respond_in_order : connection.

Lemma handler_in_order (call : Tools.ToolCall) : in_order (Tools.handler call).
Proof.
  destruct call; cbn [Tools.handler];
    unfold Tools.get_accounts, Tools.get_account_balance, Tools.add_transaction,
      Tools.get_transactions, Tools.search_transactions,
      Tools.update_transaction, Tools.delete_transaction, Tools.get_categories,
      Tools.get_budget_month, Tools.set_budget_amount, Tools.get_payees,
      Tools.get_spending_summary, Tools.get_schedules, Tools.create_schedule,
      Tools.delete_schedule, Tools.sync_budget;
    repeat in_order_step.
Qed.

End HandlersInOrder.

Lemma connects_Throw (A : Type) (m : string) : connects (@Throw A m).
Proof. intros w c h a c' tr H. cbn in H. discriminate. Qed.

Lemma connects_bind_first (A B : Type) (p : prog A) (f : A -> prog B) :
  connects p -> (forall a, in_order (f a)) -> connects (bind p f).
Proof.
  intros Hp Hf w c h b c' tr H. rewrite run_bind in H.
  destruct (run w p c h) as [[r1 c1] tr1] eqn:E1.
  destruct r1 as [a|m]; [ | discriminate ].
  destruct (run w (f a) c1 (h ++ tr1)) as [[r2 c2] tr2] eqn:E2.
  inversion H; subst. clear H.
  destruct (Hf _ _ _ _ _ _ _ E2) as (_ & Hkeep & _).
  apply Hkeep. eapply Hp. eassumption.
Qed.

Lemma connects_bind_later (A B : Type) (p : prog A) (f : A -> prog B) :
  (forall a, connects (f a)) -> connects (bind p f).
Proof.
  intros Hf w c h b c' tr H. rewrite run_bind in H.
  destruct (run w p c h) as [[r1 c1] tr1] eqn:E1.
  destruct r1 as [a|m]; [ | discriminate ].
  destruct (run w (f a) c1 (h ++ tr1)) as [[r2 c2] tr2] eqn:E2.
  inversion H; subst. clear H. eapply Hf. eassumption.
Qed.

Ltac connects_client :=
  let H := fresh "H" in
  intros ? c ? ? ? ? H; destruct_client c; run_cases H;
  try discriminate; inversion H; subst; reflexivity.

Lemma getAccounts_connects : connects ActualBudgetClient.getAccounts.
Proof. connects_client. Qed.

Lemma getCategoryGroups_connects : connects ActualBudgetClient.getCategoryGroups.
Proof. connects_client. Qed.

Lemma getCategories_connects : connects ActualBudgetClient.getCategories.
Proof. connects_client. Qed.

Lemma getPayees_connects : connects ActualBudgetClient.getPayees.
Proof. connects_client. Qed.

Lemma getSchedules_connects : connects ActualBudgetClient.getSchedules.
Proof. connects_client. Qed.

Lemma getBudgetMonth_connects (month : string) :
  connects (ActualBudgetClient.getBudgetMonth month).
Proof. connects_client. Qed.

Lemma updateTransaction_connects (id : string) (f : PartialTransaction.t) :
  connects (ActualBudgetClient.updateTransaction id f).
Proof. connects_client. Qed.

Lemma deleteTransaction_connects (id : string) :
  connects (ActualBudgetClient.deleteTransaction id).
Proof. connects_client. Qed.

Lemma deleteSchedule_connects (id : string) :
  connects (ActualBudgetClient.deleteSchedule id).
Proof. connects_client. Qed.

Lemma sync_connects : connects ActualBudgetClient.sync.
Proof. connects_client. Qed.

Create HintDb connected.

#[local] Hint Resolve getAccounts_connects getCategoryGroups_connects
  getCategories_connects getPayees_connects getSchedules_connects
  getBudgetMonth_connects updateTransaction_connects
  deleteTransaction_connects deleteSchedule_connects sync_connects
  : connected.

Ltac connects_step :=
  first
    [ apply connects_Throw
    | apply connects_bind_first;
      [ solve [ auto with connected ] | intro; repeat in_order_step ]
    | apply connects_bind_later; intro
    | match goal with
      | |- connects (match ?x with _ => _ end) => destruct x
      end
    | progress cbv zeta ].

Section HandlersConnect.

Context {rt : Runtime}.

#[local] Hint Resolve respond_in_order : connection.

Lemma handler_connects (call : Tools.ToolCall) : connects (Tools.handler call).
Proof.
  destruct call; cbn [Tools.handler];
    unfold Tools.get_accounts, Tools.get_account_balance, Tools.add_transaction,
      Tools.get_transactions, Tools.search_transactions,
      Tools.update_transaction, Tools.delete_transaction, Tools.get_categories,
      Tools.get_budget_month, Tools.set_budget_amount, Tools.get_payees,
      Tools.get_spending_summary, Tools.get_schedules, Tools.create_schedule,
      Tools.delete_schedule, Tools.sync_budget;
    repeat connects_step.
Qed.

End HandlersConnect.

Section Connection.

Context {rt : Runtime}.

(** X1.  The calls of a tool keep the connection to the backing store in
    order, whatever the store answers.  For every tool that awaits its
    calls in turn (all but [get_accounts]) and every client: a client that
    is not initialized first calls [api.init] with the server, the password
    and the data directory of its configuration, then [api.downloadBudget]
    for its budget, and only then anything else; a client that is
    initialized calls neither of them, nor [api.shutdown]; nothing is
    called, and the clock is not read, after a call was rejected; the
    configuration is not changed; and when the tool is fulfilled the
    connection is ready and the client is initialized. *)
Theorem tools_keep_the_connection_in_order (call : Tools.ToolCall)
  (w : World) (c : ClientState.t) (h : list Entry) :
  awaits_in_turn call = true ->
  let '(r, c', tr) := run w (Tools.handler call) c h in
  ClientState.config c' = ClientState.config c
  /\ exists final,
       follows (ClientState.config c) (phase_of c) tr = Some final
       /\ match r with
          | Fulfilled _ => final = Ready /\ ClientState.initialized c' = true
          | Rejected _ => final = Stopped \/ final = phase_of c'
          end.
Proof.
  intros _.
  destruct (run w (Tools.handler call) c h) as [[r c'] tr] eqn:E.
  destruct (handler_in_order call _ _ _ _ _ _ E)
    as (Hconfig & _ & final & Hfollows & Hends).
  split; [ exact Hconfig | ]. exists final. split; [ exact Hfollows | ].
  destruct r as [out|reason]; [ | exact Hends ].
  pose proof (handler_connects call _ _ _ _ _ _ E) as Hconnected.
  cbn in Hends. unfold phase_of in Hends. rewrite Hconnected in Hends.
  split; assumption.
Qed.

End Connection.

(** X1 at the scenario: [set_budget_amount] on a client that is not
    initialized. *)
Lemma tools_keep_the_connection_in_order_witness :
  let call :=
    Tools.call_set_budget_amount (Some "2024-01") "groceries" 250%float in
  awaits_in_turn call = true
  /\ let '(r, c', tr) :=
       run Scenario.world (@Tools.handler Scenario.runtime call)
           Scenario.client [] in
     ClientState.config c' = ClientState.config Scenario.client
     /\ exists final,
          follows (ClientState.config Scenario.client) Disconnected tr
          = Some final
          /\ match r with
             | Fulfilled _ => final = Ready /\ ClientState.initialized c' = true
             | Rejected _ => final = Stopped \/ final = phase_of c'
             end.
Proof.
  cbv zeta. split.
  - reflexivity.
  - exact (@tools_keep_the_connection_in_order Scenario.runtime
             (Tools.call_set_budget_amount (Some "2024-01") "groceries"
                250%float)
             Scenario.world Scenario.client [] eq_refl).
Defined.

(** X2.  [init] connects once.  Running [init] twice in a row is running
    it once: the same result, the same client and the same calls.  When
    [init] is fulfilled the client is initialized and keeps its
    configuration, and a client that was initialized already called
    nothing; when [init] is rejected the client is as it was, so that a
    client that was not initialized stays so and the next operation
    connects again. *)
Theorem init_connects_once (w : World) (c : ClientState.t) (h : list Entry) :
  run w (ActualBudgetClient.init ;; ActualBudgetClient.init) c h
  = run w ActualBudgetClient.init c h
  /\ let '(r, c', tr) := run w ActualBudgetClient.init c h in
     match r with
     | Fulfilled _ =>
         ClientState.initialized c' = true
         /\ ClientState.config c' = ClientState.config c
         /\ (ClientState.initialized c = true -> tr = [])
     | Rejected _ => c' = c
     end.
Proof.
  split.
  - rewrite run_bind.
    destruct c as [[su pw bi ep dd] ini]; destruct ini;
      [ reflexivity | destruct ep as [[|? ?]|] ]; cbn;
      repeat match goal with
        | |- context [answer ?w ?X ?h ?call] =>
            destruct (answer w X h call); cbn
        end; reflexivity.
  - destruct c as [[su pw bi ep dd] ini]; destruct ini;
      [ cbn; auto | destruct ep as [[|? ?]|] ]; cbn;
      repeat match goal with
        | |- context [answer ?w ?X ?h ?call] =>
            destruct (answer w X h call); cbn
        end; repeat split; intros; try discriminate; reflexivity.
Qed.

Section Shutdown.

Context {rt : Runtime}.

(** X3.  [shutdown] and then a tool that awaits its calls in turn.  On an
    initialized client [shutdown] calls [api.shutdown] first.  When that is
    fulfilled the tool starts from a closed connection: its calls follow
    the order of the connection from there ([api.init], then
    [api.downloadBudget], then its own).  When it is rejected the client
    stays initialized and nothing else is called.  On a client that is not
    initialized [shutdown] calls nothing and the tool connects as usual. *)
Theorem tools_reconnect_after_shutdown (call : Tools.ToolCall) (w : World)
  (c : ClientState.t) (h : list Entry) :
  awaits_in_turn call = true ->
  let '(r, c', tr) :=
    run w (ActualBudgetClient.shutdown ;; Tools.handler call) c h in
  if ClientState.initialized c
  then exists settled rest,
         tr = Called api_shutdown settled :: rest
         /\ match settled with
            | Fulfilled _ =>
                exists final,
                  follows (ClientState.config c) Disconnected rest = Some final
                  /\ ends_in r c' final
            | Rejected reason => r = Rejected reason /\ c' = c /\ rest = []
            end
  else exists final,
         follows (ClientState.config c) Disconnected tr = Some final
         /\ ends_in r c' final.
Proof.
  intros _. rewrite run_bind.
  destruct c as [config ini]; destruct ini; cbn [ClientState.initialized].
  - cbn [ActualBudgetClient.shutdown run ClientState.initialized bind await].
    destruct (answer w unit h api_shutdown) as [[]|reason] eqn:E.
    + cbn [run ClientState.config].
      destruct (run w (Tools.handler call) _ _) as [[r2 c2] tr2] eqn:E2.
      destruct (handler_in_order call _ _ _ _ _ _ E2)
        as (_ & _ & final & Hfollows & Hends).
      exists (Fulfilled tt), tr2. split; [ reflexivity | ].
      exists final. split; assumption.
    + exists (Rejected reason), []. repeat split.
  - cbn [ActualBudgetClient.shutdown run ClientState.initialized].
    destruct (run w (Tools.handler call) _ _) as [[r2 c2] tr2] eqn:E2.
    destruct (handler_in_order call _ _ _ _ _ _ E2)
      as (_ & _ & final & Hfollows & Hends).
    exists final. split; assumption.
Qed.

End Shutdown.

(** X3 at the scenario: [sync_budget] after the shutdown of a client
    that was initialized. *)
Lemma tools_reconnect_after_shutdown_witness :
  let connected :=
    ClientState.mk (ClientState.config Scenario.client) true in
  awaits_in_turn Tools.call_sync_budget = true
  /\ let '(r, c', tr) :=
       run Scenario.world
           (ActualBudgetClient.shutdown
            ;; @Tools.handler Scenario.runtime Tools.call_sync_budget)
           connected [] in
     exists settled rest,
       tr = Called api_shutdown settled :: rest
       /\ match settled with
          | Fulfilled _ =>
              exists final,
                follows (ClientState.config connected) Disconnected rest
                = Some final
                /\ ends_in r c' final
          | Rejected reason => r = Rejected reason /\ c' = connected /\ rest = []
          end.
Proof.
  cbv zeta. split.
  - reflexivity.
  - exact (@tools_reconnect_after_shutdown Scenario.runtime
             Tools.call_sync_budget Scenario.world
             (ClientState.mk (ClientState.config Scenario.client) true) []
             eq_refl).
Defined.

(** ** What the steps of a tool are *)

Lemma only_Ret (Q : Entry -> Prop) (A : Type) (a : A) : only Q (Ret a).
Proof. intros w c h r c' tr H. cbn in H. inversion H; subst. constructor. Qed.

Lemma only_Throw (Q : Entry -> Prop) (A : Type) (m : string) :
  only Q (@Throw A m).
Proof. intros w c h r c' tr H. cbn in H. inversion H; subst. constructor. Qed.

Lemma only_bind (Q : Entry -> Prop) (A B : Type) (p : prog A)
  (f : A -> prog B) :
  only Q p -> (forall a, only Q (f a)) -> only Q (bind p f).
Proof.
  intros Hp Hf w c h r c' tr H. rewrite run_bind in H.
  destruct (run w p c h) as [[r1 c1] tr1] eqn:E1.
  pose proof (Hp _ _ _ _ _ _ E1) as H1.
  destruct r1 as [a|m].
  - destruct (run w (f a) c1 (h ++ tr1)) as [[r2 c2] tr2] eqn:E2.
    inversion H; subst. apply Forall_app. split; [ exact H1 | ].
    eapply Hf. eassumption.
  - inversion H; subst. exact H1.
Qed.

Lemma only_mapM (Q : Entry -> Prop) (A B : Type) (f : A -> prog B)
  (l : list A) :
  (forall x, only Q (f x)) -> only Q (mapM f l).
Proof.
  intros Hf. induction l as [|x l IH]; cbn [mapM].
  - apply only_Ret.
  - apply only_bind; [ apply Hf | intros y ].
    apply only_bind; [ exact IH | intros ys; apply only_Ret ].
Qed.

(** A program without a loop, followed call by call. *)
Ltac only_leaf :=
  let H := fresh "H" in
  let c := fresh "c" in
  intros ? c ? ? ? ? H; destruct_client c; run_cases H;
  inversion H; subst; clear H; repeat constructor.

Ltac only_step :=
  first
    [ apply only_Ret
    | apply only_Throw
    | apply only_bind; [ | intro ]
    | apply only_mapM; intro
    | match goal with
      | |- only _ (match ?x with _ => _ end) => destruct x
      end
    | progress cbv zeta
    | solve [ only_leaf ] ].

Lemma no_write_writes (tr : list Entry) :
  Forall (fun e => entry_is_write e = false) tr -> writes tr = [].
Proof.
  unfold writes. induction 1 as [|e tr He Htr IH]; cbn [filter];
    [ reflexivity | ].
  cbn beta in He. rewrite He. exact IH.
Qed.

Lemma existsb_none (A : Type) (q : A -> bool) (l : list A) :
  Forall (fun x => q x = false) l -> existsb q l = false.
Proof.
  induction 1 as [|x l Hx Hl IH]; cbn [existsb]; [ reflexivity | ].
  cbn beta in Hx. rewrite Hx. exact IH.
Qed.

Section Steps.

Context {rt : Runtime}.

(** X4.  The tools that report ([get_accounts], [get_account_balance],
    [get_transactions], [search_transactions], [get_categories],
    [get_budget_month], [get_payees], [get_spending_summary] and
    [get_schedules]) never write: whatever their arguments and whatever the
    backing store answers, fulfilled or rejected, they make no call that
    changes the ledger and no [api.sync]. *)
Theorem queries_write_nothing (call : Tools.ToolCall) (w : World)
  (c : ClientState.t) (h : list Entry) :
  is_query call = true ->
  let '(_, _, tr) := run w (Tools.handler call) c h in
  writes tr = [].
Proof.
  intros Hq.
  assert (H : only (fun e => entry_is_write e = false) (Tools.handler call)).
  { destruct call; try discriminate; cbn [Tools.handler];
      unfold Tools.get_accounts, Tools.get_account_balance,
        Tools.get_transactions, Tools.search_transactions,
        Tools.get_categories, Tools.get_budget_month, Tools.get_payees,
        Tools.get_spending_summary, Tools.get_schedules, Tools.fetch_all,
        Tools.respond, Tools.or_today, Tools.or_days_ago,
        Tools.or_first_of_month, Tools.or_current_month;
      repeat only_step. }
  destruct (run w (Tools.handler call) c h) as [[r c'] tr] eqn:E.
  apply no_write_writes. exact (H _ _ _ _ _ _ E).
Qed.

(** X5.  The clock is read for defaults only.  When every date and month
    that a tool takes is given and is not empty, the tool does not read the
    clock, so that its calls depend on its arguments and on the store
    alone; the tools that take no date or month never read it. *)
Theorem clock_is_read_for_defaults_only (call : Tools.ToolCall) (w : World)
  (c : ClientState.t) (h : list Entry) :
  Forall (fun given => JS.truthy_string given = true) (time_arguments call) ->
  let '(_, _, tr) := run w (Tools.handler call) c h in
  existsb is_clock tr = false.
Proof.
  intros Hgiven.
  assert (H : only (fun e => is_clock e = false) (Tools.handler call)).
  { destruct call as [ | |args| | args| | | | | | | | | | | ];
      try destruct args; cbn [time_arguments Tools.AddTransactionArgs.date
        Tools.SearchArgs.start_date Tools.SearchArgs.end_date] in Hgiven;
      repeat match goal with
        | G : Forall _ (_ :: _) |- _ => inversion G; subst; clear G
        | G : JS.truthy_string ?d = true |- _ =>
            destruct d as [[|? ?]|]; try discriminate G; clear G
        end;
      cbn [Tools.handler];
      unfold Tools.get_accounts, Tools.get_account_balance,
        Tools.add_transaction, Tools.get_transactions,
        Tools.search_transactions, Tools.update_transaction,
        Tools.delete_transaction, Tools.get_categories,
        Tools.get_budget_month, Tools.set_budget_amount, Tools.get_payees,
        Tools.get_spending_summary, Tools.get_schedules,
        Tools.create_schedule, Tools.delete_schedule, Tools.sync_budget,
        Tools.fetch_all, Tools.respond, Tools.optional_category_id;
      cbn [Tools.AddTransactionArgs.date Tools.AddTransactionArgs.category
           Tools.AddTransactionArgs.account Tools.AddTransactionArgs.amount
           Tools.SearchArgs.start_date Tools.SearchArgs.end_date
           Tools.or_today Tools.or_days_ago Tools.or_first_of_month
           Tools.or_current_month];
      repeat only_step. }
  destruct (run w (Tools.handler call) c h) as [[r c'] tr] eqn:E.
  apply existsb_none. exact (H _ _ _ _ _ _ E).
Qed.

End Steps.

(** X4 at the scenario: a search. *)
Lemma queries_write_nothing_witness :
  let call :=
    Tools.call_search_transactions
      (Tools.SearchArgs.mk (Some "costco") None None None None None None) in
  is_query call = true
  /\ let '(_, _, tr) :=
       run Scenario.world (@Tools.handler Scenario.runtime call)
           Scenario.client [] in
     writes tr = [].
Proof.
  cbv zeta. split.
  - reflexivity.
  - exact (@queries_write_nothing Scenario.runtime
             (Tools.call_search_transactions
                (Tools.SearchArgs.mk (Some "costco") None None None None None
                   None))
             Scenario.world Scenario.client [] eq_refl).
Defined.

(** X5 at the scenario: a spending summary with both dates given. *)
Lemma clock_is_read_for_defaults_only_witness :
  let call :=
    Tools.call_get_spending_summary (Some "2024-01-01") (Some "2024-12-31") in
  Forall (fun given => JS.truthy_string given = true) (time_arguments call)
  /\ let '(_, _, tr) :=
       run Scenario.world (@Tools.handler Scenario.runtime call)
           Scenario.client [] in
     existsb is_clock tr = false.
Proof.
  cbv zeta.
  assert (H : Forall (fun given => JS.truthy_string given = true)
                (time_arguments
                   (Tools.call_get_spending_summary (Some "2024-01-01")
                      (Some "2024-12-31"))))
    by (repeat constructor).
  split.
  - exact H.
  - exact (@clock_is_read_for_defaults_only Scenario.runtime
             (Tools.call_get_spending_summary (Some "2024-01-01")
                (Some "2024-12-31"))
             Scenario.world Scenario.client [] H).
Defined.

(** ** Accounts that are not found *)

Lemma run_getAccounts (w : World) (c : ClientState.t) (h : list Entry)
  (r : outcome (list Account.t)) (c1 : ClientState.t) (tr1 : list Entry) :
  run w ActualBudgetClient.getAccounts c h = (r, c1, tr1) ->
  writes tr1 = []
  /\ match r with
     | Fulfilled accounts =>
         flat_map accounts_answered tr1 = [accounts]
         /\ exists before,
              tr1 = before ++ [Called api_getAccounts (Fulfilled accounts)]
     | Rejected _ => flat_map accounts_answered tr1 = []
     end.
Proof.
  intros H. destruct_client c; run_cases H; inversion H; subst; clear H;
    (split; [ reflexivity | ]); try reflexivity;
    (split; [ reflexivity | ]);
    first [ now exists [] | eexists [_; _]; reflexivity ].
Qed.

Section UnknownAccount.

Context {rt : Runtime}.

(** X6.  An account that is not found stops the tool.  For the tools that
    take an account ([get_account_balance], [add_transaction],
    [get_transactions], [create_schedule]): when the account list that the
    store answered has no account with the token as id or, case
    insensitively, as name, the tool is rejected with
    [Account not found: <token>], the answer of [api.getAccounts] is the
    last step it made, and it wrote nothing. *)
Theorem unknown_account_stops_the_tool (call : Tools.ToolCall)
  (token : string) (w : World) (c : ClientState.t) (h : list Entry)
  (r : outcome ToolResult.t) (c' : ClientState.t) (tr : list Entry)
  (accounts : list Account.t) :
  account_argument call = Some token ->
  run w (Tools.handler call) c h = (r, c', tr) ->
  flat_map accounts_answered tr = [accounts] ->
  Tools.find_account accounts token = None ->
  r = Rejected ("Account not found: " ++ token)
  /\ writes tr = []
  /\ exists before, tr = before ++ [Called api_getAccounts (Fulfilled accounts)].
Proof.
  intros Harg H Hanswered Hnone.
  assert (Hshape : exists k,
             Tools.handler call
             = (found <- ActualBudgetClient.getAccounts ;;
                match Tools.find_account found token with
                | None => Throw ("Account not found: " ++ token)
                | Some account => k found account
                end)).
  { destruct call; try discriminate; cbn in Harg; inversion Harg; subst;
      cbn [Tools.handler]; eexists (fun _ _ => _); reflexivity. }
  destruct Hshape as (k & Hshape). rewrite Hshape in H. clear Hshape.
  rewrite run_bind in H.
  destruct (run w ActualBudgetClient.getAccounts c h) as [[r1 c1] tr1] eqn:E1.
  destruct (run_getAccounts _ _ _ _ _ _ E1) as (Hw & Hr).
  destruct r1 as [found|m].
  - destruct Hr as (Hfound & before & Hlast).
    destruct (run w _ c1 (h ++ tr1)) as [[r2 c2] tr2] eqn:E2.
    inversion H; subst r c' tr. clear H.
    rewrite flat_map_app, Hfound in Hanswered. cbn [app] in Hanswered.
    inversion Hanswered; subst found.
    rewrite Hnone in E2. cbn in E2. inversion E2; subst.
    rewrite app_nil_r. repeat split; [ assumption | ].
    exists before. reflexivity.
  - inversion H; subst. rewrite Hr in Hanswered. discriminate.
Qed.

End UnknownAccount.

(** X6 at the scenario, which has no account [Nowhere]. *)
Lemma unknown_account_stops_the_tool_witness :
  exists r c' tr,
    run Scenario.world
        (@Tools.handler Scenario.runtime
           (Tools.call_get_transactions "Nowhere" None None))
        Scenario.client []
    = (r, c', tr)
    /\ r = Rejected "Account not found: Nowhere"
    /\ writes tr = [].
Proof.
  do 3 eexists. split.
  - reflexivity.
  - destruct (@unknown_account_stops_the_tool Scenario.runtime
                (Tools.call_get_transactions "Nowhere" None None) "Nowhere"
                Scenario.world Scenario.client [] _ _ _ Scenario.accounts
                eq_refl eq_refl eq_refl eq_refl)
      as (Hr & Hw & _).
    split; assumption.
Defined.

(** ** What the tools send *)

Section Sent.

Context {rt : Runtime}.

(** X7.  [set_budget_amount] with a category that is found sets that
    category's budget once: one call of [api.setBudgetAmount], with the id
    of the category found (not the token the caller gave), the amount in
    minor units ([toAmount]), and the month given when one is given; when
    no call is rejected the tool reports success and the only writes are
    this call and the [api.sync] after it. *)
Theorem set_budget_amount_sends_the_category_id (w : World)
  (c : ClientState.t) (h : list Entry) (month : option string)
  (category : string) (amount : JS.number)
  (r : outcome ToolResult.t) (c' : ClientState.t) (tr : list Entry)
  (categories : list Category.t) (found : Category.t) :
  run w (Tools.set_budget_amount month category amount) c h = (r, c', tr) ->
  flat_map categories_answered tr = [categories] ->
  Tools.find_category categories category = Some found ->
  exists targetMonth,
    flat_map budget_amounts_set tr
    = [(targetMonth, Category.id found, ActualBudgetClient.toAmount amount)]
    /\ (JS.truthy_string month = true -> month = Some targetMonth)
    /\ (existsb entry_rejected tr = false ->
        exists out message,
          r = Fulfilled out
          /\ ToolResult.structuredContent out
             = OutStatus (StatusOutput.mk true message)
          /\ map entry_is_sync (writes tr) = [false; true]).
Proof.
  intros H Hcats Hfound. unfold Tools.set_budget_amount in H.
  destruct_client c; destruct month as [[|? ?]|]; run_cases H;
    inversion H; subst; clear H; cbn in Hcats;
    try discriminate; inversion Hcats; subst; try congruence;
    match goal with
    | E : Tools.find_category _ _ = Some ?x |- _ =>
        rewrite Hfound in E; inversion E; subst x
    end;
    (eexists; split; [ reflexivity | ]);
    (split; [ intros Hm; first [ discriminate Hm | reflexivity ] | ]);
    cbn; intros Hok; try discriminate Hok;
    do 2 eexists; repeat split.
Qed.

(** X8.  [add_transaction] with an account and a category that are found
    imports one transaction into the account found: the transaction carries
    the ids of the account and of the category found (not the tokens), the
    amount in minor units, the payee name and the notes as given, the date
    given when one is given, and no id, payee id or imported id of its
    own. *)
Theorem add_transaction_sends_resolved_ids (w : World) (c : ClientState.t)
  (h : list Entry) (args : Tools.AddTransactionArgs.t)
  (r : outcome ToolResult.t) (c' : ClientState.t) (tr : list Entry)
  (accounts : list Account.t) (account : Account.t)
  (token : string) (categories : list Category.t) (category : Category.t) :
  run w (Tools.add_transaction args) c h = (r, c', tr) ->
  flat_map accounts_answered tr = [accounts] ->
  Tools.find_account accounts (Tools.AddTransactionArgs.account args)
  = Some account ->
  Tools.AddTransactionArgs.category args = Some token ->
  flat_map categories_answered tr = [categories] ->
  Tools.find_category categories token = Some category ->
  exists sent settled,
    flat_map imports_called tr = [(Account.id account, [sent], settled)]
    /\ Transaction.account sent = Account.id account
    /\ Transaction.category sent = Some (Category.id category)
    /\ Transaction.amount sent
       = ActualBudgetClient.toAmount (Tools.AddTransactionArgs.amount args)
    /\ Transaction.payee_name sent = Tools.AddTransactionArgs.payee_name args
    /\ Transaction.notes sent = Tools.AddTransactionArgs.notes args
    /\ (JS.truthy_string (Tools.AddTransactionArgs.date args) = true ->
        Tools.AddTransactionArgs.date args = Some (Transaction.date sent))
    /\ Transaction.id sent = None
    /\ Transaction.payee sent = None
    /\ Transaction.imported_id sent = None.
Proof.
  intros H Haccounts Haccount Htoken Hcats Hcategory.
  unfold Tools.add_transaction in H.
  destruct_client c; destruct_add_args args; cbn in Htoken;
    try discriminate; inversion Htoken; subst; clear Htoken;
    cbn [Tools.AddTransactionArgs.account Tools.AddTransactionArgs.amount
         Tools.AddTransactionArgs.payee_name Tools.AddTransactionArgs.notes
         Tools.AddTransactionArgs.date] in *;
    run_cases H; inversion H; subst; clear H;
    cbn in Haccounts, Hcats;
    try discriminate; inversion Haccounts; subst; inversion Hcats; subst;
    try congruence;
    repeat match goal with
      | E : Tools.find_category _ _ = Some ?x |- _ =>
          rewrite Hcategory in E; inversion E; subst x; clear E
      | E : Tools.find_account _ _ = Some ?x |- _ =>
          rewrite Haccount in E; inversion E; subst x; clear E
      end;
    do 2 eexists; (split; [ reflexivity | ]); cbn;
    repeat split; intros Hd; first [ discriminate Hd | reflexivity ].
Qed.

(** X9.  [update_transaction], when no call is rejected, updates the
    transaction with the id given, once, and sends what was given: the
    amount in minor units when one is given, the payee name, notes, date
    and cleared flag as given, and never an id, account, payee id or
    imported id.  The categories are fetched only when a category that is
    not empty is given, and the field sent is then the id of the category
    found, or nothing when none is found. *)
Theorem update_transaction_sends_what_was_given (w : World)
  (c : ClientState.t) (h : list Entry) (args : Tools.UpdateTransactionArgs.t)
  (r : outcome ToolResult.t) (c' : ClientState.t) (tr : list Entry) :
  run w (Tools.update_transaction args) c h = (r, c', tr) ->
  existsb entry_rejected tr = false ->
  exists fields,
    flat_map updates_called tr = [(Tools.UpdateTransactionArgs.id args, fields)]
    /\ PartialTransaction.amount fields
       = option_map ActualBudgetClient.toAmount
           (Tools.UpdateTransactionArgs.amount args)
    /\ PartialTransaction.payee_name fields
       = Tools.UpdateTransactionArgs.payee_name args
    /\ PartialTransaction.notes fields = Tools.UpdateTransactionArgs.notes args
    /\ PartialTransaction.date fields = Tools.UpdateTransactionArgs.date args
    /\ PartialTransaction.cleared fields
       = Tools.UpdateTransactionArgs.cleared args
    /\ PartialTransaction.id fields = None
    /\ PartialTransaction.account fields = None
    /\ PartialTransaction.payee fields = None
    /\ PartialTransaction.imported_id fields = None
    /\ (if JS.truthy_string (Tools.UpdateTransactionArgs.category args)
        then exists categories token,
               flat_map categories_answered tr = [categories]
               /\ Tools.UpdateTransactionArgs.category args = Some token
               /\ PartialTransaction.category fields
                  = option_map Category.id
                      (Tools.find_category categories token)
        else flat_map categories_answered tr = []
             /\ PartialTransaction.category fields = None).
Proof.
  intros H Hok. unfold Tools.update_transaction in H.
  destruct_client c; destruct_update_args args;
    cbn [Tools.UpdateTransactionArgs.id Tools.UpdateTransactionArgs.amount
         Tools.UpdateTransactionArgs.category
         Tools.UpdateTransactionArgs.payee_name
         Tools.UpdateTransactionArgs.notes Tools.UpdateTransactionArgs.date
         Tools.UpdateTransactionArgs.cleared JS.truthy_string] in *;
    run_cases H; inversion H; subst; clear H; cbn in Hok;
    try discriminate Hok;
    (eexists; split; [ reflexivity | ]); cbn;
    repeat split;
    try (do 2 eexists; repeat split;
         match goal with
         | E : Tools.find_category _ _ = _ |- _ => now rewrite E
         end).
Qed.

(** X10.  [get_account_balance] with an account that is found asks the
    store for the balance of that account's id, once, and when it is
    fulfilled that question is its last step and it reports the name of the
    account found with the answer divided by 100 ([fromAmount]). *)
Theorem get_account_balance_asks_for_the_account_found (w : World)
  (c : ClientState.t) (h : list Entry) (token : string)
  (r : outcome ToolResult.t) (c' : ClientState.t) (tr : list Entry)
  (accounts : list Account.t) (account : Account.t) :
  run w (Tools.get_account_balance token) c h = (r, c', tr) ->
  flat_map accounts_answered tr = [accounts] ->
  Tools.find_account accounts token = Some account ->
  flat_map balances_asked tr = [Account.id account]
  /\ match r with
     | Fulfilled out =>
         exists before balance,
           tr = before
                ++ [Called (api_getAccountBalance (Account.id account))
                           (Fulfilled balance)]
           /\ ToolResult.structuredContent out
              = OutBalance
                  (BalanceOutput.mk (Account.name account)
                     (ActualBudgetClient.fromAmount balance))
     | Rejected _ => True
     end.
Proof.
  intros H Haccounts Haccount. unfold Tools.get_account_balance in H.
  destruct_client c; run_cases H; inversion H; subst; clear H;
    cbn in Haccounts; try discriminate; inversion Haccounts; subst;
    try congruence;
    match goal with
    | E : Tools.find_account _ _ = Some ?x |- _ =>
        rewrite Haccount in E; inversion E; subst x; clear E
    end;
    (split; [ reflexivity | ]); try exact I;
    first [ eexists [_], _; split; reflexivity
          | eexists [_; _; _], _; split; reflexivity ].
Qed.

#[local] Arguments Tools.find_payee_by_name : simpl never.

(** The execution of [create_schedule] in [H], case by case. *)
Ltac run_schedule_cases H :=
  cbn in H;
  repeat match type of H with
    | context [answer ?w ?X ?h ?call] =>
        destruct (answer w X h call) eqn:?; cbn in H
    | context [Tools.find_account ?l ?a] =>
        destruct (Tools.find_account l a) eqn:?; cbn in H
    | context [Tools.find_payee_by_name ?l ?a] =>
        destruct (Tools.find_payee_by_name l a) eqn:?; cbn in H
    end.

(** X11.  [create_schedule] with a payee name finds the payee or creates
    it.  When the payee list has a payee of that name, case insensitively,
    no payee is created and every schedule created carries the id of the
    first such payee.  When it
    has none, [api.createPayee] is called once, with the name as given;
    every schedule created carries the id that call answered, and no
    schedule is created when that call is rejected. *)
Theorem create_schedule_finds_or_creates_the_payee (w : World)
  (c : ClientState.t) (h : list Entry) (args : Tools.CreateScheduleArgs.t)
  (r : outcome ToolResult.t) (c' : ClientState.t) (tr : list Entry)
  (name : string) (payees : list Payee.t) :
  run w (Tools.create_schedule args) c h = (r, c', tr) ->
  Tools.CreateScheduleArgs.payee args = Some name ->
  flat_map payees_answered tr = [payees] ->
  match Tools.find_payee_by_name payees name with
  | Some found =>
      flat_map payees_created tr = []
      /\ Forall (fun schedule =>
                   CreateScheduleInput.payee schedule = Some (Payee.id found))
                (flat_map schedules_created tr)
  | None =>
      exists settled,
        flat_map payees_created tr = [(name, settled)]
        /\ match settled with
           | Fulfilled id =>
               Forall (fun schedule =>
                         CreateScheduleInput.payee schedule = Some id)
                      (flat_map schedules_created tr)
           | Rejected _ => flat_map schedules_created tr = []
           end
  end.
Proof.
  intros H Hname Hpayees. unfold Tools.create_schedule in H.
  destruct args as [sname account payee amount start_date frequency interval
                      end_mode end_occurrences end_date posts_transaction].
  cbn in Hname. subst payee.
  cbn [Tools.CreateScheduleArgs.account Tools.CreateScheduleArgs.name
       Tools.CreateScheduleArgs.frequency Tools.CreateScheduleArgs.start_date
       Tools.CreateScheduleArgs.payee Tools.CreateScheduleArgs.amount
       Tools.CreateScheduleArgs.interval Tools.CreateScheduleArgs.end_mode
       Tools.CreateScheduleArgs.end_occurrences
       Tools.CreateScheduleArgs.end_date
       Tools.CreateScheduleArgs.posts_transaction] in H.
  destruct_client c; destruct name as [|ch name];
    run_schedule_cases H; inversion H; subst; clear H;
    cbn in Hpayees; try discriminate Hpayees;
    inversion Hpayees; subst; clear Hpayees;
    match goal with
    | E : Tools.find_payee_by_name _ _ = _ |- _ => rewrite E
    end;
    cbn; repeat first [ split | reflexivity | constructor | eexists ].
Qed.

End Sent.

(** X7 at the scenario: 250 for [groceries] is sent as 25000 for
    [cat_1]. *)
Lemma set_budget_amount_sends_the_category_id_witness :
  exists r c' tr,
    run Scenario.world
        (@Tools.set_budget_amount Scenario.runtime (Some "2024-01") "groceries"
           250%float)
        Scenario.client []
    = (r, c', tr)
    /\ flat_map budget_amounts_set tr = [("2024-01", "cat_1", 25000%float)].
Proof.
  do 3 eexists. split.
  - reflexivity.
  - destruct (@set_budget_amount_sends_the_category_id Scenario.runtime
                Scenario.world Scenario.client [] (Some "2024-01") "groceries"
                250%float _ _ _ Scenario.categories
                (Category.mk "cat_1" "Groceries" (Some "grp_1") None)
                eq_refl eq_refl eq_refl)
      as (targetMonth & Hset & Hmonth & _).
    specialize (Hmonth eq_refl). inversion Hmonth; subst targetMonth.
    exact Hset.
Defined.

(** X8 at the scenario: an expense of 12.50 on [checking] under
    [groceries]. *)
Lemma add_transaction_sends_resolved_ids_witness :
  exists r c' tr,
    run Scenario.world
        (@Tools.add_transaction Scenario.runtime
           (Tools.AddTransactionArgs.mk "checking" (-12.5)%float
              (Some "Costco") (Some "groceries") None (Some "2024-02-01")))
        Scenario.client []
    = (r, c', tr)
    /\ exists sent settled,
         flat_map imports_called tr = [("acc_1", [sent], settled)]
         /\ Transaction.category sent = Some "cat_1"
         /\ Transaction.amount sent = (-1250)%float
         /\ Transaction.date sent = "2024-02-01".
Proof.
  do 3 eexists. split.
  - reflexivity.
  - destruct (@add_transaction_sends_resolved_ids Scenario.runtime
                Scenario.world Scenario.client []
                (Tools.AddTransactionArgs.mk "checking" (-12.5)%float
                   (Some "Costco") (Some "groceries") None (Some "2024-02-01"))
                _ _ _ Scenario.accounts
                (Account.mk "acc_1" "Checking" None None) "groceries"
                Scenario.categories
                (Category.mk "cat_1" "Groceries" (Some "grp_1") None)
                eq_refl eq_refl eq_refl eq_refl eq_refl eq_refl)
      as (sent & settled & Hsent & _ & Hcategory & Hamount & _ & _ & Hdate & _).
    specialize (Hdate eq_refl).
    exists sent, settled.
    repeat split;
      [ exact Hsent | exact Hcategory | exact Hamount | now inversion Hdate ].
Defined.

(** X9 at the scenario: a new amount, category and notes for [t1]. *)
Lemma update_transaction_sends_what_was_given_witness :
  exists r c' tr,
    run Scenario.world
        (@Tools.update_transaction Scenario.runtime
           (Tools.UpdateTransactionArgs.mk "t1" (Some 12.5%float) (Some "rent")
              None (Some "paid") None None))
        Scenario.client []
    = (r, c', tr)
    /\ existsb entry_rejected tr = false
    /\ exists fields,
         flat_map updates_called tr = [("t1", fields)]
         /\ PartialTransaction.amount fields = Some 1250%float
         /\ PartialTransaction.notes fields = Some "paid".
Proof.
  do 3 eexists. split; [ reflexivity | ]. split; [ reflexivity | ].
  destruct (@update_transaction_sends_what_was_given Scenario.runtime
              Scenario.world Scenario.client []
              (Tools.UpdateTransactionArgs.mk "t1" (Some 12.5%float)
                 (Some "rent") None (Some "paid") None None)
              _ _ _ eq_refl eq_refl)
    as (fields & Hsent & Hamount & _ & Hnotes & _).
  exists fields. repeat split; assumption.
Defined.

(** X10 at the scenario: [savings] is the account [acc_2]. *)
Lemma get_account_balance_asks_for_the_account_found_witness :
  exists r c' tr,
    run Scenario.world
        (@Tools.get_account_balance Scenario.runtime "savings")
        Scenario.client []
    = (r, c', tr)
    /\ flat_map balances_asked tr = ["acc_2"].
Proof.
  do 3 eexists. split.
  - reflexivity.
  - exact (proj1 (@get_account_balance_asks_for_the_account_found
                    Scenario.runtime Scenario.world Scenario.client []
                    "savings" _ _ _ Scenario.accounts
                    (Account.mk "acc_2" "Savings" None None)
                    eq_refl eq_refl eq_refl)).
Defined.

(** X11 at the scenario, which has no payee [Landlord]. *)
Lemma create_schedule_finds_or_creates_the_payee_witness :
  exists r c' tr,
    run Scenario.world
        (@Tools.create_schedule Scenario.runtime
           (Tools.CreateScheduleArgs.mk (Some "Rent") "checking"
              (Some "Landlord") (-1000)%float "2024-01-01" "monthly"
              None None None None None))
        Scenario.client []
    = (r, c', tr)
    /\ exists settled, flat_map payees_created tr = [("Landlord", settled)].
Proof.
  do 3 eexists. split.
  - reflexivity.
  - pose proof (@create_schedule_finds_or_creates_the_payee Scenario.runtime
                  Scenario.world Scenario.client []
                  (Tools.CreateScheduleArgs.mk (Some "Rent") "checking"
                     (Some "Landlord") (-1000)%float "2024-01-01" "monthly"
                     None None None None None)
                  _ _ _ "Landlord" Scenario.payees eq_refl eq_refl eq_refl)
      as H.
    destruct H as (settled & Hcreated & _).
    exists settled. exact Hcreated.
Defined.

(** ** The accounts whose transactions are fetched *)

Lemma flat_map_nothing (A B : Type) (f : A -> list B) (l : list A) :
  Forall (fun x => f x = []) l -> flat_map f l = [].
Proof.
  induction 1 as [|x l Hx Hl IH]; cbn [flat_map]; [ reflexivity | ].
  cbn beta in Hx. now rewrite Hx, IH.
Qed.

Lemma run_getTransactions_asked (w : World) (id s e : string)
  (c : ClientState.t) (h : list Entry) (l : list Transaction.t)
  (c' : ClientState.t) (tr : list Entry) :
  run w (ActualBudgetClient.getTransactions id s e) c h
  = (Fulfilled l, c', tr) ->
  flat_map transactions_asked tr = [(id, s, e)].
Proof.
  intros H. destruct_client c; run_cases H; try discriminate;
    inversion H; subst; reflexivity.
Qed.

Lemma run_fetch_all_asked (T : Type) (tag : Account.t -> Transaction.t -> T)
  (s e : string) (w : World) (accounts : list Account.t) :
  forall c h all c' tr,
    run w (Tools.fetch_all accounts s e tag) c h = (Fulfilled all, c', tr) ->
    flat_map transactions_asked tr
    = map (fun a => (Account.id a, s, e)) accounts.
Proof.
  unfold Tools.fetch_all.
  assert (Hmap : forall c h fetched c' tr,
             run w (mapM (fun acc =>
                            transactions <- ActualBudgetClient.getTransactions
                                              (Account.id acc) s e ;;
                            Ret (map (tag acc) transactions))
                         accounts) c h
             = (Fulfilled fetched, c', tr) ->
             flat_map transactions_asked tr
             = map (fun a => (Account.id a, s, e)) accounts).
  { induction accounts as [|acc accounts IH]; intros c h fetched c' tr H.
    - cbn in H. inversion H; subst. reflexivity.
    - cbn [mapM] in H. run_bind_in H. run_bind_in H.
      cbn in H. inversion H; subst. clear H.
      run_bind_in E. cbn in E. inversion E; subst. clear E.
      rewrite !app_nil_r, flat_map_app.
      rewrite (run_getTransactions_asked _ _ _ _ _ _ _ _ _ E1).
      cbn [map app]. f_equal. eapply IH. eassumption. }
  intros c h all c' tr H. run_bind_in H.
  cbn in H. inversion H; subst. rewrite app_nil_r. eapply Hmap. eassumption.
Qed.

(** [E] is an execution none of whose steps [f] reads anything from. *)
Ltac reads_nothing f E :=
  match type of E with
  | run ?w ?p ?c ?h = _ =>
      let Q := fresh "Q" in
      assert (Q : only (fun e => f e = []) p)
        by (unfold Tools.or_today, Tools.or_days_ago, Tools.or_first_of_month,
              Tools.fetch_all;
            repeat only_step);
      apply Q in E; apply flat_map_nothing in E
  end.

Lemma run_or_given (A : Type) (w : World) (given : option string)
  (default : prog string) (c : ClientState.t) (h : list Entry) (d : string)
  (c' : ClientState.t) (tr : list Entry) :
  run w (match given with
         | Some (String _ _ as s) => Ret s
         | _ => default
         end) c h = (Fulfilled d, c', tr) ->
  JS.truthy_string given = true -> given = Some d.
Proof.
  destruct given as [[|ch s]|]; try discriminate.
  intros H _. cbn in H. now inversion H.
Qed.

Section Fetching.

Context {rt : Runtime}.

(** X12.  [search_transactions], when it is fulfilled, asked for the
    transactions of exactly the accounts that are not closed, off-budget
    accounts included, in the order of the account list, once each and all
    with one range of dates, whose ends are the dates given when they are
    given. *)
Theorem search_transactions_fetches_the_open_accounts (w : World)
  (c : ClientState.t) (h : list Entry) (args : Tools.SearchArgs.t)
  (r : ToolResult.t) (c' : ClientState.t) (tr : list Entry) :
  run w (Tools.search_transactions args) c h = (Fulfilled r, c', tr) ->
  exists accounts startDate endDate,
    flat_map accounts_answered tr = [accounts]
    /\ flat_map transactions_asked tr
       = map (fun a => (Account.id a, startDate, endDate))
             (filter (fun a => negb (JS.or_false (Account.closed a)))
                     accounts)
    /\ (JS.truthy_string (Tools.SearchArgs.start_date args) = true ->
        Tools.SearchArgs.start_date args = Some startDate)
    /\ (JS.truthy_string (Tools.SearchArgs.end_date args) = true ->
        Tools.SearchArgs.end_date args = Some endDate).
Proof.
  intros H. unfold Tools.search_transactions in H.
  run_bind_in H. run_bind_in H. run_bind_in H. run_bind_in H.
  run_bind_in H. run_bind_in H.
  cbn in H. inversion H; subst. clear H.
  exists a, a3, a2.
  pose proof (run_fetch_all_asked _ _ _ _ _ _ _ _ _ _ _ E4) as Hasked.
  pose proof (run_or_given ToolResult.t _ _ _ _ _ _ _ _ E2) as Hend.
  pose proof (run_or_given ToolResult.t _ _ _ _ _ _ _ _ E3) as Hstart.
  destruct (run_getAccounts _ _ _ _ _ _ E) as (_ & Hanswered & _).
  pose proof E0 as A0. pose proof E1 as A1. pose proof E2 as A2.
  pose proof E3 as A3.
  reads_nothing accounts_answered A0. reads_nothing accounts_answered A1.
  reads_nothing accounts_answered A2. reads_nothing accounts_answered A3.
  reads_nothing accounts_answered E4.
  reads_nothing transactions_asked E. reads_nothing transactions_asked E0.
  reads_nothing transactions_asked E1. reads_nothing transactions_asked E2.
  reads_nothing transactions_asked E3.
  rewrite !flat_map_app, Hanswered, A0, A1, A2, A3, E4, E, E0, E1, E2, E3,
    Hasked.
  cbn [app]. rewrite !app_nil_r. repeat split; assumption.
Qed.

(** X13.  [get_spending_summary], when it is fulfilled, asked for the
    transactions of exactly the accounts that are neither closed nor
    off-budget, in the order of the account list, once each and all with
    one range of dates, whose ends are the dates given when they are
    given. *)
Theorem get_spending_summary_fetches_the_budget_accounts (w : World)
  (c : ClientState.t) (h : list Entry) (start_date end_date : option string)
  (r : ToolResult.t) (c' : ClientState.t) (tr : list Entry) :
  run w (Tools.get_spending_summary start_date end_date) c h
  = (Fulfilled r, c', tr) ->
  exists accounts startDate endDate,
    flat_map accounts_answered tr = [accounts]
    /\ flat_map transactions_asked tr
       = map (fun a => (Account.id a, startDate, endDate))
             (filter (fun a => negb (JS.or_false (Account.closed a))
                               && negb (JS.or_false (Account.offbudget a)))
                     accounts)
    /\ (JS.truthy_string start_date = true -> start_date = Some startDate)
    /\ (JS.truthy_string end_date = true -> end_date = Some endDate).
Proof.
  intros H. unfold Tools.get_spending_summary in H.
  run_bind_in H. run_bind_in H. run_bind_in H. run_bind_in H.
  run_bind_in H.
  cbn in H. inversion H; subst. clear H.
  exists a1, a0, a.
  pose proof (run_fetch_all_asked _ _ _ _ _ _ _ _ _ _ _ E3) as Hasked.
  pose proof (run_or_given ToolResult.t _ _ _ _ _ _ _ _ E) as Hend.
  pose proof (run_or_given ToolResult.t _ _ _ _ _ _ _ _ E0) as Hstart.
  destruct (run_getAccounts _ _ _ _ _ _ E1) as (_ & Hanswered & _).
  pose proof E as A0. pose proof E0 as A1. pose proof E2 as A2.
  reads_nothing accounts_answered A0. reads_nothing accounts_answered A1.
  reads_nothing accounts_answered A2. reads_nothing accounts_answered E3.
  reads_nothing transactions_asked E. reads_nothing transactions_asked E0.
  reads_nothing transactions_asked E1. reads_nothing transactions_asked E2.
  rewrite !flat_map_app, Hanswered, A0, A1, A2, E3, E, E0, E1, E2, Hasked.
  cbn [app]. rewrite !app_nil_r. repeat split; assumption.
Qed.

End Fetching.

(** X12 at the scenario, whose two accounts are open. *)
Lemma search_transactions_fetches_the_open_accounts_witness :
  let args :=
    Tools.SearchArgs.mk (Some "costco") None None None (Some "2024-01-01")
      (Some "2024-12-31") None in
  exists r c' tr,
    run Scenario.world (@Tools.search_transactions Scenario.runtime args)
        Scenario.client []
    = (Fulfilled r, c', tr)
    /\ flat_map transactions_asked tr
       = [("acc_1", "2024-01-01", "2024-12-31");
          ("acc_2", "2024-01-01", "2024-12-31")].
Proof.
  cbv zeta. do 3 eexists. split.
  - reflexivity.
  - destruct (@search_transactions_fetches_the_open_accounts Scenario.runtime
                Scenario.world Scenario.client []
                (Tools.SearchArgs.mk (Some "costco") None None None
                   (Some "2024-01-01") (Some "2024-12-31") None)
                _ _ _ eq_refl)
      as (accounts & startDate & endDate & Hanswered & Hasked & Hstart & Hend).
    specialize (Hstart eq_refl). specialize (Hend eq_refl).
    inversion Hanswered; subst accounts.
    inversion Hstart; subst startDate. inversion Hend; subst endDate.
    exact Hasked.
Defined.

(** X13 at the scenario, whose two accounts are open and on budget. *)
Lemma get_spending_summary_fetches_the_budget_accounts_witness :
  exists r c' tr,
    run Scenario.world
        (@Tools.get_spending_summary Scenario.runtime (Some "2024-01-01")
           (Some "2024-12-31"))
        Scenario.client []
    = (Fulfilled r, c', tr)
    /\ flat_map transactions_asked tr
       = [("acc_1", "2024-01-01", "2024-12-31");
          ("acc_2", "2024-01-01", "2024-12-31")].
Proof.
  do 3 eexists. split.
  - reflexivity.
  - destruct (@get_spending_summary_fetches_the_budget_accounts
                Scenario.runtime Scenario.world Scenario.client []
                (Some "2024-01-01") (Some "2024-12-31") _ _ _ eq_refl)
      as (accounts & startDate & endDate & Hanswered & Hasked & Hstart & Hend).
    specialize (Hstart eq_refl). specialize (Hend eq_refl).
    inversion Hanswered; subst accounts.
    inversion Hstart; subst startDate. inversion Hend; subst endDate.
    exact Hasked.
Defined.

(** ** Maps from ids to names *)

Section Maps.

Variable V : Type.

Lemma Map_get_set_same (m : JS.Map V) (k : string) (v : V) :
  JS.Map_get (JS.Map_set m k v) k = Some v.
Proof.
  induction m as [|[k' v'] m IH]; cbn.
  - now rewrite String.eqb_refl.
  - destruct (String.eqb_spec k' k) as [->|Hne]; cbn.
    + now rewrite String.eqb_refl.
    + destruct (String.eqb_spec k' k); [ contradiction | exact IH ].
Qed.

Lemma Map_get_set_other (m : JS.Map V) (k k' : string) (v : V) :
  k <> k' -> JS.Map_get (JS.Map_set m k v) k' = JS.Map_get m k'.
Proof.
  intros Hne. induction m as [|[k0 v0] m IH]; cbn.
  - destruct (String.eqb_spec k k'); [ contradiction | reflexivity ].
  - destruct (String.eqb_spec k0 k) as [->|Hne0]; cbn.
    + destruct (String.eqb_spec k k'); [ contradiction | reflexivity ].
    + destruct (String.eqb_spec k0 k'); [ reflexivity | exact IH ].
Qed.

Lemma Map_set_keys (m : JS.Map V) (k : string) (v : V) (k' : string) :
  In k' (map fst (JS.Map_set m k v)) <-> k' = k \/ In k' (map fst m).
Proof.
  induction m as [|[k0 v0] m IH]; cbn.
  - intuition.
  - destruct (String.eqb_spec k0 k) as [->|Hne]; cbn; [ intuition | ].
    rewrite IH. intuition.
Qed.

Lemma Map_set_NoDup (m : JS.Map V) (k : string) (v : V) :
  NoDup (map fst m) -> NoDup (map fst (JS.Map_set m k v)).
Proof.
  induction m as [|[k0 v0] m IH]; cbn; intros H.
  - constructor; [ intros [] | constructor ].
  - destruct (String.eqb_spec k0 k) as [->|Hne]; cbn; [ exact H | ].
    inversion H as [|? ? Hnot Hrest]; subst. constructor.
    + rewrite Map_set_keys. intros [->|Hin]; [ now apply Hne | now apply Hnot ].
    + now apply IH.
Qed.

End Maps.

Lemma find_over_app (A : Type) (p : A -> bool) (l1 l2 : list A) :
  find p (l1 ++ l2)
  = match find p l1 with
    | Some x => Some x
    | None => find p l2
    end.
Proof.
  induction l1 as [|x l1 IH]; cbn; [ reflexivity | ].
  destruct (p x); [ reflexivity | exact IH ].
Qed.

Section Records.

Variable A : Type.
Variable key value : A -> string.

Lemma Map_get_fold (l : list A) :
  forall (m : JS.Map string) (k : string),
    JS.Map_get
      (fold_left (fun m kv => JS.Map_set m (fst kv) (snd kv))
                 (map (fun x => (key x, value x)) l) m) k
    = match last_with key value l k with
      | Some v => Some v
      | None => JS.Map_get m k
      end.
Proof.
  unfold last_with.
  induction l as [|x l IH]; intros m k; cbn [map fold_left rev].
  - reflexivity.
  - rewrite IH. cbn [fst snd]. rewrite find_over_app.
    destruct (find _ (rev l)) as [y|]; [ reflexivity | ].
    cbn [find option_map].
    destruct (String.eqb_spec (key x) k) as [<-|Hne]; cbn [option_map].
    + apply Map_get_set_same.
    + now apply Map_get_set_other.
Qed.

Lemma Map_get_new (l : list A) (k : string) :
  JS.Map_get (JS.Map_new (map (fun x => (key x, value x)) l)) k
  = last_with key value l k.
Proof.
  unfold JS.Map_new. rewrite Map_get_fold.
  now destruct (last_with key value l k).
Qed.

End Records.

(** X14.  The maps from ids to names ([payeeMap], [categoryMap] and
    [accountMap], each [new Map] of the pairs of id and name) resolve an id
    to the name of the last record with that id, so that of two records
    with one id the later one is shown; an id that is missing or empty, or
    that no record has, resolves to nothing. *)
Theorem ids_resolve_to_the_last_name (payees : list Payee.t)
  (categories : list Category.t) (accounts : list Account.t)
  (key : option string) :
  let resolved (names : string -> option string) :=
    match key with
    | Some (String _ _ as id) => names id
    | _ => None
    end in
  Tools.lookup (Tools.payeeMap payees) key
  = resolved (last_with Payee.id Payee.name payees)
  /\ Tools.lookup (Tools.categoryMap categories) key
     = resolved (last_with Category.id Category.name categories)
  /\ Tools.lookup (Tools.accountMap accounts) key
     = resolved (last_with Account.id Account.name accounts).
Proof.
  unfold Tools.lookup, Tools.payeeMap, Tools.categoryMap, Tools.accountMap.
  destruct key as [[|c id]|]; cbv zeta; repeat split;
    try reflexivity; apply Map_get_new.
Qed.

(** ** Categories of the spending summary *)

Lemma add_to_totals_keys (cm : JS.Map string) (acc : Tools.Totals.t)
  (t : Transaction.t) :
  NoDup (map fst (Tools.Totals.categoryTotals acc)) ->
  NoDup (map fst (Tools.Totals.categoryTotals (Tools.add_to_totals cm acc t)))
  /\ forall name,
       In name (map fst (Tools.Totals.categoryTotals
                           (Tools.add_to_totals cm acc t)))
       <-> In name (map fst (Tools.Totals.categoryTotals acc))
           \/ (JS.lt (Transaction.amount t) 0%float = true
               /\ category_label cm t = name).
Proof.
  intros Hnodup. unfold Tools.add_to_totals.
  destruct (JS.lt (Transaction.amount t) 0%float) eqn:Hlt;
    cbn [Tools.Totals.categoryTotals].
  - fold (category_label cm t). split; [ now apply Map_set_NoDup | ].
    intros name. rewrite Map_set_keys. intuition.
  - split; [ exact Hnodup | ]. intros name. intuition discriminate.
Qed.

Lemma totals_keys (cm : JS.Map string) (l : list Transaction.t) :
  forall acc,
    NoDup (map fst (Tools.Totals.categoryTotals acc)) ->
    let final := fold_left (Tools.add_to_totals cm) l acc in
    NoDup (map fst (Tools.Totals.categoryTotals final))
    /\ forall name,
         In name (map fst (Tools.Totals.categoryTotals final))
         <-> In name (map fst (Tools.Totals.categoryTotals acc))
             \/ exists t,
                  In t l
                  /\ JS.lt (Transaction.amount t) 0%float = true
                  /\ category_label cm t = name.
Proof.
  induction l as [|t l IH]; intros acc Hnodup; cbn [fold_left].
  - split; [ exact Hnodup | ]. intros name. split; [ auto | ].
    intros [H|(t & [] & _)]. exact H.
  - destruct (add_to_totals_keys cm acc t Hnodup) as (Hnodup1 & Hkeys1).
    destruct (IH _ Hnodup1) as (Hnodup2 & Hkeys2).
    split; [ exact Hnodup2 | ]. intros name. rewrite Hkeys2, Hkeys1.
    split.
    + intros [[H|(Hlt & Hlabel)]|(t' & Hin & H)].
      * now left.
      * right. exists t. split; [ now left | now split ].
      * right. exists t'. split; [ now right | exact H ].
    + intros [H|(t' & [<-|Hin] & H)].
      * now left; left.
      * left; right. exact H.
      * right. exists t'. split; assumption.
Qed.

Lemma byCategory_names (t : Tools.Totals.t) :
  Permutation (map CategorySpending.category (Tools.byCategory t))
              (map fst (Tools.Totals.categoryTotals t)).
Proof.
  unfold Tools.byCategory, JS.Map_entries.
  rewrite (Permutation_map _ (sort_permutation _ _ _)).
  rewrite map_map. apply Permutation_refl'.
  apply map_ext. intros [category amount]. reflexivity.
Qed.

Lemma run_getCategories (w : World) (c : ClientState.t) (h : list Entry)
  (categories : list Category.t) (c1 : ClientState.t) (tr1 : list Entry) :
  run w ActualBudgetClient.getCategories c h = (Fulfilled categories, c1, tr1) ->
  flat_map categories_answered tr1 = [categories].
Proof.
  intros H. destruct_client c; run_cases H; try discriminate;
    inversion H; subst; reflexivity.
Qed.

Section Summary.

Context {rt : Runtime}.

Lemma get_spending_summary_reports_categories (w : World)
  (c : ClientState.t) (h : list Entry) (start_date end_date : option string)
  (r : ToolResult.t) (c' : ClientState.t) (tr : list Entry) :
  run w (Tools.get_spending_summary start_date end_date) c h
  = (Fulfilled r, c', tr) ->
  exists startDate endDate categories,
    ToolResult.structuredContent r
    = OutSpendingSummary
        (Tools.spending_summary_output startDate endDate categories (fetched tr))
    /\ flat_map categories_answered tr = [categories].
Proof.
  intros H. unfold Tools.get_spending_summary in H.
  run_bind_in H. run_bind_in H. run_bind_in H. run_bind_in H. run_bind_in H.
  cbn in H. inversion H; subst. clear H.
  exists a0, a, a2. cbn [ToolResult.structuredContent]. split.
  - do 2 f_equal. unfold fetched. rewrite !flat_map_app.
    rewrite (or_today_fetches_nothing _ _ _ _ _ _ _ E).
    rewrite (or_first_of_month_fetches_nothing _ _ _ _ _ _ _ E0).
    rewrite (getAccounts_fetches_nothing _ _ _ _ _ _ E1).
    rewrite (getCategories_fetches_nothing _ _ _ _ _ _ E2).
    cbn [app flat_map]. rewrite app_nil_r.
    rewrite (run_fetch_all _ _ (fun _ t => t) _ _ _ _
               (fun _ _ => eq_refl) _ _ _ _ _ E3).
    apply flat_map_ext. intros al. apply map_id.
  - pose proof (run_getCategories _ _ _ _ _ _ E2) as Hcats.
    reads_nothing categories_answered E.
    reads_nothing categories_answered E0.
    reads_nothing categories_answered E1.
    reads_nothing categories_answered E3.
    rewrite !flat_map_app, E, E0, E1, E3, Hcats. reflexivity.
Qed.

(** X15.  [get_spending_summary], when it is fulfilled, lists each
    category once: no two entries of [by_category] have the same name, and
    a name is listed exactly when some transaction fetched has a negative
    amount and is counted under that name (the name of its category, or
    [Uncategorized]).  Income and amounts of zero add no entry. *)
Theorem spending_summary_lists_each_category_once (w : World)
  (c : ClientState.t) (h : list Entry) (start_date end_date : option string)
  (r : ToolResult.t) (c' : ClientState.t) (tr : list Entry) :
  run w (Tools.get_spending_summary start_date end_date) c h
  = (Fulfilled r, c', tr) ->
  exists out categories,
    ToolResult.structuredContent r = OutSpendingSummary out
    /\ flat_map categories_answered tr = [categories]
    /\ let names :=
         map CategorySpending.category
             (SpendingSummaryOutput.by_category out) in
       NoDup names
       /\ forall name,
            In name names
            <-> exists t,
                  In t (fetched tr)
                  /\ JS.lt (Transaction.amount t) 0%float = true
                  /\ category_label (Tools.categoryMap categories) t = name.
Proof.
  intros H.
  destruct (get_spending_summary_reports_categories _ _ _ _ _ _ _ _ H)
    as (startDate & endDate & categories & Hout & Hcats).
  eexists _, categories. split; [ exact Hout | ]. split; [ exact Hcats | ].
  cbn [SpendingSummaryOutput.by_category Tools.spending_summary_output].
  set (cm := Tools.categoryMap categories).
  destruct (totals_keys cm (fetched tr) (Tools.Totals.mk [] 0%float 0%float))
    as (Hnodup & Hkeys); [ constructor | ].
  fold (Tools.totals cm (fetched tr)) in Hnodup, Hkeys.
  pose proof (byCategory_names (Tools.totals cm (fetched tr))) as Hperm.
  split.
  - eapply Permutation_NoDup; [ symmetry; exact Hperm | exact Hnodup ].
  - intros name. split.
    + intros Hin. apply (Permutation_in _ Hperm) in Hin.
      apply Hkeys in Hin. destruct Hin as [[]|Hin]. exact Hin.
    + intros Hin. apply (Permutation_in _ (Permutation_sym Hperm)).
      apply Hkeys. now right.
Qed.

End Summary.

(** X15 at the scenario. *)
Lemma spending_summary_lists_each_category_once_witness :
  exists r c' tr,
    run Scenario.world
        (@Tools.get_spending_summary Scenario.runtime (Some "2024-01-01")
           (Some "2024-12-31"))
        Scenario.client []
    = (Fulfilled r, c', tr)
    /\ exists out,
         ToolResult.structuredContent r = OutSpendingSummary out
         /\ NoDup (map CategorySpending.category
                       (SpendingSummaryOutput.by_category out)).
Proof.
  do 3 eexists. split.
  - reflexivity.
  - destruct (@spending_summary_lists_each_category_once Scenario.runtime
                Scenario.world Scenario.client [] (Some "2024-01-01")
                (Some "2024-12-31") _ _ _ eq_refl)
      as (out & categories & Hout & _ & Hnames).
    cbv zeta in Hnames. exists out. split; [ exact Hout | exact (proj1 Hnames) ].
Defined.

(** ** Transaction search, on what the store answered *)

Lemma run_getPayees (w : World) (c : ClientState.t) (h : list Entry)
  (payees : list Payee.t) (c1 : ClientState.t) (tr1 : list Entry) :
  run w ActualBudgetClient.getPayees c h = (Fulfilled payees, c1, tr1) ->
  flat_map payees_answered tr1 = [payees].
Proof.
  intros H. destruct_client c; run_cases H; try discriminate;
    inversion H; subst; reflexivity.
Qed.

(** What a fulfilled search reports, and that the accounts, payees and
    categories it uses are those the store answered. *)
Lemma search_transactions_reports_answers (rt : Runtime) (w : World)
  (c : ClientState.t) (h : list Entry) (args : Tools.SearchArgs.t)
  (r : ToolResult.t) (c' : ClientState.t) (tr : list Entry) :
  run w (Tools.search_transactions args) c h = (Fulfilled r, c', tr) ->
  exists accounts payees categories,
    flat_map accounts_answered tr = [accounts]
    /\ flat_map payees_answered tr = [payees]
    /\ flat_map categories_answered tr = [categories]
    /\ ToolResult.structuredContent r
       = OutSearch (Tools.search_output accounts payees categories args
                      (fetched_tagged tr)).
Proof.
  intros H. unfold Tools.search_transactions in H.
  run_bind_in H. run_bind_in H. run_bind_in H. run_bind_in H. run_bind_in H.
  run_bind_in H.
  cbn in H. inversion H; subst. clear H.
  exists a, a0, a1. cbn [ToolResult.structuredContent].
  assert (Hout : Tools.search_output a a0 a1 args a4
                 = Tools.search_output a a0 a1 args
                     (fetched_tagged
                        (tr0 ++ tr1 ++ tr2 ++ tr3 ++ tr4 ++ tr5 ++ []))).
  { f_equal. unfold fetched_tagged. rewrite !flat_map_app.
    rewrite (getAccounts_fetches_nothing _ _ _ _ _ _ E).
    rewrite (getPayees_fetches_nothing _ _ _ _ _ _ E0).
    rewrite (getCategories_fetches_nothing _ _ _ _ _ _ E1).
    rewrite (or_today_fetches_nothing _ _ _ _ _ _ _ E2).
    rewrite (or_days_ago_fetches_nothing _ _ _ _ _ _ _ _ E3).
    cbn [app flat_map]. rewrite app_nil_r.
    exact (run_fetch_all _ _ (fun id t => Tools.Tagged.mk t id) _ _ _ _
             (fun _ _ => eq_refl) _ _ _ _ _ E4). }
  destruct (run_getAccounts _ _ _ _ _ _ E) as (_ & Haccounts & _).
  pose proof (run_getPayees _ _ _ _ _ _ E0) as Hpayees.
  pose proof (run_getCategories _ _ _ _ _ _ E1) as Hcategories.
  repeat split.
  - pose proof E0 as A0. pose proof E1 as A1. pose proof E2 as A2.
    pose proof E3 as A3. pose proof E4 as A4.
    reads_nothing accounts_answered A0. reads_nothing accounts_answered A1.
    reads_nothing accounts_answered A2. reads_nothing accounts_answered A3.
    reads_nothing accounts_answered A4.
    now rewrite !flat_map_app, Haccounts, A0, A1, A2, A3, A4.
  - pose proof E as A0. pose proof E1 as A1. pose proof E2 as A2.
    pose proof E3 as A3. pose proof E4 as A4.
    reads_nothing payees_answered A0. reads_nothing payees_answered A1.
    reads_nothing payees_answered A2. reads_nothing payees_answered A3.
    reads_nothing payees_answered A4.
    now rewrite !flat_map_app, Hpayees, A0, A1, A2, A3, A4.
  - pose proof E as A0. pose proof E0 as A1. pose proof E2 as A2.
    pose proof E3 as A3. pose proof E4 as A4.
    reads_nothing categories_answered A0. reads_nothing categories_answered A1.
    reads_nothing categories_answered A2. reads_nothing categories_answered A3.
    reads_nothing categories_answered A4.
    now rewrite !flat_map_app, Hcategories, A0, A1, A2, A3, A4.
  - now rewrite Hout.
Qed.

(** C4, as the code has it.  Whenever [search_transactions] is fulfilled
    and the transactions it fetched are dated with calendar dates
    ([YYYY-MM-DD], on which [localeCompare] is the comparison of the
    characters), it reports, of the transactions it fetched, those that
    pass every filter whose input is given (a payee or notes text that is
    not empty, a minimum, a maximum), the payee of a transaction being
    named by the payees that the store answered: with a payee and a minimum
    alone these are the transactions that satisfy both, with no filter all
    of them.  The kept transactions are sorted by date, latest first, and
    cut to a prefix: the first 50 when the limit is omitted, 0 or NaN, and
    the first [k] when the limit is a number of integer part [k >= 1]. *)
Theorem search_filters_sorts_limits (rt : Runtime) (w : World)
  (c : ClientState.t) (h : list Entry) (args : Tools.SearchArgs.t)
  (r : ToolResult.t) (c' : ClientState.t) (tr : list Entry) :
  run w (Tools.search_transactions args) c h = (Fulfilled r, c', tr) ->
  Forall (fun t => is_ISO_date (Transaction.date (Tools.Tagged.transaction t))
                   = true)
         (fetched_tagged tr) ->
  exists accounts payees categories,
    flat_map accounts_answered tr = [accounts]
    /\ flat_map payees_answered tr = [payees]
    /\ flat_map categories_answered tr = [categories]
    /\ let all := fetched_tagged tr in
       let pm := Tools.payeeMap payees in
       let filtered := filter (passes pm args) all in
       let sorted := JS.sort Tools.by_date_descending filtered in
       let result := Tools.search pm args all in
       ToolResult.structuredContent r
       = OutSearch
           (SearchOutput.mk
              (map (Tools.format_found (Tools.accountMap accounts) pm
                      (Tools.categoryMap categories))
                   result)
              (List.length result))
       /\ (forall c p m,
              Tools.SearchArgs.payee args = Some (String c p) ->
              Tools.SearchArgs.notes args = None ->
              Tools.SearchArgs.min_amount args = Some m ->
              Tools.SearchArgs.max_amount args = None ->
              filtered
              = filter (fun t =>
                          Tools.payee_matches pm (JS.toLowerCase (String c p)) t
                          && Tools.at_least (ActualBudgetClient.toAmount m) t)
                       all)
       /\ (Tools.SearchArgs.payee args = None ->
           Tools.SearchArgs.notes args = None ->
           Tools.SearchArgs.min_amount args = None ->
           Tools.SearchArgs.max_amount args = None ->
           filtered = all)
       /\ Permutation sorted filtered
       /\ StronglySorted not_before sorted
       /\ StronglySorted not_before result
       /\ (Tools.SearchArgs.limit args = None -> result = firstn 50 sorted)
       /\ (forall l,
              Tools.SearchArgs.limit args = Some l ->
              JS.truthy_number l = false ->
              result = firstn 50 sorted)
       /\ (forall l k,
              Tools.SearchArgs.limit args = Some l ->
              JS.ToIntegerOrInfinity l = JS.Finite (Z.pos k) ->
              result = firstn (Pos.to_nat k) sorted).
Proof.
  intros H _.
  destruct (search_transactions_reports_answers rt w c h args r c' tr H)
    as (accounts & payees & categories & Haccounts & Hpayees & Hcategories
        & Hout).
  exists accounts, payees, categories.
  repeat (split; [ assumption | ]). cbv zeta. split.
  - rewrite Hout. unfold Tools.search_output. now rewrite length_map.
  - exact (search_is_filter_sort_limit (Tools.payeeMap payees) args
             (fetched_tagged tr)).
Qed.

(** C4 at the scenario: the payee text [costco], a minimum of -5.00 and a
    limit of 1.  The payees are those of the store, four expenses at
    Costco pass, and the latest of them is reported. *)
Lemma search_filters_sorts_limits_witness :
  let args :=
    Tools.SearchArgs.mk (Some "costco") None (Some (-5)%float) None None None
      (Some 1%float) in
  exists r c' tr,
    run Scenario.world (@Tools.search_transactions Scenario.runtime args)
        Scenario.client []
    = (Fulfilled r, c', tr)
    /\ Forall (fun t =>
                 is_ISO_date (Transaction.date (Tools.Tagged.transaction t))
                 = true)
              (fetched_tagged tr)
    /\ flat_map payees_answered tr = [Scenario.payees]
    /\ List.length
         (filter (fun t =>
                    Tools.payee_matches (Tools.payeeMap Scenario.payees)
                      "costco" t
                    && Tools.at_least
                         (ActualBudgetClient.toAmount (-5)%float) t)
                 (fetched_tagged tr))
       = 4
    /\ map (fun t => Transaction.id (Tools.Tagged.transaction t))
           (Tools.search (Tools.payeeMap Scenario.payees) args
              (fetched_tagged tr))
       = [Some "t3"].
Proof.
  cbv zeta. do 3 eexists. split; [ reflexivity | ].
  assert (Hdates : Forall (fun t =>
                     is_ISO_date (Transaction.date (Tools.Tagged.transaction t))
                     = true)
                     (fetched_tagged
                        (snd (run Scenario.world
                                (@Tools.search_transactions Scenario.runtime
                                   (Tools.SearchArgs.mk (Some "costco") None
                                      (Some (-5)%float) None None None
                                      (Some 1%float)))
                                Scenario.client []))))
    by (repeat constructor).
  split; [ exact Hdates | ].
  destruct (search_filters_sorts_limits Scenario.runtime Scenario.world
              Scenario.client []
              (Tools.SearchArgs.mk (Some "costco") None (Some (-5)%float) None
                 None None (Some 1%float))
              _ _ _ eq_refl Hdates)
    as (accounts & payees & categories & _ & Hpayees & _ & _ & Hboth & _ & _
        & _ & _ & _ & _ & Hlimit).
  split; [ reflexivity | ].
  inversion Hpayees; subst payees.
  pose proof (Hlimit 1%float 1%positive eq_refl eq_refl) as Hfirst.
  rewrite (Hboth _ _ _ eq_refl eq_refl eq_refl eq_refl) in Hfirst.
  split; [ reflexivity | ].
  rewrite Hfirst. reflexivity.
Defined.

(** C4 as stated fails, at the scenario: a search with a limit of 0 and no
    filter.  The requested limit is 0, and the six transactions of the two
    accounts are all reported. *)
Lemma search_limit_zero_counterexample :
  exists r c' tr out,
    run Scenario.world
        (@Tools.search_transactions Scenario.runtime
           (Tools.SearchArgs.mk None None None None None None (Some 0%float)))
        Scenario.client []
    = (Fulfilled r, c', tr)
    /\ JS.ToIntegerOrInfinity 0%float = JS.Finite 0
    /\ ToolResult.structuredContent r = OutSearch out
    /\ List.length (SearchOutput.transactions out) = 6
    /\ SearchOutput.total_count out = 6.
Proof.
  do 4 eexists. repeat split.
Qed.

(** ** Listings *)

Lemma Forall2_map_same (A B : Type) (R : A -> B -> Prop) (f : A -> B)
  (l : list A) :
  (forall x, In x l -> R x (f x)) -> Forall2 R l (map f l).
Proof.
  induction l as [|x l IH]; intros H; cbn [map]; constructor.
  - apply H. now left.
  - apply IH. intros y Hy. apply H. now right.
Qed.

Section Listings.

Context {rt : Runtime}.

(** X16.  [get_payees], when it is fulfilled, lists exactly the payees
    that are not transfer payees and, when a search text that is not empty
    is given, whose name contains it, case insensitively; each with its id
    and name, and [total_count] is the length of the list. *)
Theorem get_payees_lists_the_payees_that_match (w : World)
  (c : ClientState.t) (h : list Entry) (search : option string)
  (r : ToolResult.t) (c' : ClientState.t) (tr : list Entry) :
  run w (Tools.get_payees search) c h = (Fulfilled r, c', tr) ->
  exists payees listed,
    flat_map payees_answered tr = [payees]
    /\ ToolResult.structuredContent r
       = OutPayees (PayeesOutput.mk listed (List.length listed))
    /\ forall info,
         In info listed
         <-> exists p,
               In p payees
               /\ info = PayeeInfo.mk (Payee.id p) (Payee.name p)
               /\ JS.truthy_string (Payee.transfer_acct p) = false
               /\ match search with
                  | Some (String _ _ as text) =>
                      JS.includes (JS.toLowerCase (Payee.name p))
                                  (JS.toLowerCase text) = true
                  | _ => True
                  end.
Proof.
  intros H. unfold Tools.get_payees in H.
  destruct_client c; destruct search as [[|ch text]|]; run_cases H;
    try discriminate; inversion H; subst; clear H;
    (eexists _, _; split; [ reflexivity | ]);
    cbn [ToolResult.structuredContent];
    (split; [ now rewrite length_map | ]);
    intros info; rewrite in_map_iff;
    (split;
     [ intros (p & <- & Hin); rewrite ?filter_In in Hin; exists p;
       repeat match goal with
         | G : _ /\ _ |- _ => destruct G
         | G : negb _ = true |- _ => apply negb_true_iff in G
         end; auto
     | intros (p & Hin & -> & Htransfer & Hsearch); exists p;
       split; [ reflexivity | ]; rewrite ?filter_In;
       repeat split; auto; now rewrite Htransfer ]).
Qed.

(** X17.  [get_categories], when it is fulfilled, lists the groups that
    the store answered, in their order, each with its id, its name and its
    income flag ([false] when missing), and under each group exactly the
    categories whose [group_id] is the id of the group: a category without
    group, or of a group that is not listed, is not reported. *)
Theorem get_categories_lists_categories_under_their_group (w : World)
  (c : ClientState.t) (h : list Entry)
  (r : ToolResult.t) (c' : ClientState.t) (tr : list Entry) :
  run w Tools.get_categories c h = (Fulfilled r, c', tr) ->
  exists groups categories listed,
    flat_map groups_answered tr = [groups]
    /\ flat_map categories_answered tr = [categories]
    /\ ToolResult.structuredContent r
       = OutCategories (CategoriesOutput.mk listed)
    /\ Forall2
         (fun g info =>
            CategoryGroupInfo.id info = CategoryGroup.id g
            /\ CategoryGroupInfo.name info = CategoryGroup.name g
            /\ CategoryGroupInfo.is_income info
               = JS.or_false (CategoryGroup.is_income g)
            /\ forall member,
                 In member (CategoryGroupInfo.categories info)
                 <-> exists category,
                       In category categories
                       /\ member = CategoryInfo.mk (Category.id category)
                                     (Category.name category)
                       /\ Category.group_id category
                          = Some (CategoryGroup.id g))
         groups listed.
Proof.
  intros H. unfold Tools.get_categories in H.
  destruct_client c; run_cases H;
    try discriminate; inversion H; subst; clear H;
    (eexists _, _, _; split; [ reflexivity | ]);
    (split; [ reflexivity | ]); (split; [ reflexivity | ]);
    apply Forall2_map_same; intros g _;
    cbn [CategoryGroupInfo.id CategoryGroupInfo.name
         CategoryGroupInfo.is_income CategoryGroupInfo.categories];
    repeat (split; [ reflexivity | ]);
    intros member; rewrite in_map_iff;
    (split;
     [ intros (category & <- & Hin); apply filter_In in Hin;
       destruct Hin as (Hin & Hgroup); exists category;
       repeat split; [ exact Hin | ];
       destruct (Category.group_id category) as [gid|];
         [ apply String.eqb_eq in Hgroup; now subst | discriminate ]
     | intros (category & Hin & -> & Hgroup); exists category;
       split; [ reflexivity | ]; apply filter_In; split; [ exact Hin | ];
       rewrite Hgroup; apply String.eqb_refl ]).
Qed.

End Listings.

(** ** Imports *)

(** X18.  [importTransactions] of the client makes at most one import.
    When it makes none it is rejected.  When it makes one, it is for the
    account given, with the transactions given, in their order, each with
    its fields as given except [account], which is the account given; when
    the import is rejected so is the operation, with the same reason, and
    when the import is fulfilled the operation returns the [added] and
    [updated] ids of the answer, or is rejected and a call was rejected
    (the [api.sync] that follows the import). *)
Theorem importTransactions_imports_into_the_account (w : World)
  (c : ClientState.t) (h : list Entry) (accountId : string)
  (transactions : list Transaction.t) :
  let '(r, c', tr) :=
    run w (ActualBudgetClient.importTransactions accountId transactions) c h in
  match flat_map imports_called tr with
  | [] => exists reason, r = Rejected reason
  | [(account, sent, settled)] =>
      account = accountId
      /\ Forall2
           (fun given imported =>
              Transaction.account imported = accountId
              /\ Transaction.id imported = Transaction.id given
              /\ Transaction.date imported = Transaction.date given
              /\ Transaction.amount imported = Transaction.amount given
              /\ Transaction.payee imported = Transaction.payee given
              /\ Transaction.payee_name imported
                 = Transaction.payee_name given
              /\ Transaction.category imported = Transaction.category given
              /\ Transaction.notes imported = Transaction.notes given
              /\ Transaction.imported_id imported
                 = Transaction.imported_id given
              /\ Transaction.cleared imported = Transaction.cleared given)
           transactions sent
      /\ match settled, r with
         | Fulfilled answer, Fulfilled result =>
             ImportResult.added result = ImportResult.added answer
             /\ ImportResult.updated result = ImportResult.updated answer
         | Fulfilled _, Rejected _ => existsb entry_rejected tr = true
         | Rejected reason, _ => r = Rejected reason
         end
  | _ => False
  end.
Proof.
  destruct (run w _ c h) as [[r c'] tr] eqn:H.
  destruct_client c; run_cases H; inversion H; subst; clear H;
    cbn [flat_map imports_called app];
    try (eexists; reflexivity);
    (split; [ reflexivity | ]);
    (split; [ apply Forall2_map_same; intros t _; repeat split | ]);
    repeat split.
Qed.

(** ** The limit of a search *)

Lemma truthy_of_negative (x : JS.number) (k : positive) :
  JS.ToIntegerOrInfinity x = JS.Finite (Z.neg k) -> JS.truthy_number x = true.
Proof.
  unfold JS.ToIntegerOrInfinity, JS.truthy_number.
  destruct (Prim2SF x); try discriminate; reflexivity.
Qed.

Lemma truthy_of_infinite (x : JS.number) :
  JS.ToIntegerOrInfinity x = JS.PosInfinity
  \/ JS.ToIntegerOrInfinity x = JS.NegInfinity ->
  JS.truthy_number x = true.
Proof.
  unfold JS.ToIntegerOrInfinity, JS.truthy_number.
  destruct (Prim2SF x) as [s|s| |s m e]; intros [H|H]; try discriminate;
    reflexivity.
Qed.

Section Limit.

Context {rt : Runtime}.

(** X19.  A limit of [search_transactions] that is negative or infinite.
    With a limit whose integer part is [-k], the last [k] of the sorted
    matches are dropped ([slice(0, -k)]) and none is left when there are at
    most [k]; with [Infinity] all the matches are returned, with
    [-Infinity] none.  [total_count] is the number of those returned. *)
Theorem search_limit_that_is_negative_or_infinite (w : World)
  (c : ClientState.t) (h : list Entry) (args : Tools.SearchArgs.t)
  (limit : JS.number)
  (r : ToolResult.t) (c' : ClientState.t) (tr : list Entry) :
  run w (Tools.search_transactions args) c h = (Fulfilled r, c', tr) ->
  Tools.SearchArgs.limit args = Some limit ->
  exists accounts payees categories,
    let pm := Tools.payeeMap payees in
    let sorted :=
      JS.sort Tools.by_date_descending
              (filter (passes pm args) (fetched_tagged tr)) in
    let result := Tools.search pm args (fetched_tagged tr) in
    ToolResult.structuredContent r
    = OutSearch
        (SearchOutput.mk
           (map (Tools.format_found (Tools.accountMap accounts) pm
                   (Tools.categoryMap categories)) result)
           (List.length result))
    /\ match JS.ToIntegerOrInfinity limit with
       | JS.Finite (Z.neg k) =>
           result = firstn (List.length sorted - Pos.to_nat k) sorted
       | JS.PosInfinity => result = sorted
       | JS.NegInfinity => result = []
       | JS.Finite _ => True
       end.
Proof.
  intros H Hlimit.
  destruct (search_transactions_reports _ _ _ _ _ _ _ _ H)
    as (accounts & payees & categories & Hout).
  exists accounts, payees, categories. cbv zeta. split.
  - rewrite Hout. unfold Tools.search_output. cbv zeta.
    now rewrite length_map.
  - unfold Tools.search, Tools.maxResults. rewrite Hlimit.
    rewrite apply_filters_passes. cbn [JS.or_number_opt]. unfold JS.or_number.
    set (sorted := JS.sort _ _).
    destruct (JS.ToIntegerOrInfinity limit) as [|[|k|k]|] eqn:Eint;
      try exact I.
    + rewrite truthy_of_infinite by now right. unfold JS.slice0.
      rewrite Eint. reflexivity.
    + rewrite (truthy_of_negative _ _ Eint). unfold JS.slice0. rewrite Eint.
      replace (Z.neg k <? 0)%Z with true by (symmetry; apply Z.ltb_lt; lia).
      f_equal. lia.
    + rewrite truthy_of_infinite by now left. unfold JS.slice0.
      rewrite Eint, Nat2Z.id. apply firstn_all.
Qed.

End Limit.

(** X16 at the scenario: [COST] finds [Costco]. *)
Lemma get_payees_lists_the_payees_that_match_witness :
  exists r c' tr,
    run Scenario.world (@Tools.get_payees Scenario.runtime (Some "COST"))
        Scenario.client []
    = (Fulfilled r, c', tr)
    /\ exists listed,
         ToolResult.structuredContent r
         = OutPayees (PayeesOutput.mk listed (List.length listed))
         /\ In (PayeeInfo.mk "pay_1" "Costco") listed.
Proof.
  do 3 eexists. split.
  - reflexivity.
  - destruct (@get_payees_lists_the_payees_that_match Scenario.runtime
                Scenario.world Scenario.client [] (Some "COST") _ _ _ eq_refl)
      as (payees & listed & Hpayees & Hout & Hlisted).
    inversion Hpayees; subst payees.
    exists listed. split; [ exact Hout | ].
    apply Hlisted. exists (Payee.mk "pay_1" "Costco" None None).
    repeat split. now left.
Defined.

(** X17 at the store with one group: [Rent] is listed under [grp_1]. *)
Lemma get_categories_lists_categories_under_their_group_witness :
  exists r c' tr,
    run grouped_world (@Tools.get_categories Scenario.runtime)
        Scenario.client []
    = (Fulfilled r, c', tr)
    /\ exists group,
         ToolResult.structuredContent r
         = OutCategories (CategoriesOutput.mk [group])
         /\ CategoryGroupInfo.id group = "grp_1"
         /\ In (CategoryInfo.mk "cat_2" "Rent")
               (CategoryGroupInfo.categories group).
Proof.
  do 3 eexists. split.
  - reflexivity.
  - destruct (@get_categories_lists_categories_under_their_group
                Scenario.runtime grouped_world Scenario.client [] _ _ _
                eq_refl)
      as (groups & categories & listed & Hgroups & Hcategories & Hout & Hall).
    inversion Hgroups; subst groups. inversion Hcategories; subst categories.
    inversion Hall as [|g group gs rest (Hid & _ & _ & Hmembers) Hrest];
      subst.
    inversion Hrest; subst.
    exists group. split; [ exact Hout | ]. split; [ exact Hid | ].
    apply Hmembers. exists (Category.mk "cat_2" "Rent" (Some "grp_1") None).
    repeat split. right. now left.
Defined.

(** X19 at the scenario: with the limit -1, five of the six transactions
    fetched are returned. *)
Lemma search_limit_that_is_negative_or_infinite_witness :
  exists r c' tr,
    run Scenario.world
        (@Tools.search_transactions Scenario.runtime
           (Tools.SearchArgs.mk None None None None None None
              (Some (-1)%float)))
        Scenario.client []
    = (Fulfilled r, c', tr)
    /\ exists found, ToolResult.structuredContent r
                     = OutSearch (SearchOutput.mk found 5).
Proof.
  do 3 eexists. split.
  - reflexivity.
  - destruct (@search_limit_that_is_negative_or_infinite Scenario.runtime
                Scenario.world Scenario.client []
                (Tools.SearchArgs.mk None None None None None None
                   (Some (-1)%float))
                (-1)%float _ _ _ eq_refl eq_refl)
      as (accounts & payees & categories & Hout & Hcut).
    cbv zeta in Hout, Hcut. eexists. rewrite Hout. rewrite Hcut. reflexivity.
Defined.

(** ** Dates as texts *)

Lemma before_first (sep : ascii) (s rest : string) :
  occurs sep s = false -> JS.before sep (s ++ String sep rest) = s.
Proof.
  induction s as [|c s IH]; cbn [occurs]; intros H.
  - change (JS.before sep (String sep rest) = "").
    cbn [JS.before]. now rewrite Ascii.eqb_refl.
  - apply orb_false_iff in H. destruct H as (Hc & Hs).
    change (JS.before sep (String c (s ++ String sep rest)) = String c s).
    cbn [JS.before]. rewrite Hc. now rewrite IH.
Qed.

Lemma substring_of_prefix (n : nat) (s rest : string) :
  n <= String.length s ->
  String.substring 0 n (s ++ rest) = String.substring 0 n s.
Proof.
  revert s. induction n as [|n IH]; intros s H.
  - now destruct s; destruct rest.
  - destruct s as [|c s]; cbn in H; [ lia | ].
    change (String c (String.substring 0 n (s ++ rest))
            = String c (String.substring 0 n s)).
    rewrite IH by lia. reflexivity.
Qed.

Lemma substring_is_prefix (n : nat) (s : string) :
  String.prefix (String.substring 0 n s) s = true.
Proof.
  revert s. induction n as [|n IH]; intros s.
  - now destruct s.
  - destruct s as [|c s]; cbn; [ reflexivity | ].
    destruct (ascii_dec c c); [ apply IH | contradiction ].
Qed.

(** X20.  [formatDate] and [formatMonth] of an instant whose ISO text is
    [<date>T<time>], the date having no [T]: [formatDate] is the date,
    whatever the time holds, and when the date has at least seven
    characters [formatMonth] is its first seven, so that the month of an
    instant is a prefix of its date. *)
Theorem formatDate_and_formatMonth_of_an_instant (date time : string) :
  occurs "T" date = false ->
  let d := Date.mk (date ++ String "T" time) in
  ActualBudgetClient.formatDate d = date
  /\ (7 <= String.length date ->
      ActualBudgetClient.formatMonth d = String.substring 0 7 date
      /\ String.prefix (ActualBudgetClient.formatMonth d)
                       (ActualBudgetClient.formatDate d) = true).
Proof.
  intros Hdate d. unfold ActualBudgetClient.formatDate,
    ActualBudgetClient.formatMonth. cbn [Date.toISOString d].
  rewrite before_first by exact Hdate. split; [ reflexivity | ].
  intros Hlength. rewrite substring_of_prefix by exact Hlength.
  split; [ reflexivity | apply substring_is_prefix ].
Qed.

(** X20 at the instant of the scenario's clock. *)
Lemma formatDate_and_formatMonth_of_an_instant_witness :
  let d := Date.mk "2026-11-03T09:30:00.000Z" in
  ActualBudgetClient.formatDate d = "2026-11-03"
  /\ ActualBudgetClient.formatMonth d = "2026-11".
Proof.
  cbv zeta.
  destruct (formatDate_and_formatMonth_of_an_instant "2026-11-03"
              "09:30:00.000Z" eq_refl) as (Hdate & Hmonth).
  split; [ exact Hdate | ].
  refine (proj1 (Hmonth _)). cbn. lia.
Defined.

(** ** The numbers of a budget month *)

Section Signs.

Local Open Scope Z_scope.

Lemma iter_shr_1_nonnegative (p : positive) :
  forall mrs, 0 <= shr_m mrs -> 0 <= shr_m (iter_pos shr_1 p mrs).
Proof.
  assert (H1 : forall mrs, 0 <= shr_m mrs -> 0 <= shr_m (shr_1 mrs)).
  { intros [m r s] Hm. cbn [shr_m] in Hm. rewrite shr_1_fields by exact Hm.
    cbn [shr_m]. apply Z.div_pos; lia. }
  induction p as [p IH|p IH|]; intros mrs Hm; cbn [iter_pos]; auto.
Qed.

Lemma shr_fexp_nonnegative (m e : Z) (l : location) :
  0 <= m -> 0 <= shr_m (fst (shr_fexp prec emax m e l)).
Proof.
  intros Hm. unfold shr_fexp, shr.
  assert (H0 : 0 <= shr_m (shr_record_of_loc m l))
    by (destruct l as [|[]]; exact Hm).
  destruct (fexp prec emax (Zdigits2 m + e) - e) as [|p|p]; cbn [fst];
    [ exact H0 | | exact H0 ].
  now apply iter_shr_1_nonnegative.
Qed.

(** A rounding of a mantissa that is not negative gives a zero, a finite
    number or an infinity, with the sign that was asked. *)
Lemma binary_round_aux_is_a_number (s : bool) (m e : Z) (l : location) :
  0 <= m ->
  match binary_round_aux prec emax s m e l with
  | S754_zero s' | S754_infinity s' | S754_finite s' _ _ => s' = s
  | S754_nan => False
  end.
Proof.
  intros Hm. unfold binary_round_aux.
  pose proof (shr_fexp_nonnegative m e l Hm) as H1.
  destruct (shr_fexp prec emax m e l) as [mrs1 e1]. cbn [fst] in H1.
  set (m2 := round_nearest_even (shr_m mrs1) (loc_of_shr_record mrs1)).
  assert (H2 : 0 <= m2).
  { unfold m2, round_nearest_even.
    destruct (loc_of_shr_record mrs1) as [|[]]; try lia.
    destruct (Z.even (shr_m mrs1)); lia. }
  pose proof (shr_fexp_nonnegative m2 e1 loc_Exact H2) as H3.
  destruct (shr_fexp prec emax m2 e1 loc_Exact) as [mrs3 e3]. cbn [fst] in H3.
  destruct (shr_m mrs3) as [|m3|m3]; [ reflexivity | | lia ].
  destruct (e3 <=? emax - prec); reflexivity.
Qed.

End Signs.

Lemma sign_bit_or_number (v : option JS.number) :
  is_NaN (JS.or_number_opt v 0%float) = false.
Proof.
  destruct v as [x|]; [ | reflexivity ]. cbn [JS.or_number_opt].
  unfold JS.or_number, JS.truthy_number, is_NaN, sign_bit.
  destruct (Prim2SF x) eqn:E; try reflexivity; now rewrite E.
Qed.

(** Dividing by 100 keeps the sign bit, and [NaN]. *)
Lemma fromAmount_sign_bit (x : JS.number) :
  sign_bit (ActualBudgetClient.fromAmount x) = sign_bit x.
Proof.
  unfold sign_bit, ActualBudgetClient.fromAmount.
  rewrite FloatAxioms.div_spec, Prim2SF_100. unfold SF64div, SFdiv.
  destruct (Prim2SF x) as [s|s| |s m e]; try reflexivity;
    try (now destruct s).
  unfold SFdiv_core_binary.
  destruct (Z.div_eucl _ _) as [q r] eqn:E.
  assert (Hq : (0 <= q)%Z).
  { assert (Hq : q = fst (Z.div_eucl
                            (match (e - -46 - Z.min (fexp prec emax
                                      (Zdigits2 (Z.pos m) + e
                                       - (Zdigits2 (Z.pos hundred) + -46)))
                                      (e - -46))%Z with
                             | Z0 => Z.pos m
                             | Z.pos _ =>
                                 Z.shiftl (Z.pos m)
                                   (e - -46 - Z.min (fexp prec emax
                                      (Zdigits2 (Z.pos m) + e
                                       - (Zdigits2 (Z.pos hundred) + -46)))
                                      (e - -46))
                             | Z.neg _ => 0%Z
                             end) (Z.pos hundred)))
      by (change IntDef.Z.div_eucl with Z.div_eucl in E; now rewrite E).
    rewrite Hq. change (fst (Z.div_eucl ?a ?b)) with (a / b)%Z.
    apply Z.div_pos; [ | lia ].
    destruct (_ - _)%Z; try lia. apply Z.shiftl_nonneg. lia. }
  rewrite xorb_false_r.
  pose proof (binary_round_aux_is_a_number s q
                (Z.min (fexp prec emax
                          (Zdigits2 (Z.pos m) + e
                           - (Zdigits2 (Z.pos hundred) + -46)))
                       (e - -46))
                (new_location (Z.pos hundred) r) Hq) as H.
  destruct (binary_round_aux _ _ _ _ _) as [s'|s'| |s' ? ?];
    try contradiction; now subst s'.
Qed.

Lemma positive_or_zero_ge_0 (x : JS.number) :
  is_positive_or_zero x = true -> JS.ge x 0%float = true.
Proof.
  unfold is_positive_or_zero, sign_bit, JS.ge. rewrite FloatAxioms.leb_spec.
  change (Prim2SF 0%float) with (S754_zero false).
  now destruct (Prim2SF x) as [[]|[]| |[] ? ?].
Qed.

Lemma abs_positive_or_zero (x : JS.number) :
  is_NaN x = false -> is_positive_or_zero (JS.Math_abs x) = true.
Proof.
  unfold is_positive_or_zero, is_NaN, sign_bit, JS.Math_abs. rewrite FloatAxioms.abs_spec.
  now destruct (Prim2SF x).
Qed.

Lemma add_positive_or_zero (x y : JS.number) :
  is_positive_or_zero x = true -> is_positive_or_zero y = true ->
  is_positive_or_zero (PrimFloat.add x y) = true.
Proof.
  unfold is_positive_or_zero, sign_bit. rewrite FloatAxioms.add_spec. unfold SF64add, SFadd.
  destruct (Prim2SF x) as [[]|[]| |[] mx ex]; try discriminate;
    destruct (Prim2SF y) as [[]|[]| |[] my ey]; try discriminate;
    try reflexivity.
  intros _ _. cbn [cond_Zopp]. unfold binary_normalize.
  rewrite <- Pos2Z.inj_add. unfold binary_round.
  destruct (shl_align _ _ _) as [mz ez].
  pose proof (binary_round_aux_is_a_number false (Z.pos mz) ez loc_Exact
                ltac:(lia)) as H.
  destruct (binary_round_aux _ _ _ _ _ _) as [s|s| |s ? ?];
    try contradiction; now subst s.
Qed.

Lemma sum_positive_or_zero (A : Type) (f : A -> JS.number) (l : list A) :
  Forall (fun x => is_positive_or_zero (f x) = true) l ->
  forall init, is_positive_or_zero init = true ->
  is_positive_or_zero
    (fold_left (fun s x => PrimFloat.add s (f x)) l init) = true.
Proof.
  induction 1 as [|x l Hx _ IH]; intros init Hinit; cbn [fold_left];
    [ exact Hinit | ].
  apply IH. now apply add_positive_or_zero.
Qed.

Lemma is_a_number_fromAmount (x : JS.number) :
  is_NaN x = false -> is_NaN (ActualBudgetClient.fromAmount x) = false.
Proof. unfold is_NaN. now rewrite fromAmount_sign_bit. Qed.

Lemma positive_or_zero_fromAmount (x : JS.number) :
  is_positive_or_zero x = true ->
  is_positive_or_zero (ActualBudgetClient.fromAmount x) = true.
Proof. unfold is_positive_or_zero. now rewrite fromAmount_sign_bit. Qed.

Lemma positive_or_zero_is_a_number (x : JS.number) :
  is_positive_or_zero x = true -> is_NaN x = false.
Proof. unfold is_positive_or_zero, is_NaN. now destruct (sign_bit x) as [[]|]. Qed.

Lemma groupSpent_positive_or_zero (raw : RawCategoryGroupBudget.t) :
  is_positive_or_zero
    (Tools.groupSpent (ActualBudgetClient.transform_group raw)) = true.
Proof.
  unfold Tools.groupSpent, JS.reduce, ActualBudgetClient.transform_group.
  cbn [CategoryGroupBudget.categories].
  apply sum_positive_or_zero; [ | reflexivity ].
  apply Forall_map, Forall_forall. intros c _.
  apply abs_positive_or_zero, sign_bit_or_number.
Qed.

Lemma budget_category_numbers (raw : RawCategoryBudget.t) :
  let c := Tools.budget_category (ActualBudgetClient.transform_category raw) in
  Forall (fun x => is_NaN x = false) (numbers_of_category c)
  /\ is_positive_or_zero (CategoryBudgetInfo.spent c) = true.
Proof.
  cbv zeta. split.
  - repeat constructor; cbn; apply is_a_number_fromAmount;
      try apply positive_or_zero_is_a_number, abs_positive_or_zero;
      apply sign_bit_or_number.
  - cbn. apply positive_or_zero_fromAmount, abs_positive_or_zero,
      sign_bit_or_number.
Qed.

Lemma budget_group_numbers (raw : RawCategoryGroupBudget.t) :
  let g := Tools.budget_group (ActualBudgetClient.transform_group raw) in
  Forall (fun x => is_NaN x = false) (numbers_of_group g)
  /\ Forall (fun x => is_positive_or_zero x = true)
            (GroupBudgetInfo.spent g
             :: map CategoryBudgetInfo.spent (GroupBudgetInfo.categories g)).
Proof.
  cbv zeta.
  pose proof (groupSpent_positive_or_zero raw) as Hspent.
  unfold numbers_of_group, Tools.budget_group.
  cbn [GroupBudgetInfo.budgeted GroupBudgetInfo.spent GroupBudgetInfo.balance
       GroupBudgetInfo.categories].
  split.
  - apply Forall_app. split.
    + repeat constructor.
      * apply is_a_number_fromAmount, sign_bit_or_number.
      * now apply is_a_number_fromAmount, positive_or_zero_is_a_number.
      * apply is_a_number_fromAmount, sign_bit_or_number.
    + apply Forall_flat_map, Forall_map.
      unfold ActualBudgetClient.transform_group.
      cbn [CategoryGroupBudget.categories].
      apply Forall_map, Forall_forall. intros c _.
      apply budget_category_numbers.
  - constructor; [ now apply positive_or_zero_fromAmount | ].
    rewrite map_map. apply Forall_map.
    unfold ActualBudgetClient.transform_group.
    cbn [CategoryGroupBudget.categories].
    apply Forall_map, Forall_forall. intros c _.
    apply budget_category_numbers.
Qed.

Lemma budget_month_numbers (targetMonth : string) (raw : RawBudgetMonth.t) :
  let out := Tools.budget_month_output targetMonth
               (ActualBudgetClient.transform_budget targetMonth raw) in
  Forall (fun x => is_NaN x = false) (numbers_of_month out)
  /\ Forall (fun x => is_positive_or_zero x = true) (spent_of_month out).
Proof.
  cbv zeta.
  unfold Tools.budget_month_output, ActualBudgetClient.transform_budget,
    numbers_of_month, spent_of_month.
  cbn [BudgetMonthOutput.to_budget BudgetMonthOutput.total_budgeted
       BudgetMonthOutput.total_spent BudgetMonthOutput.category_groups
       BudgetMonth.toBudget BudgetMonth.totalBudgeted
       BudgetMonth.categoryGroups].
  set (groups := ActualBudgetClient.or_empty (RawBudgetMonth.categoryGroups raw)).
  assert (Htotal : is_positive_or_zero
                     (ActualBudgetClient.fromAmount
                        (Tools.totalSpent_of_groups
                           (map ActualBudgetClient.transform_group groups)))
                   = true).
  { apply positive_or_zero_fromAmount. unfold Tools.totalSpent_of_groups.
    apply sum_positive_or_zero; [ | reflexivity ].
    apply Forall_map, Forall_forall. intros g _.
    apply groupSpent_positive_or_zero. }
  split.
  - apply Forall_app. split.
    + repeat constructor.
      * apply is_a_number_fromAmount, sign_bit_or_number.
      * apply is_a_number_fromAmount, sign_bit_or_number.
      * now apply positive_or_zero_is_a_number.
    + apply Forall_flat_map, Forall_map, Forall_map, Forall_forall.
      intros g _. apply budget_group_numbers.
  - constructor; [ exact Htotal | ].
    apply Forall_flat_map, Forall_map, Forall_map, Forall_forall.
    intros g _. apply budget_group_numbers.
Qed.

Section BudgetMonthNumbers.

Context {rt : Runtime}.

(** X21.  The numbers of [get_budget_month].  Whenever the tool is
    fulfilled, none of the numbers it reports (of the month, of a group, of
    a category) is [NaN], whatever the store answered: a property that is
    missing, zero or [NaN] is read as 0.  And every [spent] it reports is
    [>= 0], whatever the signs of the [spent] of the categories. *)
Theorem get_budget_month_reports_numbers (w : World) (c : ClientState.t)
  (h : list Entry) (month : option string)
  (r : ToolResult.t) (c' : ClientState.t) (tr : list Entry) :
  run w (Tools.get_budget_month month) c h = (Fulfilled r, c', tr) ->
  exists out,
    ToolResult.structuredContent r = OutBudgetMonth out
    /\ Forall (fun x => is_NaN x = false) (numbers_of_month out)
    /\ Forall (fun x => JS.ge x 0%float = true) (spent_of_month out).
Proof.
  intros H.
  destruct (get_budget_month_reports rt w c h month r c' tr H)
    as (targetMonth & raw & _ & Hout).
  eexists. split; [ exact Hout | ].
  destruct (budget_month_numbers targetMonth raw) as [Hn Hs].
  split; [ exact Hn | ].
  eapply Forall_impl; [ | exact Hs ]. intros x. apply positive_or_zero_ge_0.
Qed.

End BudgetMonthNumbers.

(** X21 at the scenario. *)
Lemma get_budget_month_reports_numbers_witness :
  exists r c' tr,
    run Scenario.world (@Tools.get_budget_month Scenario.runtime (Some "2024-01"))
        Scenario.client []
    = (Fulfilled r, c', tr)
    /\ exists out,
        ToolResult.structuredContent r = OutBudgetMonth out
        /\ Forall (fun x => is_NaN x = false) (numbers_of_month out)
        /\ Forall (fun x => JS.ge x 0%float = true) (spent_of_month out).
Proof.
  do 3 eexists. split.
  - reflexivity.
  - exact (@get_budget_month_reports_numbers Scenario.runtime Scenario.world
             Scenario.client [] (Some "2024-01") _ _ _ eq_refl).
Defined.

(** ** The server *)

Lemma substring_all (s : string) : String.substring 0 (String.length s) s = s.
Proof. induction s as [|c s IH]; cbn; [ reflexivity | now rewrite IH ]. Qed.

Lemma replace_Bearer (token : string) :
  Server.replace "Bearer " "" ("Bearer " ++ token) = token.
Proof.
  destruct token as [|c token]; [ reflexivity | ].
  cbv [String.append].
  cbn [Server.replace String.prefix String.length String.substring Nat.sub].
  repeat match goal with
         | |- context [ascii_dec ?a ?a] =>
             destruct (ascii_dec a a); [ | contradiction ]
         end.
  change (String c (String.substring 0 (String.length token) token)
          = String c token).
  now rewrite substring_all.
Qed.

(** X22.  [validateConfig] lets the server start exactly when
    [ACTUAL_PASSWORD] and [ACTUAL_BUDGET_ID] are both set and not empty.
    Otherwise the process exits with code 1, and the first line written
    names the variables that are not, in this order, separated by a comma
    and a space.  No other variable is required. *)
Theorem validateConfig_requires_password_and_budget
  (parseInt : string -> JS.number) (env : Server.Env) :
  let unset :=
    filter (fun name => negb (JS.truthy_string (env name)))
           ["ACTUAL_PASSWORD"; "ACTUAL_BUDGET_ID"] in
  match Server.validateConfig (Server.config parseInt env) with
  | Server.Continue => unset = []
  | Server.Exit code stderr =>
      code = 1%Z
      /\ unset <> []
      /\ hd_error stderr
         = Some ("Missing required environment variables: "
                 ++ String.concat ", " unset)%string
  end.
Proof.
  unfold Server.validateConfig, Server.config.
  cbn [Server.Config.actualPassword Server.Config.actualBudgetId filter].
  destruct (env "ACTUAL_PASSWORD") as [[|c1 p]|];
    destruct (env "ACTUAL_BUDGET_ID") as [[|c2 b]|]; cbn;
    try reflexivity; repeat split; discriminate.
Qed.

(** X23.  The token check of the HTTP server.  Without [MCP_AUTH_TOKEN]
    (or with an empty one) every request is handed on.  With a token, a
    request is handed on when its [token] query parameter is the token, or
    when it has no such parameter (or an empty one) and its [Authorization]
    header is [Bearer <token>], or is the token itself (a token that
    [Bearer ] does not occur in); a request with neither, or with another
    query parameter that is not empty, is answered 401 with the JSON-RPC
    error -32001, whatever its header. *)
Theorem authenticateToken_decides (config : Server.Config.t)
  (req : Server.Request.t) :
  let unauthorized :=
    Server.Json 401
      (Server.ErrorBody.mk "2.0" (-32001)
         "Unauthorized: Invalid or missing token") in
  match Server.Config.authToken config with
  | EmptyString => Server.authenticateToken config req = Server.Next
  | token =>
      (Server.Request.query_token req = Some token ->
       Server.authenticateToken config req = Server.Next)
      /\ (JS.truthy_string (Server.Request.query_token req) = false ->
          Server.Request.authorization req = Some ("Bearer " ++ token)%string ->
          Server.authenticateToken config req = Server.Next)
      /\ (JS.truthy_string (Server.Request.query_token req) = false ->
          Server.Request.authorization req = Some token ->
          Server.replace "Bearer " "" token = token ->
          Server.authenticateToken config req = Server.Next)
      /\ (JS.truthy_string (Server.Request.query_token req) = false ->
          JS.truthy_string (Server.Request.authorization req) = false ->
          Server.authenticateToken config req = unauthorized)
      /\ (forall other,
             Server.Request.query_token req = Some other ->
             JS.truthy_string (Some other) = true ->
             other <> token ->
             Server.authenticateToken config req = unauthorized)
  end.
Proof.
  intros unauthorized. unfold Server.authenticateToken.
  destruct (Server.Config.authToken config) as [|c t] eqn:Etoken;
    [ reflexivity | ].
  cbn [Server.is_empty].
  repeat split.
  - intros ->. cbn [JS.truthy_string negb orb]. now rewrite String.eqb_refl.
  - intros -> ->. cbn [option_map]. rewrite replace_Bearer.
    cbn [JS.truthy_string negb orb]. now rewrite String.eqb_refl.
  - intros -> -> Hraw. cbn [option_map]. rewrite Hraw.
    cbn [JS.truthy_string negb orb]. now rewrite String.eqb_refl.
  - intros -> Hnone. destruct (Server.Request.authorization req) as [[|c' a]|];
      try discriminate; reflexivity.
  - intros other -> Hother Hneq.
    destruct other as [|c' o]; [ discriminate | ].
    cbn [JS.truthy_string negb orb].
    destruct (String.eqb_spec (String c' o) (String c t));
      [ contradiction | reflexivity ].
Qed.

(** X24.  The client that [main] builds connects with the environment of
    the process: [init] on it calls [api.init] with [ACTUAL_SERVER_URL]
    (default [http://localhost:5006]), [ACTUAL_PASSWORD] and
    [ACTUAL_DATA_DIR] (default [/data/actual-cache]; the client's own
    default is never used), then [api.downloadBudget] for
    [ACTUAL_BUDGET_ID], with [ACTUAL_ENCRYPTION_PASSWORD] when it is set
    and not empty.  The client is initialized when both are fulfilled and
    is unchanged when one is rejected. *)
Theorem server_connects_with_its_environment (parseInt : string -> JS.number)
  (env : Server.Env) (w : World) (h : list Entry) :
  let client := Server.actualClient (Server.config parseInt env) in
  let init :=
    api_init (JS.or_string (env "ACTUAL_SERVER_URL") "http://localhost:5006")
             (JS.or_string (env "ACTUAL_PASSWORD") "")
             (JS.or_string (env "ACTUAL_DATA_DIR") "/data/actual-cache") in
  let download :=
    api_downloadBudget (JS.or_string (env "ACTUAL_BUDGET_ID") "")
      (if JS.truthy_string (env "ACTUAL_ENCRYPTION_PASSWORD")
       then env "ACTUAL_ENCRYPTION_PASSWORD" else None) in
  let '(r, c', tr) := run w ActualBudgetClient.init client h in
  match r with
  | Fulfilled _ =>
      tr = [Called init (Fulfilled tt); Called download (Fulfilled tt)]
      /\ ClientState.initialized c' = true
  | Rejected reason =>
      (tr = [Called init (Rejected reason)]
       \/ tr = [Called init (Fulfilled tt); Called download (Rejected reason)])
      /\ c' = client
  end.
Proof.
  cbv zeta.
  assert (Hdir : JS.or_string
                   (Some (JS.or_string (env "ACTUAL_DATA_DIR")
                            "/data/actual-cache")) "/tmp/actual-data"
                 = JS.or_string (env "ACTUAL_DATA_DIR") "/data/actual-cache")
    by (destruct (env "ACTUAL_DATA_DIR") as [[|? ?]|]; reflexivity).
  unfold ActualBudgetClient.init, Server.actualClient, Server.config.
  cbn [run ClientState.initialized ClientState.config ActualConfig.serverURL
       ActualConfig.password ActualConfig.dataDir ActualConfig.budgetId
       ActualConfig.encryptionPassword Server.Config.actualServerURL
       Server.Config.actualPassword Server.Config.actualBudgetId
       Server.Config.actualEncryptionPassword Server.Config.actualDataDir
       bind await].
  rewrite Hdir.
  destruct (answer w unit h _) as [[]|reason] eqn:Einit; [ | cbn; auto ].
  destruct (JS.truthy_string (env "ACTUAL_ENCRYPTION_PASSWORD")); cbn;
    match goal with
    | |- context [answer w unit ?h' ?call] =>
        destruct (answer w unit h' call) as [[]|reason]
    end; cbn; auto.
Qed.
